(** * POS-System: inventory catalogue and sale ledger

  A shallow embedding of the data operations of [pos_frontend.py] and
  [pos_system.py], and the properties of the sale life cycle
  (sell, cancel, uncancel, delete), of the catalogue and of checkout.

  Modelling conventions.
  - A table is the list of its rows in insertion order.  A statement
    [UPDATE t SET ... WHERE id = ?] rewrites every row whose [id] matches,
    [DELETE FROM t WHERE id = ?] drops every such row, and
    [SELECT ... WHERE id = ?] followed by [fetchone()] yields the first one.
    The primary key is not built into the type of a table: the properties
    that need it assume that the ids of the table are pairwise distinct, and
    insertion, which draws a new id, keeps them so.
  - Python [int]s are modelled by [Z], and so are [INTEGER] columns, which
    hold integers of 64 bits.  [binds] tells the integers that the driver
    hands to the engine: on any other [execute] raises [OverflowError], and
    the functions that pass a price or a quantity of the caller to
    [execute] have this case.  Ids are taken within the 64 bits, the next
    id of a table as well: the raise of [execute] on an id beyond them,
    which writes nothing, is modelled in [index] only.  A sum [quantity + ?] beyond the 64 bits is computed by
    the engine as a [REAL]; a column that holds one is not a state of the
    model, and the properties that depend on such a sum say that it fits
    ([restorable]).
  - [REAL] columns and Python [float]s are kept abstract: the development is
    parametric in the type [price], in the product [price_mul] of a price
    by an integer quantity, and in the test [isnan] of a float that is not
    a number, which the driver binds as [NULL] and a [NOT NULL] column
    refuses with [IntegrityError].  [converts] tells the integers that
    [float] turns into a float; on any other the product raises
    [OverflowError].
  - [float(s)] and [int(s)] on text are parameters [py_float] and [py_int]
    of the handlers that call them; they answer [None] where Python raises
    [ValueError].
  - Text is modelled by [string], as the bytes of its UTF-8 encoding, which
    is what the engine stores.  [str.strip] removes the white space
    characters of Unicode; [LIKE] reads the code points, up to the first
    NUL; [COLLATE NOCASE] and [LIKE] fold the letters of the ASCII range
    only.
  - A function that returns, prints or flashes an f-string returns the
    constructor that names the template, carrying the interpolated values.
  - [datetime.now()] and [uuid4()] are read from the environment: the
    functions that call them take the value read as an argument.
  - Every function that writes ends with [conn.commit()], and an exception
    is raised before anything is written, so a call is one step from
    database to database.
  - The limits that the engine puts on the length of a statement or of a
    [LIKE] pattern and on the number of its parameters are not modelled. *)

From Stdlib Require Import ZArith List String Ascii Bool Lia.
From Stdlib Require Import Permutation Sorted QArith.
Import ListNotations.

Local Open Scope string_scope.
Local Open Scope Z_scope.

(** ** Python string operations used by the handlers *)

(** [str.isspace] on a character of one byte: tab, line feed, vertical tab,
    form feed, carriage return, the four separators [\x1c] to [\x1f], and
    space. *)
Definition isspace (c : ascii) : bool :=
let n := N_of_ascii c in
((9 <=? n) && (n <=? 13) || (28 <=? n) && (n <=? 32))%N.

(** [str.isspace] on a character of two bytes: U+0085 and U+00A0. *)
Definition isspace2 (c1 c2 : ascii) : bool :=
let n1 := N_of_ascii c1 in
let n2 := N_of_ascii c2 in
((n1 =? 194) && ((n2 =? 133) || (n2 =? 160)))%N.

(** [str.isspace] on a character of three bytes: U+1680, U+2000 to U+200A,
    U+2028, U+2029, U+202F, U+205F and U+3000.  No character of four bytes
    is white space. *)
Definition isspace3 (c1 c2 c3 : ascii) : bool :=
let n1 := N_of_ascii c1 in
let n2 := N_of_ascii c2 in
let n3 := N_of_ascii c3 in
((n1 =? 225) && (n2 =? 154) && (n3 =? 128) ||
 (n1 =? 226) && (n2 =? 128) &&
   ((128 <=? n3) && (n3 <=? 138) || (n3 =? 168) || (n3 =? 169) || (n3 =? 175)) ||
 (n1 =? 226) && (n2 =? 129) && (n3 =? 159) ||
 (n1 =? 227) && (n2 =? 128) && (n3 =? 128))%N.

(** [s.lstrip()]: the white space characters at the start are dropped. *)
Fixpoint lstrip (s : string) : string :=
match s with
| EmptyString => EmptyString
| String c1 s1 =>
    if isspace c1 then lstrip s1
    else
      match s1 with
      | EmptyString => s
      | String c2 s2 =>
          if isspace2 c1 c2 then lstrip s2
          else
            match s2 with
            | EmptyString => s
            | String c3 s3 => if isspace3 c1 c2 c3 then lstrip s3 else s
            end
      end
end.

(** The text is one white space character. *)
Definition is_space (s : string) : bool :=
match s with
| String c1 EmptyString => isspace c1
| String c1 (String c2 EmptyString) => isspace2 c1 c2
| String c1 (String c2 (String c3 EmptyString)) => isspace3 c1 c2 c3
| _ => false
end.

(** [s.rstrip()]: read from the end, a character is dropped when nothing
    but white space follows it and it is white space itself. *)
Fixpoint rstrip (s : string) : string :=
match s with
| EmptyString => EmptyString
| String c s' =>
    let r := String c (rstrip s') in
    if is_space r then EmptyString else r
end.

(** [s.strip()] *)
Definition strip (s : string) : string := rstrip (lstrip s).

(** The text starts with a white space character. *)
Definition space_start (s : string) : bool :=
match s with
| EmptyString => false
| String c1 s1 =>
    isspace c1 ||
    match s1 with
    | EmptyString => false
    | String c2 s2 =>
        isspace2 c1 c2 ||
        match s2 with
        | EmptyString => false
        | String c3 s3 => isspace3 c1 c2 c3
        end
    end
end.

(** [s.lower()] on the letters of the ASCII range.  The code compares the
    result with the words of [ALLOWED_EXTENSIONS] only, and no text with
    another cased letter lowers to one of them. *)
Definition lower_char (c : ascii) : ascii :=
let n := N_of_ascii c in
if ((65 <=? n) && (n <=? 90))%N then ascii_of_N (n + 32) else c.

Fixpoint lower (s : string) : string :=
match s with
| EmptyString => EmptyString
| String c s' => String (lower_char c) (lower s')
end.

Fixpoint contains_dot (s : string) : bool :=
match s with
| EmptyString => false
| String c s' => Ascii.eqb c "."%char || contains_dot s'
end.

(** [s.rsplit(".", 1)[-1]]: what follows the last dot, the whole of [s]
    when it has none. *)
Fixpoint rsplit_dot_last (s : string) : string :=
match s with
| EmptyString => EmptyString
| String c s' =>
    if contains_dot s' then rsplit_dot_last s'
    else if Ascii.eqb c "."%char then s' else s
end.

(** [ALLOWED_EXTENSIONS] *)
Definition ALLOWED_EXTENSIONS : list string :=
["png"; "jpg"; "jpeg"; "gif"; "webp"].

(** [x in ALLOWED_EXTENSIONS] *)
Definition allowed_extension (ext : string) : bool :=
existsb (String.eqb ext) ALLOWED_EXTENSIONS.

(** ** Rows of the two tables *)

Module Inventory.
(** [CREATE TABLE inventory (id, name, price, quantity, image_path, favorite)];
    [image_path] is nullable. *)
Record row (price : Type) : Type := Row {
  id : Z;
  name : string;
  price_ : price;
  quantity : Z;
  image_path : option string;
  favorite : Z
}.
Arguments Row {price}.
Arguments id {price}.
Arguments name {price}.
Arguments price_ {price}.
Arguments quantity {price}.
Arguments image_path {price}.
Arguments favorite {price}.

Definition set_name {price} (v : string) (r : row price) : row price :=
  Row (id r) v (price_ r) (quantity r) (image_path r) (favorite r).
Definition set_price {price} (v : price) (r : row price) : row price :=
  Row (id r) (name r) v (quantity r) (image_path r) (favorite r).
Definition set_quantity {price} (v : Z) (r : row price) : row price :=
  Row (id r) (name r) (price_ r) v (image_path r) (favorite r).
Definition set_image_path {price} (v : option string) (r : row price) : row price :=
  Row (id r) (name r) (price_ r) (quantity r) v (favorite r).
End Inventory.

Module Sales.
(** [CREATE TABLE sales (id, item_id, quantity, timestamp, total_price, cancelled)]. *)
Record row (price : Type) : Type := Row {
  id : Z;
  item_id : Z;
  quantity : Z;
  timestamp : string;
  total_price : price;
  cancelled : Z
}.
Arguments Row {price}.
Arguments id {price}.
Arguments item_id {price}.
Arguments quantity {price}.
Arguments timestamp {price}.
Arguments total_price {price}.
Arguments cancelled {price}.

Definition set_cancelled {price} (v : Z) (r : row price) : row price :=
  Row (id r) (item_id r) (quantity r) (timestamp r) (total_price r) v.
End Sales.

(** Truth value of an integer in a Python condition ([if row["cancelled"]]). *)
Definition truthy (v : Z) : bool := negb (v =? 0).

(** ** The database *)

(** The two tables and, for each, the largest row id ever handed out
  ([AUTOINCREMENT] keeps it in [sqlite_sequence]). *)
Record db (price : Type) : Type := Db {
inventory : list (Inventory.row price);
sales : list (Sales.row price);
inventory_seq : Z;
sales_seq : Z
}.
Arguments Db {price}.
Arguments inventory {price}.
Arguments sales {price}.
Arguments inventory_seq {price}.
Arguments sales_seq {price}.

(** The id given to an inserted row: one more than every id in the table and
  than every id handed out before. *)
Definition next_id (seq : Z) (ids : list Z) : Z :=
fold_right Z.max seq ids + 1.

(** ** What the driver binds, and what a float holds *)

(** The exceptions that [execute] raises on the values it is given. *)
Inductive raised : Type := OverflowError | IntegrityError.

(** [sqlite3] binds to a [?] a Python [int] that fits the 64 bits of an
    [INTEGER]; on any other [execute] raises [OverflowError] before the
    statement runs. *)
Definition binds (v : Z) : bool := (- 2 ^ 63 <=? v) && (v <=? 2 ^ 63 - 1).

(** [float(v)] on an [int], which [price * v] computes first: it raises
    [OverflowError] when [v] rounds beyond the largest float. *)
Definition converts (v : Z) : bool := Z.abs v <? 2 ^ 1024 - 2 ^ 970.

Section Sql.


Context {price : Type}.

Abbreviation item := (Inventory.row price).
Abbreviation sale := (Sales.row price).
Abbreviation db := (db price).

(** *** SQL statements *)

(** [SELECT ... FROM inventory WHERE id = ?] and [fetchone()] *)
Definition select_item (item_id : Z) (d : db) : option item :=
  find (fun r => Inventory.id r =? item_id) (inventory d).

(** [SELECT ... FROM sales WHERE id = ?] and [fetchone()] *)
Definition select_sale (sale_id : Z) (d : db) : option sale :=
  find (fun s => Sales.id s =? sale_id) (sales d).

(** [UPDATE inventory SET <f> WHERE id = ?] *)
Definition update_inventory (f : item -> item) (item_id : Z) (d : db) : db :=
  Db (map (fun r => if Inventory.id r =? item_id then f r else r) (inventory d))
     (sales d) (inventory_seq d) (sales_seq d).

(** [UPDATE inventory SET quantity = quantity + ? WHERE id = ?], for a sum
    that fits an [INTEGER]. *)
Definition add_quantity (delta : Z) (r : item) : item :=
  Inventory.set_quantity (Inventory.quantity r + delta) r.

(** [UPDATE inventory SET quantity = quantity - ? WHERE id = ?], for a
    difference that fits an [INTEGER]. *)
Definition sub_quantity (delta : Z) (r : item) : item :=
  Inventory.set_quantity (Inventory.quantity r - delta) r.

(** [UPDATE sales SET cancelled = ? WHERE id = ?] *)
Definition update_cancelled (v : Z) (sale_id : Z) (d : db) : db :=
  Db (inventory d)
     (map (fun s => if Sales.id s =? sale_id then Sales.set_cancelled v s else s)
          (sales d))
     (inventory_seq d) (sales_seq d).

(** [INSERT INTO sales (item_id, quantity, timestamp, total_price) VALUES (?, ?, ?, ?)];
    [cancelled] takes its default 0. *)
Definition insert_sale (item_id quantity : Z) (timestamp : string) (total : price)
    (d : db) : db :=
  let i := next_id (sales_seq d) (map Sales.id (sales d)) in
  Db (inventory d)
     (sales d ++ [Sales.Row i item_id quantity timestamp total 0])
     (inventory_seq d) i.

(** [DELETE FROM sales WHERE id = ?] *)
Definition delete_sale_row (sale_id : Z) (d : db) : db :=
  Db (inventory d)
     (filter (fun s => negb (Sales.id s =? sale_id)) (sales d))
     (inventory_seq d) (sales_seq d).

(** [INSERT INTO inventory (name, price, quantity, image_path) VALUES (?, ?, ?, ?)],
    once [execute] has bound its values and the price is not [NULL]
    ([insert_item_raises] tells when it raises instead); [favorite] takes
    its default 0. *)
Definition insert_item (name : string) (p : price) (quantity : Z)
    (image_path : option string) (d : db) : db :=
  let i := next_id (inventory_seq d) (map Inventory.id (inventory d)) in
  Db (inventory d ++ [Inventory.Row i name p quantity image_path 0])
     (sales d) i (sales_seq d).

(** [DELETE FROM inventory WHERE id = ?] *)
Definition delete_item_row (item_id : Z) (d : db) : db :=
  Db (filter (fun r => negb (Inventory.id r =? item_id)) (inventory d))
     (sales d) (inventory_seq d) (sales_seq d).

(** *** What [execute] raises *)

(** [math.isnan(p)]: the float is not a number.  The driver binds such a
    float as [NULL]. *)
Variable isnan : price -> bool.

(** What [execute] raises on the price and the quantity of an
    [INSERT INTO inventory]: [OverflowError] when the quantity is not
    bound, else [IntegrityError] when the price, [NULL], meets [NOT NULL].
    Nothing is written then. *)
Definition insert_item_raises (p : price) (quantity : Z) : option raised :=
  if negb (binds quantity) then Some OverflowError
  else if isnan p then Some IntegrityError
  else None.

(** What [execute] raises on the price and the quantity that an
    [UPDATE inventory SET ... WHERE id = ?] sets, [None] for a column that
    it does not set: [OverflowError] when the quantity is not bound, else
    [IntegrityError] when the price is [NULL] and a row has the id.
    Nothing is written then. *)
Definition update_item_raises (item_id : Z) (p : option price)
    (quantity : option Z) (d : db) : option raised :=
  if match quantity with Some v => negb (binds v) | None => false end
  then Some OverflowError
  else if match p with Some v => isnan v | None => false end
  then match select_item item_id d with
       | Some _ => Some IntegrityError
       | None => None
       end
  else None.

End Sql.

(** ** [ORDER BY] *)

Section OrderBy.

Context {A : Type}.
(** [leb a b]: the row [a] may stand before the row [b]. *)
Variable leb : A -> A -> bool.

(** Puts [x] before the first row that it may stand before. *)
Fixpoint insert_by (x : A) (l : list A) : list A :=
match l with
| [] => [x]
| y :: l' => if leb x y then x :: l else y :: insert_by x l'
end.

(** [ORDER BY], as an insertion sort.  The engine leaves the order of rows
    that compare equal open; the properties below do not depend on it. *)
Definition order_by (l : list A) : list A := fold_right insert_by [] l.

End OrderBy.

(** ** [pos_frontend.py] *)

Module pos_frontend.

(** Messages returned by the data functions of [pos_frontend.py]. *)
Inductive message (price : Type) : Type :=
| Item_does_not_exist (item_id : Z)
| Quantity_must_be_positive
| Insufficient_stock (available : Z)
| Sold (quantity : Z) (name : string) (total : price) (timestamp : string)
| Sale_not_found
| Sale_already_cancelled
| Sale_cancelled_and_inventory_restored
| Sale_deleted_and_inventory_adjusted
| Sale_deleted
| Sale_is_not_cancelled
| Associated_item_not_found
| Not_enough_stock_to_uncancel
| Sale_uncancelled_and_inventory_updated.
Arguments Item_does_not_exist {price}.
Arguments Quantity_must_be_positive {price}.
Arguments Insufficient_stock {price}.
Arguments Sold {price}.
Arguments Sale_not_found {price}.
Arguments Sale_already_cancelled {price}.
Arguments Sale_cancelled_and_inventory_restored {price}.
Arguments Sale_deleted_and_inventory_adjusted {price}.
Arguments Sale_deleted {price}.
Arguments Sale_is_not_cancelled {price}.
Arguments Associated_item_not_found {price}.
Arguments Not_enough_stock_to_uncancel {price}.
Arguments Sale_uncancelled_and_inventory_updated {price}.

Section Frontend.

Context {price : Type}.
(** [row["price"] * quantity] *)
Variable price_mul : price -> Z -> price.
(** [float(s)] and [int(s)] on text: [None] when they raise [ValueError]. *)
Variable py_float : string -> option price.
Variable py_int : string -> option Z.
(** [math.isnan(p)] *)
Variable isnan : price -> bool.

Abbreviation item := (Inventory.row price).
Abbreviation sale := (Sales.row price).
Abbreviation db := (db price).
Abbreviation message := (message price).

(** *** The sale ledger *)


(** [record_sale_db(conn, item_id, quantity)]; [now] is the value of
    [datetime.now().isoformat(timespec="seconds")]. *)
Definition record_sale_db (item_id quantity : Z) (now : string) (d : db)
    : db * message :=
  match select_item item_id d with
  | None => (d, Item_does_not_exist item_id)
  | Some row =>
      if quantity <=? 0 then (d, Quantity_must_be_positive)
      else if Inventory.quantity row <? quantity
      then (d, Insufficient_stock (Inventory.quantity row))
      else
        let total := price_mul (Inventory.price_ row) quantity in
        let d1 := update_inventory (sub_quantity quantity) item_id d in
        let d2 := insert_sale item_id quantity now total d1 in
        (d2, Sold quantity (Inventory.name row) total now)
  end.

(** [cancel_sale_db(conn, sale_id)] *)
Definition cancel_sale_db (sale_id : Z) (d : db) : db * message :=
  match select_sale sale_id d with
  | None => (d, Sale_not_found)
  | Some row =>
      if truthy (Sales.cancelled row) then (d, Sale_already_cancelled)
      else
        let d1 := update_cancelled 1 sale_id d in
        let d2 := update_inventory (add_quantity (Sales.quantity row))
                                   (Sales.item_id row) d1 in
        (d2, Sale_cancelled_and_inventory_restored)
  end.

(** [delete_sale_db(conn, sale_id)] *)
Definition delete_sale_db (sale_id : Z) (d : db) : db * message :=
  match select_sale sale_id d with
  | None => (d, Sale_not_found)
  | Some row =>
      let d1 :=
        if negb (truthy (Sales.cancelled row))
        then update_inventory (add_quantity (Sales.quantity row))
                              (Sales.item_id row) d
        else d in
      let d2 := delete_sale_row sale_id d1 in
      (d2, if negb (truthy (Sales.cancelled row))
           then Sale_deleted_and_inventory_adjusted
           else Sale_deleted)
  end.

(** [uncancel_sale_db(conn, sale_id)] *)
Definition uncancel_sale_db (sale_id : Z) (d : db) : db * message :=
  match select_sale sale_id d with
  | None => (d, Sale_not_found)
  | Some row =>
      if negb (truthy (Sales.cancelled row)) then (d, Sale_is_not_cancelled)
      else
        match select_item (Sales.item_id row) d with
        | None => (d, Associated_item_not_found)
        | Some item_row =>
            if Inventory.quantity item_row <? Sales.quantity row
            then (d, Not_enough_stock_to_uncancel)
            else
              let d1 := update_inventory (sub_quantity (Sales.quantity row))
                                         (Sales.item_id row) d in
              let d2 := update_cancelled 0 sale_id d1 in
              (d2, Sale_uncancelled_and_inventory_updated)
        end
  end.


(** *** The catalogue *)

(** [add_item_db(conn, name, price, quantity)]: the database that the call
    leaves, which is the one it found when [execute] raises. *)
Definition add_item_db (name : string) (p : price) (quantity : Z) (d : db) : db :=
match insert_item_raises isnan p quantity with
| Some _ => d
| None => insert_item (strip name) p quantity None d
end.

(** [add_item_with_image(conn, name, price, quantity, image_path)]: the
    database that the call leaves, which is the one it found when [execute]
    raises. *)
Definition add_item_with_image (name : string) (p : price) (quantity : Z)
    (image_path : option string) (d : db) : db :=
match insert_item_raises isnan p quantity with
| Some _ => d
| None => insert_item (strip name) p quantity image_path d
end.

(** The [SET] clause that [update_item_db] builds: one assignment for each
    argument that is not [None], in the order name, price, quantity,
    image_path. *)
Definition set_clause (name : option string) (p : option price)
    (quantity : option Z) (image_path : option string) : list (item -> item) :=
(match name with Some v => [Inventory.set_name (strip v)] | None => [] end) ++
(match p with Some v => [Inventory.set_price v] | None => [] end) ++
(match quantity with Some v => [Inventory.set_quantity v] | None => [] end) ++
(match image_path with Some v => [Inventory.set_image_path (Some v)] | None => [] end).

Definition apply_set_clause (fields : list (item -> item)) (r : item) : item :=
fold_left (fun acc f => f acc) fields r.

(** [update_item_db(conn, item_id, name, price, quantity, image_path)]: the
    database that the call leaves, which is the one it found when [execute]
    raises. *)
Definition update_item_db (item_id : Z) (name : option string) (p : option price)
    (quantity : option Z) (image_path : option string) (d : db) : db :=
let fields := set_clause name p quantity image_path in
match fields with
| [] => d
| _ =>
    match update_item_raises isnan item_id p quantity d with
    | Some _ => d
    | None => update_inventory (apply_set_clause fields) item_id d
    end
end.

(** *** The sales listing *)

(** A row of the result of [list_sales]:
    [sales.id, inventory.name AS item_name, sales.quantity, sales.total_price,
     sales.timestamp, sales.cancelled]. *)
Record listing : Type := Listing {
  listing_id : Z;
  item_name : string;
  listing_quantity : Z;
  listing_total_price : price;
  listing_timestamp : string;
  listing_cancelled : Z
}.

Definition listing_of (s : sale) (r : item) : listing :=
Listing (Sales.id s) (Inventory.name r) (Sales.quantity s) (Sales.total_price s)
        (Sales.timestamp s) (Sales.cancelled s).

(** [FROM sales JOIN inventory ON sales.item_id = inventory.id]: one result
    row for every pair of a sale and an inventory row that it references. *)
Definition join_sales_inventory (d : db) : list listing :=
flat_map (fun s =>
  map (listing_of s)
      (filter (fun r => Sales.item_id s =? Inventory.id r) (inventory d)))
  (sales d).

(** [ORDER BY sales.timestamp DESC], on text: an insertion sort that puts a
    row before the first row whose timestamp is not greater than its own. *)
Fixpoint insert_desc (x : listing) (l : list listing) : list listing :=
match l with
| [] => [x]
| y :: l' =>
    if (listing_timestamp y <=? listing_timestamp x)%string
    then x :: l
    else y :: insert_desc x l'
end.

Definition order_by_timestamp_desc (l : list listing) : list listing :=
fold_right insert_desc [] l.

(** [list_sales(conn)] *)
Definition list_sales (d : db) : list listing :=
order_by_timestamp_desc (join_sales_inventory d).

(** *** The handlers *)

Inductive http_method : Type := GET | POST.

(** The fields of the add-item form: [request.form.get(_, "")] for the three
    text fields, and the file name of [request.files.get("image")], [None]
    when no file part was sent. *)
Record add_item_form : Type := Add_item_form {
  form_name : string;
  form_price : string;
  form_quantity : string;
  form_image : option string
}.

(** What the add-item handler answers: the form page, a flashed message, or
    the exception that [add_item_with_image] raises. *)
Inductive add_item_response : Type :=
| Add_item_page
| Item_name_cannot_be_empty
| Enter_valid_numeric_values
| Unsupported_image_type
| Item_added_successfully (name : string)
| Add_item_raised (e : raised).

(** [add_item()], the handler of [/add-item]; [uuid_hex] is the value of
    [uuid4().hex].  The file written under the upload folder is not part of
    the model. *)
Definition add_item (method : http_method) (form : add_item_form)
    (uuid_hex : string) (d : db) : db * add_item_response :=
match method with
| GET => (d, Add_item_page)
| POST =>
    let name := strip (form_name form) in
    let price_str := strip (form_price form) in
    let qty_str := strip (form_quantity form) in
    if String.eqb name "" then (d, Item_name_cannot_be_empty)
    else
      match py_float price_str with
      | None => (d, Enter_valid_numeric_values)
      | Some p =>
          match py_int qty_str with
          | None => (d, Enter_valid_numeric_values)
          | Some quantity =>
              let add image_path :=
                match insert_item_raises isnan p quantity with
                | Some e => (d, Add_item_raised e)
                | None =>
                    (add_item_with_image name p quantity image_path d,
                     Item_added_successfully name)
                end in
              match form_image form with
              | Some (String c f as filename) =>
                  let ext := lower (rsplit_dot_last filename) in
                  if negb (allowed_extension ext) then (d, Unsupported_image_type)
                  else
                    let unique_name := uuid_hex ++ "." ++ ext in
                    let image_path := "uploads/" ++ unique_name in
                    add (Some image_path)
              | _ => add None
              end
          end
      end
end.

(** The session cart: the entries of a dict from item id (as text) to
    quantity, in insertion order. *)
Definition cart : Type := list (string * Z).

Inductive checkout_response : Type :=
| Cart_is_empty
| Checkout_complete (messages : list message)
| ValueError.

(** The loop of [checkout]: [k] counts the lines already visited and
    [clock k] is the time read while line [k] is sold.  [int(item_id_str)]
    raising [ValueError] ends the loop with what was sold so far. *)
Fixpoint checkout_loop (clock : nat -> string) (k : nat) (lines : cart)
    (messages : list message) (d : db) : db * option (list message) :=
match lines with
| [] => (d, Some messages)
| (item_id_str, qty) :: rest =>
    match py_int item_id_str with
    | None => (d, None)
    | Some item_id =>
        let (d', msg) := record_sale_db item_id qty (clock k) d in
        checkout_loop clock (S k) rest (messages ++ [msg]) d'
    end
end.

(** [checkout()], the handler of [/checkout]: the database, the session cart
    and the answer it leaves. *)
Definition checkout (clock : nat -> string) (c : cart) (d : db)
    : db * cart * checkout_response :=
match c with
| [] => (d, c, Cart_is_empty)
| _ =>
    match checkout_loop clock 0 c [] d with
    | (d', Some messages) => (d', [], Checkout_complete messages)
    | (d', None) => (d', c, ValueError)
    end
end.

(** *** The catalogue listing *)

(** Two characters that [LIKE] takes for the same: the same code point, or
    two letters of the ASCII range that differ in case only. *)
Definition nocase (c : N) : N :=
if ((65 <=? c) && (c <=? 90))%N then (c + 32)%N else c.

Definition eq_nocase (c c' : N) : bool :=
((c =? c') || (c <? 128) && (c' <? 128) && (nocase c =? nocase c'))%N.

(** The bytes before the first NUL: the engine reads the operands of
    [LIKE] as C strings. *)
Fixpoint c_string (s : string) : string :=
match s with
| EmptyString => EmptyString
| String c s' => if (N_of_ascii c =? 0)%N then EmptyString else String c (c_string s')
end.

(** The start of a code point in a lead byte from [0xC0] on. *)
Definition utf8_lead (n : N) : N :=
(if n <? 224 then n - 192
 else if n <? 240 then n - 224
 else if n <? 248 then n - 240
 else if n <? 252 then n - 248
 else if n <? 254 then n - 252
 else 0)%N.

(** What the engine takes a sequence of several bytes for: U+FFFD when the
    bytes stand for less than [0x80], for a surrogate, or for U+FFFE or
    U+FFFF. *)
Definition utf8_value (c : N) : N :=
(if (c <? 128) || (N.land c 4294965248 =? 55296) || (N.land c 4294967294 =? 65534)
 then 65533 else c)%N.

(** The code points of a text as the engine reads them: a byte below
    [0xC0] is a code point; a byte from [0xC0] on starts one that takes in
    every continuation byte, [0x80] to [0xBF], that follows.  [cur] is the
    code point being read, in 32 bits. *)
Fixpoint utf8_read (cur : option N) (s : string) : list N :=
match s with
| EmptyString =>
    match cur with
    | Some c => [utf8_value c]
    | None => []
    end
| String b s' =>
    let n := N_of_ascii b in
    let start :=
      if (192 <=? n)%N then utf8_read (Some (utf8_lead n)) s'
      else n :: utf8_read None s' in
    match cur with
    | Some c =>
        if (N.land n 192 =? 128)%N
        then utf8_read (Some ((c * 64 + N.land n 63) mod 4294967296)%N) s'
        else utf8_value c :: start
    | None => start
    end
end.

(** The characters of a text for [LIKE]. *)
Definition characters (s : string) : list N := utf8_read None (c_string s).

(** [LIKE] on characters, without escape character: [%] stands for any run
    of characters, [_] for any one character, and any other character for
    itself up to the case of ASCII letters. *)
Fixpoint like_characters (p s : list N) : bool :=
match p with
| [] =>
    match s with
    | [] => true
    | _ :: _ => false
    end
| c :: p' =>
    if (c =? 37)%N then
      (fix any_run (s : list N) : bool :=
         like_characters p' s ||
         match s with
         | [] => false
         | _ :: s' => any_run s'
         end) s
    else
      match s with
      | [] => false
      | c' :: s' => ((c =? 95)%N || eq_nocase c c') && like_characters p' s'
      end
end.

(** [s LIKE p] *)
Definition like (p s : string) : bool :=
like_characters (characters p) (characters s).

(** [a COLLATE NOCASE <= b COLLATE NOCASE]: the engine compares the bytes
    before the first NUL, upper case letters of the ASCII range folded to
    lower case, and then, when these are the same, the lengths. *)
Definition nocase_leb (a b : string) : bool :=
let a' := lower (c_string a) in
let b' := lower (c_string b) in
if String.eqb a' b' then (String.length a <=? String.length b)%nat
else (a' <=? b')%string.

(** The row [a] may stand before [b] under
    [ORDER BY favorite DESC, name COLLATE NOCASE]. *)
Definition favorite_name_leb (a b : item) : bool :=
(Inventory.favorite b <? Inventory.favorite a) ||
((Inventory.favorite a =? Inventory.favorite b) &&
 nocase_leb (Inventory.name a) (Inventory.name b)).

(** [list_inventory(conn, search_term)] *)
Definition list_inventory (search_term : option string) (d : db) : list item :=
order_by favorite_name_leb
  match search_term with
  | Some (String c t as term) =>
      filter (fun r => like ("%" ++ term ++ "%") (Inventory.name r)) (inventory d)
  | _ => inventory d
  end.

(** *** The session cart as a dict *)

(** [cart.get(k)] *)
Fixpoint cart_get (k : string) (c : cart) : option Z :=
match c with
| [] => None
| (k', v) :: c' => if String.eqb k' k then Some v else cart_get k c'
end.

(** [cart[k] = v]: the entry of [k] takes [v] where it stands, or a new
    entry comes last. *)
Fixpoint cart_set (k : string) (v : Z) (c : cart) : cart :=
match c with
| [] => [(k, v)]
| (k', v') :: c' =>
    if String.eqb k' k then (k', v) :: c' else (k', v') :: cart_set k v c'
end.

(** [cart.pop(k, None)] *)
Fixpoint cart_pop (k : string) (c : cart) : cart :=
match c with
| [] => []
| (k', v') :: c' =>
    if String.eqb k' k then c' else (k', v') :: cart_pop k c'
end.

(** The cart that the next request reads in the session: the session is
    kept in a cookie as JSON, in which the keys of a dict are written in
    the order of text. *)
Definition session_cart (c : cart) : cart :=
order_by (fun a b => (fst a <=? fst b)%string) c.

(** A form field that is absent or empty: [not request.form.get(_)]. *)
Definition field_given (field : option string) : option string :=
match field with
| Some (String c s) => field
| _ => None
end.

(** [int(request.form.get(_))]: [None] when [int] raises [TypeError], on an
    absent field, or [ValueError]. *)
Definition int_of_field (field : option string) : option Z :=
match field with
| Some s => py_int s
| None => None
end.

Inductive cart_response : Type :=
| Invalid_quantity
| No_item_specified
| Item_does_not_exist_in_inventory
| Added_to_cart (quantity : Z) (name : string)
| Invalid_cart_update_request
| Item_not_in_cart
| Item_removed_from_cart
| Cart_updated
| Cart_cleared
| Cart_ValueError.

(** [add_to_cart()], the handler of [/add-to-cart]; the field [quantity]
    defaults to ["1"]. *)
Definition add_to_cart (item_id quantity : option string) (c : cart) (d : db)
    : cart * cart_response :=
let qty_str := match quantity with Some s => s | None => "1" end in
match py_int qty_str with
| None => (c, Invalid_quantity)
| Some qty =>
    match field_given item_id with
    | None => (c, No_item_specified)
    | Some key =>
        match py_int key with
        | None => (c, Cart_ValueError)
        | Some i =>
            match select_item i d with
            | None => (c, Item_does_not_exist_in_inventory)
            | Some row =>
                let old := match cart_get key c with Some v => v | None => 0 end in
                (cart_set key (old + qty) c,
                 Added_to_cart qty (Inventory.name row))
            end
        end
    end
end.

(** [update_cart()], the handler of [/update-cart] *)
Definition update_cart (item_id action quantity : option string) (c : cart)
    : cart * cart_response :=
match field_given item_id with
| None => (c, Invalid_cart_update_request)
| Some key =>
    match cart_get key c with
    | None => (c, Item_not_in_cart)
    | Some _ =>
        if match action with Some a => String.eqb a "remove" | None => false end
        then (cart_pop key c, Item_removed_from_cart)
        else
          match int_of_field quantity with
          | Some new_qty =>
              if new_qty <=? 0 then (cart_pop key c, Item_removed_from_cart)
              else (cart_set key new_qty c, Cart_updated)
          | None => (c, Invalid_quantity)
          end
    end
end.

(** [clear_cart()], the handler of [/clear-cart] *)
Definition clear_cart (c : cart) : cart * cart_response := ([], Cart_cleared).

(** *** The other handlers *)

Inductive sell_response : Type :=
| Sell_raised
| Quantity_must_be_an_integer
| Sell_flash (msg : message).

(** [sell()], the handler of [/sell]: [int] of the item id is not guarded,
    [int] of the quantity is. *)
Definition sell (item_id quantity : option string) (now : string) (d : db)
    : db * sell_response :=
match int_of_field item_id with
| None => (d, Sell_raised)
| Some i =>
    match int_of_field quantity with
    | None => (d, Quantity_must_be_an_integer)
    | Some q =>
        let (d', msg) := record_sale_db i q now d in (d', Sell_flash msg)
    end
end.

(** [sales()], the handler of [/sales] *)
Definition sales_page (d : db) : list listing := list_sales d.

Definition set_favorite (v : Z) (r : item) : item :=
Inventory.Row (Inventory.id r) (Inventory.name r) (Inventory.price_ r)
  (Inventory.quantity r) (Inventory.image_path r) v.

Inductive toggle_favorite_response : Type :=
| Toggle_item_not_found
| Added_to_favorites (name : string)
| Removed_from_favorites (name : string).

(** [toggle_favorite(item_id)], the handler of [/toggle-favorite/<id>] *)
Definition toggle_favorite (item_id : Z) (d : db) : db * toggle_favorite_response :=
match select_item item_id d with
| None => (d, Toggle_item_not_found)
| Some row =>
    let new_fav := if truthy (Inventory.favorite row) then 0 else 1 in
    (update_inventory (set_favorite new_fav) item_id d,
     if truthy new_fav then Added_to_favorites (Inventory.name row)
     else Removed_from_favorites (Inventory.name row))
end.

Inductive edit_item_response : Type :=
| Edit_item_not_found
| Edit_item_page (row : item)
| Name_cannot_be_empty
| Enter_valid_numbers
| Edit_unsupported_image_type
| Item_updated_successfully
| Edit_item_raised (e : raised).

(** [edit_item(item_id)], the handler of [/edit-item/<id>]; [uuid_hex] as in
    [add_item].  Neither the file written nor the old file removed is part
    of the model.  What the handler answers: a flashed message, the form
    page, or the exception that [update_item_db] raises. *)
Definition edit_item (method : http_method) (item_id : Z) (form : add_item_form)
    (uuid_hex : string) (d : db) : db * edit_item_response :=
match select_item item_id d with
| None => (d, Edit_item_not_found)
| Some row =>
    match method with
    | GET => (d, Edit_item_page row)
    | POST =>
        let new_name := strip (form_name form) in
        let price_str := strip (form_price form) in
        let qty_str := strip (form_quantity form) in
        if String.eqb new_name "" then (d, Name_cannot_be_empty)
        else
          match py_float price_str with
          | None => (d, Enter_valid_numbers)
          | Some new_price =>
              match py_int qty_str with
              | None => (d, Enter_valid_numbers)
              | Some new_qty =>
                  let update image_path :=
                    match update_item_raises isnan item_id (Some new_price)
                            (Some new_qty) d with
                    | Some e => (d, Edit_item_raised e)
                    | None =>
                        (update_item_db item_id (Some new_name) (Some new_price)
                           (Some new_qty) image_path d,
                         Item_updated_successfully)
                    end in
                  match form_image form with
                  | Some (String c f as filename) =>
                      let ext := lower (rsplit_dot_last filename) in
                      if negb (allowed_extension ext)
                      then (d, Edit_unsupported_image_type)
                      else
                        let unique_name := uuid_hex ++ "." ++ ext in
                        let new_image_path := "uploads/" ++ unique_name in
                        update (Some new_image_path)
                  | _ => update None
                  end
              end
          end
    end
end.

(** The administrative code that [delete_sale] and [uncancel_sale] ask for. *)
Definition ADMIN_CODE : string := "0516".

Inductive admin_response : Type :=
| Invalid_administrative_code
| Admin_flash (msg : message) (success : bool).

(** [cancel_sale(sale_id)], the handler of [/cancel-sale/<id>]: the message
    and whether it is flashed as a success. *)
Definition cancel_sale (sale_id : Z) (d : db) : db * (message * bool) :=
let (d', msg) := cancel_sale_db sale_id d in
(d', (msg, match msg with
           | Sale_cancelled_and_inventory_restored => true
           | _ => false
           end)).

(** [delete_sale(sale_id)], the handler of [/delete-sale/<id>]: the message
    is always flashed as a success. *)
Definition delete_sale (admin_code : string) (sale_id : Z) (d : db)
    : db * admin_response :=
if negb (String.eqb (strip admin_code) ADMIN_CODE)
then (d, Invalid_administrative_code)
else let (d', msg) := delete_sale_db sale_id d in (d', Admin_flash msg true).

(** [uncancel_sale(sale_id)], the handler of [/uncancel-sale/<id>] *)
Definition uncancel_sale (admin_code : string) (sale_id : Z) (d : db)
    : db * admin_response :=
if negb (String.eqb (strip admin_code) ADMIN_CODE)
then (d, Invalid_administrative_code)
else
  let (d', msg) := uncancel_sale_db sale_id d in
  (d', Admin_flash msg match msg with
                       | Sale_uncancelled_and_inventory_updated => true
                       | _ => false
                       end).


(** [allowed_file(filename)]: [filename.rsplit(".", 1)[1]] is read only
    when the name has a dot, and is then what follows the last dot. *)
Definition allowed_file (filename : string) : bool :=
contains_dot filename && allowed_extension (lower (rsplit_dot_last filename)).

(** *** The home page *)

(** [cart_total += total], from [cart_total = 0.0]. *)
Variable price_add : price -> price -> price.
Variable price_zero : price.

(** An entry of [cart_items]. *)
Record cart_item : Type := Cart_item {
  cart_item_id : Z;
  cart_item_name : string;
  cart_item_price : price;
  cart_item_quantity : Z;
  cart_item_total : price
}.

(** [[int(item_id) for item_id in cart.keys()]]: [None] when [int] raises. *)
Fixpoint cart_item_ids (c : cart) : option (list Z) :=
match c with
| [] => Some []
| (k, _) :: c' =>
    match py_int k, cart_item_ids c' with
    | Some i, Some ids => Some (i :: ids)
    | _, _ => None
    end
end.

(** [items_map.get(iid)], where [items_map] is the dict comprehension over
    the rows of [SELECT ... WHERE id IN (item_ids)] in the order of the
    table: of two rows with one id the later one stays. *)
Definition items_map_get (item_ids : list Z) (iid : Z) (d : db) : option item :=
find (fun r => Inventory.id r =? iid)
     (rev (filter (fun r => existsb (Z.eqb (Inventory.id r)) item_ids)
                  (inventory d))).

(** The loop of [index] over [cart.items()]: [None] when
    [item_row["price"] * qty] raises [OverflowError], on a quantity that
    does not convert to a float. *)
Fixpoint cart_details (item_ids : list Z) (lines : list (Z * Z)) (d : db)
    (cart_items : list cart_item) (cart_total : price)
    : option (list cart_item * price) :=
match lines with
| [] => Some (cart_items, cart_total)
| (iid, qty) :: rest =>
    match items_map_get item_ids iid d with
    | Some item_row =>
        if converts qty then
          let total := price_mul (Inventory.price_ item_row) qty in
          cart_details item_ids rest d
            (cart_items ++
             [Cart_item iid (Inventory.name item_row) (Inventory.price_ item_row)
                        qty total])
            (price_add cart_total total)
        else None
    | None => cart_details item_ids rest d cart_items cart_total
    end
end.

(** What [index] answers: the page, or the exception that it raises,
    [ValueError] on a key of the cart that [int] does not read,
    [OverflowError] on an id that [execute] does not bind or on a quantity
    that does not convert to a float. *)
Inductive index_response : Type :=
| Index_page (favorites items : list item) (cart_items : list cart_item)
             (cart_total : price) (search_term : string)
| Index_ValueError
| Index_OverflowError.

(** [index()], the handler of [/]; [q] is [request.args.get("q", "")]. *)
Definition index (q : string) (c : cart) (d : db) : index_response :=
let search_term := strip q in
let items := list_inventory (Some search_term) d in
let favorites := filter (fun r => truthy (Inventory.favorite r)) items in
let nonfavorites := filter (fun r => negb (truthy (Inventory.favorite r))) items in
match c with
| [] => Index_page favorites nonfavorites [] price_zero search_term
| _ =>
    match cart_item_ids c with
    | None => Index_ValueError
    | Some item_ids =>
        if forallb binds item_ids then
          match cart_details item_ids (combine item_ids (map snd c)) d []
                  price_zero with
          | Some (cart_items, cart_total) =>
              Index_page favorites nonfavorites cart_items cart_total search_term
          | None => Index_OverflowError
          end
        else Index_OverflowError
    end
end.


End Frontend.

End pos_frontend.

(** ** [pos_system.py] *)

Module pos_system.

(** What the functions of the text menu print, or the exception that
    [execute] raises in them. *)
Inductive output (price : Type) : Type :=
| Item_added (name : string) (p : price) (quantity : Z)
| No_item_found (item_id : Z)
| Quantity_must_be_positive
| Insufficient_stock (available : Z)
| Sold (quantity : Z) (name : string) (total : price) (timestamp : string)
| Item_updated (item_id : Z)
| Item_deleted (name : string)
| Raised (e : raised).
Arguments Item_added {price}.
Arguments No_item_found {price}.
Arguments Quantity_must_be_positive {price}.
Arguments Insufficient_stock {price}.
Arguments Sold {price}.
Arguments Item_updated {price}.
Arguments Item_deleted {price}.
Arguments Raised {price}.

Section Menu.

Context {price : Type}.
Variable price_mul : price -> Z -> price.
(** [math.isnan(p)] *)
Variable isnan : price -> bool.

Abbreviation item := (Inventory.row price).
Abbreviation db := (db price).
Abbreviation output := (output price).

(** [add_item(conn, name, price, quantity)] *)
Definition add_item (name : string) (p : price) (quantity : Z) (d : db)
    : db * output :=
match insert_item_raises isnan p quantity with
| Some e => (d, Raised e)
| None =>
    (insert_item (strip name) p quantity None d, Item_added name p quantity)
end.

(** [record_sale(conn, item_id, quantity)]; [now] as in [record_sale_db]. *)
Definition record_sale (item_id quantity : Z) (now : string) (d : db)
    : db * output :=
match select_item item_id d with
| None => (d, No_item_found item_id)
| Some row =>
    if quantity <=? 0 then (d, Quantity_must_be_positive)
    else if Inventory.quantity row <? quantity
    then (d, Insufficient_stock (Inventory.quantity row))
    else
      let total_price := price_mul (Inventory.price_ row) quantity in
      let d1 := update_inventory (sub_quantity quantity) item_id d in
      let d2 := insert_sale item_id quantity now total_price d1 in
      (d2, Sold quantity (Inventory.name row) total_price now)
end.

(** Truth value of [name] in [name.strip() if name else row["name"]]. *)
Definition name_given (name : option string) : option string :=
match name with
| Some (String c s) => name
| _ => None
end.

(** [update_item(conn, item_id, name, price, quantity)] *)
Definition update_item (item_id : Z) (name : option string) (p : option price)
    (quantity : option Z) (d : db) : db * output :=
match select_item item_id d with
| None => (d, No_item_found item_id)
| Some row =>
    let new_name :=
      match name_given name with
      | Some v => strip v
      | None => Inventory.name row
      end in
    let new_price :=
      match p with Some v => v | None => Inventory.price_ row end in
    let new_quantity :=
      match quantity with Some v => v | None => Inventory.quantity row end in
    match update_item_raises isnan item_id p quantity d with
    | Some e => (d, Raised e)
    | None =>
        (update_inventory
           (fun r => Inventory.set_quantity new_quantity
                       (Inventory.set_price new_price
                          (Inventory.set_name new_name r)))
           item_id d,
         Item_updated item_id)
    end
end.

(** [delete_item(conn, item_id)] *)
Definition delete_item (item_id : Z) (d : db) : db * output :=
match select_item item_id d with
| None => (d, No_item_found item_id)
| Some row => (delete_item_row item_id d, Item_deleted (Inventory.name row))
end.

(** [query.replace("?", "%s")] *)
Fixpoint replace_placeholders (query : string) : string :=
match query with
| EmptyString => EmptyString
| String c q =>
    if Ascii.eqb c "?"%char then String "%" (String "s" (replace_placeholders q))
    else String c (replace_placeholders q)
end.

(** [adapt_sql(query, conn, params_present)]; [is_pg] tells whether [conn]
    is a psycopg2 connection.  [pos_frontend.py] has the same function. *)
Definition adapt_sql (query : string) (is_pg : bool) (params_present : bool)
    : string :=
if params_present && is_pg then replace_placeholders query else query.

(** [list_inventory(conn)]: [ORDER BY id] *)
Definition list_inventory (d : db) : list item :=
order_by (fun a b => Inventory.id a <=? Inventory.id b) (inventory d).

(** What [view_inventory] and [view_sales] print: a notice, or a table. *)
Inductive table (row : Type) : Type :=
| Nothing_to_show
| Table (rows : list row).
Arguments Nothing_to_show {row}.
Arguments Table {row}.

(** [view_inventory(conn)] *)
Definition view_inventory (d : db) : table item :=
match list_inventory d with
| [] => Nothing_to_show
| items => Table items
end.

(** A row of the result of [view_sales]:
    [sales.id, inventory.name, sales.quantity, sales.total_price,
     sales.timestamp]. *)
Record history_row : Type := History_row {
  history_id : Z;
  history_name : string;
  history_quantity : Z;
  history_total_price : price;
  history_timestamp : string
}.

Definition history_row_of (s : Sales.row price) (r : item) : history_row :=
History_row (Sales.id s) (Inventory.name r) (Sales.quantity s)
            (Sales.total_price s) (Sales.timestamp s).

(** [view_sales(conn)]: the join of sales and inventory,
    [ORDER BY sales.timestamp]. *)
Definition view_sales (d : db) : table history_row :=
match
  order_by (fun a b => (history_timestamp a <=? history_timestamp b)%string)
    (flat_map (fun s =>
       map (history_row_of s)
           (filter (fun r => Sales.item_id s =? Inventory.id r) (inventory d)))
       (sales d))
with
| [] => Nothing_to_show
| rows => Table rows
end.

(** What a prompt yields on the lines still to be read from the terminal:
    the value read, the number of times it asked again and the lines left,
    or [EOFError] when the lines run out. *)
Inductive prompted (A : Type) : Type :=
| Prompt_value (v : A) (retries : nat) (rest : list string)
| Prompt_EOFError (retries : nat).
Arguments Prompt_value {A}.
Arguments Prompt_EOFError {A}.

(** The loop of [prompt_for_float] and [prompt_for_int]: [parse] is [float]
    or [int], [None] when it raises [ValueError]. *)
Fixpoint prompt_for {A : Type} (parse : string -> option A) (retries : nat)
    (inputs : list string) : prompted A :=
match inputs with
| [] => Prompt_EOFError retries
| value :: rest =>
    match parse (strip value) with
    | Some v => Prompt_value v retries rest
    | None => prompt_for parse (S retries) rest
    end
end.

(** [prompt_for_float(prompt)] *)
Definition prompt_for_float (py_float : string -> option price)
    (inputs : list string) : prompted price :=
prompt_for py_float 0 inputs.

(** [prompt_for_int(prompt)] *)
Definition prompt_for_int (py_int : string -> option Z)
    (inputs : list string) : prompted Z :=
prompt_for py_int 0 inputs.


End Menu.

Arguments Nothing_to_show {row}.
Arguments Table {row}.
Arguments Prompt_value {A}.
Arguments Prompt_EOFError {A}.

End pos_system.

Import pos_frontend.


(** * Vocabulary of the properties *)

Section Vocabulary.

Context {A : Type}.
Variable key : A -> Z.

(** The rows that [UPDATE ... WHERE id = k] rewrites with [f]. *)
Definition update_where (f : A -> A) (k : Z) (l : list A) : list A :=
map (fun x => if key x =? k then f x else x) l.

(** The row that [SELECT ... WHERE id = k] and [fetchone()] yield. *)
Definition select_where (k : Z) (l : list A) : option A :=
find (fun x => key x =? k) l.

(** The rows that [DELETE ... WHERE id = k] keeps. *)
Definition delete_where (k : Z) (l : list A) : list A :=
filter (fun x => negb (key x =? k)) l.

(** The sum of a column expression over a table. *)
Definition total (c : A -> Z) (l : list A) : Z :=
fold_right (fun x acc => c x + acc) 0 l.

End Vocabulary.

Section LedgerVocabulary.

Context {price : Type}.
Variable price_mul : price -> Z -> price.

(** The units that sale [s] holds from item [item_id]: its quantity when it
    refers to the item and is not cancelled, nothing otherwise. *)
Definition debit (item_id : Z) (s : Sales.row price) : Z :=
if negb (truthy (Sales.cancelled s)) && (Sales.item_id s =? item_id)
then Sales.quantity s else 0.

(** The sum of the quantities of the sales of [item_id] that are not
    cancelled. *)
Definition active_quantity (item_id : Z) (l : list (Sales.row price)) : Z :=
total (debit item_id) l.

(** The operations of the sale life cycle. *)
Inductive ledger_op : Type :=
| Sell (item_id quantity : Z) (now : string)
| Cancel (sale_id : Z)
| Uncancel (sale_id : Z)
| Delete_sale (sale_id : Z).

Definition step (d : db price) (op : ledger_op) : db price :=
match op with
| Sell item_id quantity now => fst (record_sale_db price_mul item_id quantity now d)
| Cancel sale_id => fst (cancel_sale_db sale_id d)
| Uncancel sale_id => fst (uncancel_sale_db sale_id d)
| Delete_sale sale_id => fst (delete_sale_db sale_id d)
end.

Definition run (ops : list ledger_op) (d : db price) : db price :=
fold_left step ops d.

(** An inventory row stands to its original [r0] as the ledger [l] says:
    giving back the units that the sales of [l] hold yields [r0]. *)
Definition reconciled (l : list (Sales.row price))
    (r0 r : Inventory.row price) : Prop :=
Inventory.set_quantity (Inventory.quantity r + active_quantity (Inventory.id r) l) r
= r0.

(** The quantity that restoring sale [s] gives to the rows of its item
    fits an [INTEGER]: [quantity + ?] is then the sum of two integers.  A
    sum beyond 64 bits is computed as a [REAL], and a column that holds one
    is not a state of this model. *)
Definition restorable (s : Sales.row price) (d : db price) : Prop :=
Forall (fun r => Inventory.id r = Sales.item_id s ->
                 binds (Inventory.quantity r + Sales.quantity s) = true)
       (inventory d).

(** The invariant: the sales ids are pairwise distinct and every inventory
    row is reconciled with its original. *)
Definition ledger_invariant (d0 d : db price) : Prop :=
NoDup (map Sales.id (sales d)) /\
Forall2 (reconciled (sales d)) (inventory d0) (inventory d).

End LedgerVocabulary.

Section CatalogueVocabulary.

Context {price : Type}.
Variable price_mul : price -> Z -> price.
Variable isnan : price -> bool.

(** The values that are supplied for the price and the quantity of an item
    can be stored: the quantity fits an [INTEGER] and the price is a
    number. *)
Definition storable (p : option price) (quantity : option Z) : Prop :=
match quantity with Some v => binds v = true | None => True end /\
match p with Some v => isnan v = false | None => True end.

(** The upload that the add-item handler looks at: a file part whose name is
    not empty. *)
Definition uploaded (image : option string) : option string :=
match image with
| Some (String c f) => image
| _ => None
end.

(** The extension that the handler reads off a file name. *)
Definition extension (filename : string) : string :=
lower (rsplit_dot_last filename).

(** The handler refuses an upload whose extension is not allowed. *)
Definition image_rejected (image : option string) : bool :=
match uploaded image with
| Some filename => negb (allowed_extension (extension filename))
| None => false
end.

(** The path stored with the item: none without an upload. *)
Definition stored_image_path (uuid_hex : string) (image : option string)
    : option string :=
match uploaded image with
| Some filename => Some ("uploads/" ++ uuid_hex ++ "." ++ extension filename)
| None => None
end.

(** The row that an edit leaves in place of [r]: each column takes the value
    supplied, when one is; the name is stored stripped. *)
Definition edited (name : option string) (p : option price)
    (quantity : option Z) (image_path : option string)
    (r : Inventory.row price) : Inventory.row price :=
Inventory.Row (Inventory.id r)
  (match name with Some v => strip v | None => Inventory.name r end)
  (match p with Some v => v | None => Inventory.price_ r end)
  (match quantity with Some v => v | None => Inventory.quantity r end)
  (match image_path with Some v => Some v | None => Inventory.image_path r end)
  (Inventory.favorite r).

(** Selling the lines of a cart one after the other: line [k] is sold at
    the time [clock k], on the database that the lines before it left. *)
Fixpoint sell_each (clock : nat -> string) (k : nat) (lines : list (Z * Z))
    (d : db price) : db price * list (message price) :=
match lines with
| [] => (d, [])
| (item_id, qty) :: rest =>
    let (d1, msg) := record_sale_db price_mul item_id qty (clock k) d in
    let (d2, msgs) := sell_each clock (S k) rest d1 in
    (d2, msg :: msgs)
end.

(** The answer of a sale that was made. *)
Definition is_sold (m : message price) : bool :=
match m with
| Sold _ _ _ _ => true
| _ => false
end.

(** The rows that the listing is made of: one for each sale whose item is
    in the inventory, carrying the name the item has now. *)
Definition listed (d : db price) : list (listing (price := price)) :=
flat_map (fun s =>
            match select_item (Sales.item_id s) d with
            | Some r => [listing_of s r]
            | None => []
            end)
         (sales d).

(** [a] does not come before [b] in time, as text. *)
Definition not_older (a b : listing (price := price)) : Prop :=
(listing_timestamp b <=? listing_timestamp a)%string = true.

End CatalogueVocabulary.

(** ** The application as a whole *)

Section StatementVocabulary.

Context {price : Type}.

(** One statement that writes, of those that the code executes: an insert
    into a table, an update of the inventory rows of one id that keeps the
    id, an update of the [cancelled] column of the sales rows of one id, a
    delete of the rows of one id. *)
Inductive statement : db price -> db price -> Prop :=
| Insert_item name p quantity image_path d :
    statement d (insert_item name p quantity image_path d)
| Insert_sale item_id quantity timestamp total d :
    statement d (insert_sale item_id quantity timestamp total d)
| Update_inventory f item_id d :
    (forall r, Inventory.id (f r) = Inventory.id r) ->
    statement d (update_inventory f item_id d)
| Update_cancelled v sale_id d :
    statement d (update_cancelled v sale_id d)
| Delete_sale_row sale_id d :
    statement d (delete_sale_row sale_id d)
| Delete_item_row item_id d :
    statement d (delete_item_row item_id d).

(** A run of such statements. *)
Inductive statements : db price -> db price -> Prop :=
| No_statement d : statements d d
| Then_statement d1 d2 d3 :
    statements d1 d2 -> statement d2 d3 -> statements d1 d3.

(** The primary keys: the ids of each table are pairwise distinct, and none
    exceeds the largest id that the table has handed out. *)
Definition keys_ok (d : db price) : Prop :=
NoDup (map Inventory.id (inventory d)) /\
NoDup (map Sales.id (sales d)) /\
Forall (fun r => Inventory.id r <= inventory_seq d) (inventory d) /\
Forall (fun s => Sales.id s <= sales_seq d) (sales d).

(** The columns of a sale that are written once: all but [cancelled]. *)
Definition same_sale (s s' : Sales.row price) : Prop :=
Sales.id s' = Sales.id s /\
Sales.item_id s' = Sales.item_id s /\
Sales.quantity s' = Sales.quantity s /\
Sales.timestamp s' = Sales.timestamp s /\
Sales.total_price s' = Sales.total_price s.

(** No item has a negative quantity and every sale is of at least a unit. *)
Definition stock_ok (d : db price) : Prop :=
Forall (fun r => 0 <= Inventory.quantity r) (inventory d) /\
Forall (fun s => 0 < Sales.quantity s) (sales d).

(** Every name is not empty and has no white space around it. *)
Definition names_ok (d : db price) : Prop :=
Forall (fun r => Inventory.name r <> "" /\ strip (Inventory.name r) = Inventory.name r)
       (inventory d).

(** Every favourite flag is 0 or 1. *)
Definition favorites_ok (d : db price) : Prop :=
Forall (fun r => Inventory.favorite r = 0 \/ Inventory.favorite r = 1)
       (inventory d).

End StatementVocabulary.

Section AppVocabulary.

Context {price : Type}.
Variable price_mul : price -> Z -> price.
Variable py_float : string -> option price.
Variable py_int : string -> option Z.
Variable isnan : price -> bool.

(** A request to one of the routes of the application, with what the
    handler reads from the form and from the environment. *)
Inductive request : Type :=
| Get_index (q : string)
| Post_sell (item_id quantity : option string) (now : string)
| Any_add_item (method : http_method) (form : add_item_form) (uuid_hex : string)
| Get_sales
| Any_edit_item (method : http_method) (item_id : Z) (form : add_item_form)
                (uuid_hex : string)
| Post_add_to_cart (item_id quantity : option string)
| Post_update_cart (item_id action quantity : option string)
| Post_checkout (clock : nat -> string)
| Post_clear_cart
| Post_toggle_favorite (item_id : Z)
| Post_cancel_sale (sale_id : Z)
| Post_delete_sale (admin_code : string) (sale_id : Z)
| Post_uncancel_sale (admin_code : string) (sale_id : Z).

(** The database and the session cart that a request leaves to the next
    one. *)
Definition serve (st : db price * cart) (r : request) : db price * cart :=
let (d, c) := st in
match r with
| Get_index _ => st
| Post_sell item_id quantity now =>
    (fst (sell price_mul py_int item_id quantity now d), c)
| Any_add_item method form uuid_hex =>
    (fst (add_item py_float py_int isnan method form uuid_hex d), c)
| Get_sales => st
| Any_edit_item method item_id form uuid_hex =>
    (fst (edit_item py_float py_int isnan method item_id form uuid_hex d), c)
| Post_add_to_cart item_id quantity =>
    (d, session_cart (fst (add_to_cart py_int item_id quantity c d)))
| Post_update_cart item_id action quantity =>
    (d, session_cart (fst (update_cart py_int item_id action quantity c)))
| Post_checkout clock =>
    (fst (fst (checkout price_mul py_int clock c d)),
     snd (fst (checkout price_mul py_int clock c d)))
| Post_clear_cart => (d, fst (clear_cart c))
| Post_toggle_favorite item_id => (fst (toggle_favorite item_id d), c)
| Post_cancel_sale sale_id => (fst (cancel_sale sale_id d), c)
| Post_delete_sale admin_code sale_id => (fst (delete_sale admin_code sale_id d), c)
| Post_uncancel_sale admin_code sale_id =>
    (fst (uncancel_sale admin_code sale_id d), c)
end.

Definition serve_all (requests : list request) (st : db price * cart)
    : db price * cart :=
fold_left serve requests st.

(** A cart as the handlers keep it: a dict, whose keys [int] reads. *)
Definition cart_ok (c : cart) : Prop :=
NoDup (map fst c) /\ Forall (fun line => py_int (fst line) <> None) c.

(** The characters of [t] stand one after the other among those of [s], up
    to the case of ASCII letters; characters are those that [LIKE] reads. *)
Definition contains_nocase (t s : string) : Prop :=
exists before found after,
  characters s = (before ++ found ++ after)%list /\
  Forall2 (fun c c' => eq_nocase c c' = true) (characters t) found.

(** A search term in which no byte is a wild card of [LIKE] or NUL. *)
Fixpoint plain (t : string) : bool :=
match t with
| EmptyString => true
| String c t' =>
    negb (Ascii.eqb c "%"%char) && negb (Ascii.eqb c "_"%char) &&
    negb (N_of_ascii c =? 0)%N && plain t'
end.

End AppVocabulary.

Section PageVocabulary.

Context {price : Type}.
Variable price_mul : price -> Z -> price.

(** The entries that the home page shows for the lines of a cart: one for
    each line whose item is in the inventory, with the name and the price
    the item has now. *)
Definition cart_summary (lines : list (Z * Z)) (d : db price)
    : list (cart_item (price := price)) :=
flat_map (fun line =>
            match select_item (fst line) d with
            | Some r =>
                [Cart_item (fst line) (Inventory.name r) (Inventory.price_ r)
                   (snd line) (price_mul (Inventory.price_ r) (snd line))]
            | None => []
            end)
         lines.

(** A row of the sales listing as the text menu prints it: without the
    [cancelled] column. *)
Definition history_of_listing (l : listing (price := price))
    : pos_system.history_row (price := price) :=
pos_system.History_row (listing_id l) (item_name l) (listing_quantity l)
  (listing_total_price l) (listing_timestamp l).

(** A request that does not carry the administrative code. *)
Definition without_admin_code (r : request) : Prop :=
match r with
| Post_delete_sale admin_code _ | Post_uncancel_sale admin_code _ =>
    strip admin_code <> ADMIN_CODE
| _ => True
end.

End PageVocabulary.

(** The number of [?] in a query. *)
Fixpoint placeholders (query : string) : nat :=
match query with
| EmptyString => O
| String c q =>
    if Ascii.eqb c "?"%char then S (placeholders q) else placeholders q
end.

(** * An instance to run the model

    Prices that are exact decimal fractions, none of which is [nan], and
    the two parsers on plain decimal numerals.  Python's [int] and [float]
    accept every numeral that these accept (and more: underscores,
    exponents, [inf], [nan]); on the numerals used below Python's value is
    the one computed here. *)

Module Decimal.

Definition price : Type := Q.

Definition price_mul (p : price) (quantity : Z) : price :=
Qred (p * inject_Z quantity).

(** Every such price is a number. *)
Definition isnan (p : price) : bool := false.

Definition digit_value (c : ascii) : option Z :=
let n := N_of_ascii c in
if ((48 <=? n) && (n <=? 57))%N then Some (Z.of_N n - 48) else None.

(** The value of a string of digits after the digits already read. *)
Fixpoint digits_value (acc : Z) (s : string) : option Z :=
match s with
| EmptyString => Some acc
| String c s' =>
    match digit_value c with
    | Some v => digits_value (10 * acc + v) s'
    | None => None
    end
end.

(** An optional sign, then what [body] reads. *)
Definition signed {A : Type} (neg : A -> A) (body : string -> option A)
    (s : string) : option A :=
match strip s with
| String "-" rest => option_map neg (body rest)
| String "+" rest => body rest
| rest => body rest
end.

Definition unsigned_int (s : string) : option Z :=
match s with
| EmptyString => None
| _ => digits_value 0 s
end.

(** [int(s)] on an optional sign followed by decimal digits. *)
Definition py_int (s : string) : option Z := signed Z.opp unsigned_int s.

(** Splits at the first dot. *)
Fixpoint split_dot (s : string) : string * option string :=
match s with
| EmptyString => (EmptyString, None)
| String c s' =>
    if Ascii.eqb c "."%char then (EmptyString, Some s')
    else let (a, b) := split_dot s' in (String c a, b)
end.

Definition unsigned_float (s : string) : option Q :=
match split_dot s with
| (EmptyString, None) | (EmptyString, Some EmptyString) => None
| (whole, None) => option_map inject_Z (digits_value 0 whole)
| (whole, Some frac) =>
    match digits_value 0 whole, digits_value 0 frac with
    | Some w, Some f =>
        let scale := 10 ^ Z.of_nat (String.length frac) in
        Some (Qred (Qmake (w * scale + f) (Z.to_pos scale)))
    | _, _ => None
    end
end.

(** [float(s)] on an optional sign followed by digits with at most one dot. *)
Definition py_float (s : string) : option price := signed Qopp unsigned_float s.

(** A catalogue of two items and no sale. *)
Definition shop : db price :=
Db [Inventory.Row 1 "Tea" (2 # 1)%Q 10 None 0;
    Inventory.Row 2 "Mug" (7 # 2)%Q 5 None 0]
   [] 2 0.

Definition t1 : string := "2024-05-01T10:00:00".
Definition t2 : string := "2024-05-01T11:30:00".
Definition t3 : string := "2024-05-02T09:15:00".

(** The shop after three units of tea were sold. *)
Definition after_sale : db price :=
fst (record_sale_db price_mul 1 3 t1 shop).

(** The same ledger once the tea has been taken out of the catalogue with
    the text menu: its only sale refers to an item that is gone. *)
Definition orphaned : db price :=
fst (pos_system.delete_item 1 after_sale).

(** A day of sales, cancellations, restorations and deletions. *)
Definition day : list ledger_op :=
[Sell 1 3 t1; Sell 2 1 t2; Cancel 1; Uncancel 1; Sell 1 20 t2;
 Cancel 2; Sell 2 2 t3; Delete_sale 2].

(** The time read while line [k] of a cart is sold. *)
Definition clock (k : nat) : string :=
match k with
| O => t1
| 1%nat => t2
| _ => t3
end.

Definition price_add (a b : price) : price := Qred (a + b).

Definition price_zero : price := 0%Q.

(** A visit to the shop: a cart is filled, changed and checked out, an
    item is added, one is made a favourite and one edited, and the sale of
    the tea is cancelled; a deletion is asked with a wrong code, and a
    restoration with the right one. *)
Definition visit : list request :=
[Post_add_to_cart (Some "1") (Some "2");
 Post_add_to_cart (Some "2") None;
 Post_update_cart (Some "2") None (Some "3");
 Post_checkout clock;
 Any_add_item POST (Add_item_form " Jam " "2.50" "4" None) "0f";
 Post_toggle_favorite 2;
 Any_edit_item POST 1 (Add_item_form "Green tea" "2.50" "6" None) "1a";
 Post_cancel_sale 1;
 Post_delete_sale "0000" 1;
 Post_uncancel_sale " 0516 " 1].

(** The same visit without its last request. *)
Definition visit_without_code : list request := removelast visit.

(** The shop after three units of tea were sold and the sale cancelled. *)
Definition after_cancel : db price := fst (cancel_sale_db 1 after_sale).


(** The shop after the visit. *)
Definition after_visit : db price :=
fst (serve_all price_mul py_float py_int isnan visit (shop, [])).

(** A cart whose last line is for an item that is not in the shop. *)
Definition basket : cart := [("1", 2); ("2", 3); ("7", 1)].

End Decimal.

(** * Properties *)

(** ** Tables as lists: updates and look-ups *)

Section Tables.

Context {A : Type}.
Variable key : A -> Z.

Lemma select_where_update (f : A -> A) (k : Z) (l : list A) :
  (forall x, key (f x) = key x) ->
  select_where key k (update_where key f k l) = option_map f (select_where key k l).
Proof.
  intros Hkey. unfold select_where, update_where.
  induction l as [|x l IH]; simpl; [reflexivity|].
  destruct (key x =? k) eqn:E.
  - rewrite Hkey, E. reflexivity.
  - rewrite E. exact IH.
Qed.

Lemma select_where_update_other (f : A -> A) (k k' : Z) (l : list A) :
  (forall x, key (f x) = key x) -> k' <> k ->
  select_where key k' (update_where key f k l) = select_where key k' l.
Proof.
  intros Hkey Hne. unfold select_where, update_where.
  induction l as [|x l IH]; simpl; [reflexivity|].
  destruct (key x =? k) eqn:E.
  - rewrite Hkey. apply Z.eqb_eq in E.
    assert ((key x =? k') = false) as -> by (apply Z.eqb_neq; lia).
    exact IH.
  - destruct (key x =? k'); [reflexivity | exact IH].
Qed.

Lemma update_where_absent (f : A -> A) (k : Z) (l : list A) :
  select_where key k l = None -> update_where key f k l = l.
Proof.
  unfold select_where, update_where.
  induction l as [|x l IH]; simpl; [reflexivity|].
  destruct (key x =? k); [discriminate|].
  intros H. rewrite (IH H). reflexivity.
Qed.

Lemma update_where_compose (f g : A -> A) (k : Z) (l : list A) :
  (forall x, key (f x) = key x) ->
  update_where key g k (update_where key f k l) = update_where key (fun x => g (f x)) k l.
Proof.
  intros Hkey. unfold update_where. rewrite map_map.
  apply map_ext. intros x.
  destruct (key x =? k) eqn:E; [rewrite Hkey, E | rewrite E]; reflexivity.
Qed.

Lemma update_where_id (f : A -> A) (k : Z) (l : list A) :
  (forall x, In x l -> key x = k -> f x = x) -> update_where key f k l = l.
Proof.
  intros H. unfold update_where.
  rewrite <- (map_id l) at 2. apply map_ext_in.
  intros x Hx. destruct (key x =? k) eqn:E; [|reflexivity].
  apply H; [exact Hx | now apply Z.eqb_eq].
Qed.

Lemma update_where_keys (f : A -> A) (k : Z) (l : list A) :
  (forall x, key (f x) = key x) ->
  map key (update_where key f k l) = map key l.
Proof.
  intros Hkey. unfold update_where. rewrite map_map.
  apply map_ext. intros x. destruct (key x =? k); [apply Hkey | reflexivity].
Qed.

Lemma update_where_Forall2 (f : A -> A) (k : Z) (l : list A) :
  Forall2 (fun x y => y = if key x =? k then f x else x) l (update_where key f k l).
Proof.
  unfold update_where. induction l; simpl; constructor; auto.
Qed.

Lemma select_where_In (k : Z) (l : list A) (x : A) :
  select_where key k l = Some x -> In x l /\ key x = k.
Proof.
  unfold select_where. intros H. apply find_some in H.
  destruct H as [H1 H2]. split; [exact H1 | now apply Z.eqb_eq].
Qed.

Lemma select_where_delete (k : Z) (l : list A) :
  select_where key k (delete_where key k l) = None.
Proof.
  unfold select_where, delete_where.
  induction l as [|x l IH]; simpl; [reflexivity|].
  destruct (key x =? k) eqn:E; simpl; [exact IH|].
  rewrite E. exact IH.
Qed.

Lemma select_where_delete_other (k k' : Z) (l : list A) :
  k' <> k ->
  select_where key k' (delete_where key k l) = select_where key k' l.
Proof.
  intros Hne. unfold select_where, delete_where.
  induction l as [|x l IH]; simpl; [reflexivity|].
  destruct (key x =? k) eqn:E; simpl.
  - apply Z.eqb_eq in E.
    assert ((key x =? k') = false) as -> by (apply Z.eqb_neq; lia).
    exact IH.
  - destruct (key x =? k'); [reflexivity | exact IH].
Qed.

Lemma select_where_None (k : Z) (l : list A) :
  ~ In k (map key l) -> select_where key k l = None.
Proof.
  unfold select_where. induction l as [|x l IH]; simpl; [reflexivity|].
  intros H. destruct (Z.eqb_spec (key x) k) as [E|E].
  - exfalso. apply H. now left.
  - apply IH. intros Hin. apply H. now right.
Qed.

Lemma select_where_absent_keys (k : Z) (l : list A) :
  select_where key k l = None -> forall x, In x l -> key x <> k.
Proof.
  unfold select_where. intros H x Hx E.
  apply (find_none _ _ H) in Hx. apply Z.eqb_neq in Hx. contradiction.
Qed.

Lemma delete_where_absent (k : Z) (l : list A) :
  ~ In k (map key l) -> delete_where key k l = l.
Proof.
  unfold delete_where. induction l as [|x l IH]; simpl; [reflexivity|].
  intros H. destruct (Z.eqb_spec (key x) k) as [E|E]; simpl.
  - exfalso. apply H. now left.
  - rewrite IH; [reflexivity|]. intros Hin. apply H. now right.
Qed.

(** Under a primary key, rewriting the row of key [k] moves the total of a
    column expression by the difference between the new and the old row. *)
Lemma total_update (c : A -> Z) (f : A -> A) (k : Z) (l : list A) (x : A) :
  NoDup (map key l) ->
  select_where key k l = Some x ->
  total c (update_where key f k l) = total c l - c x + c (f x).
Proof.
  unfold select_where, update_where.
  induction l as [|y l IH]; simpl; [discriminate|].
  intros Hnd Hsel. apply NoDup_cons_iff in Hnd. destruct Hnd as [Hy Hnd].
  destruct (Z.eqb_spec (key y) k) as [E|E].
  - injection Hsel as ->. rewrite <- E in *.
    fold (update_where key f (key x) l).
    rewrite update_where_absent by (now apply select_where_None).
    lia.
  - rewrite (IH Hnd Hsel). lia.
Qed.

Lemma total_delete (c : A -> Z) (k : Z) (l : list A) (x : A) :
  NoDup (map key l) ->
  select_where key k l = Some x ->
  total c (delete_where key k l) = total c l - c x.
Proof.
  unfold select_where, delete_where.
  induction l as [|y l IH]; simpl; [discriminate|].
  intros Hnd Hsel. apply NoDup_cons_iff in Hnd. destruct Hnd as [Hy Hnd].
  destruct (Z.eqb_spec (key y) k) as [E|E]; simpl.
  - injection Hsel as ->. rewrite <- E in *.
    fold (delete_where key (key x) l).
    rewrite delete_where_absent by assumption. lia.
  - rewrite (IH Hnd Hsel). lia.
Qed.

Lemma total_app (c : A -> Z) (l l' : list A) :
  total c (l ++ l') = total c l + total c l'.
Proof.
  induction l as [|x l IH]; simpl; [reflexivity | rewrite IH; lia].
Qed.

Lemma NoDup_keys_delete (k : Z) (l : list A) :
  NoDup (map key l) -> NoDup (map key (delete_where key k l)).
Proof.
  unfold delete_where. induction l as [|x l IH]; simpl; [auto|].
  intros Hnd. apply NoDup_cons_iff in Hnd. destruct Hnd as [Hx Hnd].
  destruct (key x =? k); simpl; [auto|].
  constructor; [|auto].
  intros Hin. apply Hx. apply in_map_iff in Hin.
  destruct Hin as [y [Hy Hin]]. apply filter_In in Hin.
  apply in_map_iff. exists y. tauto.
Qed.

Lemma NoDup_keys_insert (l : list A) (x : A) :
  NoDup (map key l) -> ~ In (key x) (map key l) ->
  NoDup (map key (l ++ [x])).
Proof.
  intros Hnd Hx. rewrite map_app. simpl.
  apply (Permutation_NoDup (l := key x :: map key l)).
  - apply Permutation_cons_append.
  - now constructor.
Qed.

Lemma select_where_unique (k : Z) (l : list A) (x : A) :
  NoDup (map key l) -> In x l -> key x = k -> select_where key k l = Some x.
Proof.
  unfold select_where. induction l as [|y l IH]; simpl; [contradiction|].
  intros Hnd Hin Hk. apply NoDup_cons_iff in Hnd. destruct Hnd as [Hy Hnd].
  destruct Hin as [->|Hin].
  - rewrite (proj2 (Z.eqb_eq _ _) Hk). reflexivity.
  - destruct (Z.eqb_spec (key y) k) as [E|E]; [|now apply IH].
    exfalso. apply Hy. rewrite E, <- Hk. now apply in_map.
Qed.

(** The id of an inserted row is new. *)
Lemma next_id_above (seq : Z) (ids : list Z) :
  seq < next_id seq ids /\ forall i, In i ids -> i < next_id seq ids.
Proof.
  unfold next_id. induction ids as [|j ids [IH1 IH2]]; simpl.
  - split; [lia | contradiction].
  - split; [lia|]. intros i [->|Hi]; [lia|]. specialize (IH2 i Hi). lia.
Qed.

Lemma next_id_fresh (seq : Z) (ids : list Z) : ~ In (next_id seq ids) ids.
Proof.
  intros H. apply (proj2 (next_id_above seq ids)) in H. lia.
Qed.

End Tables.

(** ** Selling *)

Section Selling.

Context {price : Type}.
Variable price_mul : price -> Z -> price.

Lemma select_item_update (f : Inventory.row price -> Inventory.row price)
    (item_id : Z) (d : db price) :
  (forall r, Inventory.id (f r) = Inventory.id r) ->
  select_item item_id (update_inventory f item_id d) =
  option_map f (select_item item_id d).
Proof. intros H. exact (select_where_update Inventory.id f item_id _ H). Qed.

Lemma select_item_insert_sale (i item_id q : Z) (now : string) (total : price)
    (d : db price) :
  select_item i (insert_sale item_id q now total d) = select_item i d.
Proof. reflexivity. Qed.

(** C2.  A sale of [q > 0] units of an existing item that has at least [q]
    units answers [Sold] with the total [price * q]; the quantity of the item
    drops by exactly [q] and no other column or inventory row changes; the
    sales table gains exactly one row, at its end, with a new id, that
    refers to the item, holds [q], the time read and that total, and is not
    cancelled; the sales rows already there are kept.  The function of the
    text menu leaves the same database. *)
Theorem record_sale_db_sells (item_id q : Z) (now : string) (d : db price)
    (row : Inventory.row price) :
  select_item item_id d = Some row ->
  0 < q ->
  q <= Inventory.quantity row ->
  let total := price_mul (Inventory.price_ row) q in
  let d' := fst (record_sale_db price_mul item_id q now d) in
  snd (record_sale_db price_mul item_id q now d) =
    Sold q (Inventory.name row) total now /\
  select_item item_id d' =
    Some (Inventory.set_quantity (Inventory.quantity row - q) row) /\
  Forall2 (fun r r' =>
             r' = if Inventory.id r =? item_id
                  then Inventory.set_quantity (Inventory.quantity r - q) r
                  else r)
          (inventory d) (inventory d') /\
  (exists new_id,
     ~ In new_id (map Sales.id (sales d)) /\
     sales d' = (sales d ++ [Sales.Row new_id item_id q now total 0])%list) /\
  inventory_seq d' = inventory_seq d /\
  fst (pos_system.record_sale price_mul item_id q now d) = d'.
Proof.
  intros Hrow Hpos Hstock total d'.
  assert (Hrun : record_sale_db price_mul item_id q now d =
                 (insert_sale item_id q now total
                    (update_inventory (sub_quantity q) item_id d),
                  Sold q (Inventory.name row) total now)).
  { unfold record_sale_db. rewrite Hrow.
    destruct (Z.leb_spec q 0) as [Hle|_]; [lia|].
    destruct (Z.ltb_spec (Inventory.quantity row) q) as [Hlt|_]; [lia|].
    reflexivity. }
  subst d'. rewrite Hrun. cbn [fst snd].
  repeat split.
  - rewrite select_item_insert_sale, select_item_update by reflexivity.
    rewrite Hrow. reflexivity.
  - exact (update_where_Forall2 Inventory.id _ item_id (inventory d)).
  - exists (next_id (sales_seq d) (map Sales.id (sales d))).
    split; [apply next_id_fresh | reflexivity].
  - unfold pos_system.record_sale. rewrite Hrow.
    destruct (Z.leb_spec q 0) as [Hle|_]; [lia|].
    destruct (Z.ltb_spec (Inventory.quantity row) q) as [Hlt|_]; [lia|].
    reflexivity.
Qed.

(** C3.  A sale that is refused changes nothing.  When the item is missing
    the answer names the id asked for; when the item exists and [q <= 0] the
    answer is that the quantity must be positive; when the item exists,
    [q > 0] and the item has fewer than [q] units, the answer is
    [Insufficient_stock] carrying the quantity the item has. *)
Theorem record_sale_db_refuses (item_id q : Z) (now : string) (d : db price) :
  match select_item item_id d with
  | None =>
      record_sale_db price_mul item_id q now d = (d, Item_does_not_exist item_id)
  | Some row =>
      (q <= 0 ->
       record_sale_db price_mul item_id q now d = (d, Quantity_must_be_positive)) /\
      (0 < q -> Inventory.quantity row < q ->
       record_sale_db price_mul item_id q now d =
         (d, Insufficient_stock (Inventory.quantity row)))
  end.
Proof.
  unfold record_sale_db.
  destruct (select_item item_id d) as [row|]; [|reflexivity].
  split.
  - intros Hle. destruct (Z.leb_spec q 0); [reflexivity | lia].
  - intros Hpos Hlt.
    destruct (Z.leb_spec q 0); [lia|].
    destruct (Z.ltb_spec (Inventory.quantity row) q); [reflexivity | lia].
Qed.

End Selling.

(** ** Cancelling, restoring and deleting a sale *)

Section Lifecycle.

Context {price : Type}.
Variable price_mul : price -> Z -> price.

Implicit Types (d : db price) (row : Sales.row price).

Lemma inventory_update_inventory f item_id d :
  inventory (update_inventory f item_id d) =
  update_where Inventory.id f item_id (inventory d).
Proof. reflexivity. Qed.

Lemma sales_update_cancelled v sale_id d :
  sales (update_cancelled v sale_id d) =
  update_where Sales.id (Sales.set_cancelled v) sale_id (sales d).
Proof. reflexivity. Qed.

Lemma sales_delete_sale_row sale_id d :
  sales (delete_sale_row sale_id d) = delete_where Sales.id sale_id (sales d).
Proof. reflexivity. Qed.

Lemma select_sale_eq sale_id d :
  select_sale sale_id d = select_where Sales.id sale_id (sales d).
Proof. reflexivity. Qed.

Lemma select_item_eq item_id d :
  select_item item_id d = select_where Inventory.id item_id (inventory d).
Proof. reflexivity. Qed.

Lemma truthy_0 (v : Z) : v = 0 -> truthy v = false.
Proof. intros ->. reflexivity. Qed.

Lemma truthy_not_0 (v : Z) : v <> 0 -> truthy v = true.
Proof. intros H. unfold truthy. now apply Z.eqb_neq in H as ->. Qed.

Lemma truthy_false (v : Z) : truthy v = false -> v = 0.
Proof.
  unfold truthy. destruct (Z.eqb_spec v 0); [auto | discriminate].
Qed.


(** What each operation does once its checks have passed. *)

Lemma cancel_sale_db_active sale_id d row :
  select_sale sale_id d = Some row ->
  Sales.cancelled row = 0 ->
  cancel_sale_db sale_id d =
  (update_inventory (add_quantity (Sales.quantity row)) (Sales.item_id row)
     (update_cancelled 1 sale_id d),
   Sale_cancelled_and_inventory_restored).
Proof.
  intros Hrow H0. unfold cancel_sale_db. rewrite Hrow, (truthy_0 _ H0).
  reflexivity.
Qed.

Lemma delete_sale_db_active sale_id d row :
  select_sale sale_id d = Some row ->
  Sales.cancelled row = 0 ->
  delete_sale_db sale_id d =
  (delete_sale_row sale_id
     (update_inventory (add_quantity (Sales.quantity row)) (Sales.item_id row) d),
   Sale_deleted_and_inventory_adjusted).
Proof.
  intros Hrow H0. unfold delete_sale_db. rewrite Hrow, (truthy_0 _ H0).
  reflexivity.
Qed.

Lemma delete_sale_db_cancelled sale_id d row :
  select_sale sale_id d = Some row ->
  Sales.cancelled row <> 0 ->
  delete_sale_db sale_id d = (delete_sale_row sale_id d, Sale_deleted).
Proof.
  intros Hrow H0. unfold delete_sale_db. rewrite Hrow, (truthy_not_0 _ H0).
  reflexivity.
Qed.


(** C9.  For a sale whose item is no longer in the inventory: cancelling it,
    when it is not cancelled, answers that the sale was cancelled, marks the
    row cancelled and leaves the inventory as it was; deleting it answers
    that the sale was deleted, drops the row and leaves the inventory as it
    was. *)
Theorem dangling_sale_cancel_delete sale_id d row :
  select_sale sale_id d = Some row ->
  select_item (Sales.item_id row) d = None ->
  (Sales.cancelled row = 0 ->
   snd (cancel_sale_db sale_id d) = Sale_cancelled_and_inventory_restored /\
   select_sale sale_id (fst (cancel_sale_db sale_id d)) =
     Some (Sales.set_cancelled 1 row) /\
   inventory (fst (cancel_sale_db sale_id d)) = inventory d) /\
  snd (delete_sale_db sale_id d) =
    (if Sales.cancelled row =? 0
     then Sale_deleted_and_inventory_adjusted else Sale_deleted) /\
  sales (fst (delete_sale_db sale_id d)) = delete_where Sales.id sale_id (sales d) /\
  select_sale sale_id (fst (delete_sale_db sale_id d)) = None /\
  inventory (fst (delete_sale_db sale_id d)) = inventory d.
Proof.
  intros Hrow Hitem.
  assert (Hnoop : forall f d0, inventory d0 = inventory d ->
            inventory (update_inventory f (Sales.item_id row) d0) = inventory d).
  { intros f d0 E. rewrite inventory_update_inventory, E.
    apply update_where_absent. exact Hitem. }
  split.
  - intros H0. rewrite (cancel_sale_db_active _ _ _ Hrow H0). cbn [fst snd].
    repeat split.
    + rewrite select_sale_eq. cbn [sales update_inventory].
      rewrite sales_update_cancelled, select_where_update by reflexivity.
      rewrite <- select_sale_eq, Hrow. reflexivity.
    + apply Hnoop. reflexivity.
  - destruct (Z.eqb_spec (Sales.cancelled row) 0) as [H0|H0].
    + rewrite (delete_sale_db_active _ _ _ Hrow H0). cbn [fst snd].
      repeat split.
      * rewrite select_sale_eq, sales_delete_sale_row. apply select_where_delete.
      * cbn [inventory delete_sale_row]. apply Hnoop. reflexivity.
    + rewrite (delete_sale_db_cancelled _ _ _ Hrow H0). cbn [fst snd].
      repeat split.
      rewrite select_sale_eq, sales_delete_sale_row. apply select_where_delete.
Qed.

Lemma uncancel_sale_db_cases sale_id d row :
  select_sale sale_id d = Some row ->
  Sales.cancelled row <> 0 ->
  uncancel_sale_db sale_id d =
  match select_item (Sales.item_id row) d with
  | None => (d, Associated_item_not_found)
  | Some item_row =>
      if Inventory.quantity item_row <? Sales.quantity row
      then (d, Not_enough_stock_to_uncancel)
      else (update_cancelled 0 sale_id
              (update_inventory (sub_quantity (Sales.quantity row))
                 (Sales.item_id row) d),
            Sale_uncancelled_and_inventory_updated)
  end.
Proof.
  intros Hrow H0. unfold uncancel_sale_db. rewrite Hrow, (truthy_not_0 _ H0).
  reflexivity.
Qed.



(** Restoring right after cancelling is accepted as soon as the item is in
    the inventory with a quantity that was not negative. *)
Lemma uncancel_after_cancel_accepted sale_id d row
    (item_row : Inventory.row price) :
  select_sale sale_id d = Some row ->
  Sales.cancelled row = 0 ->
  select_item (Sales.item_id row) d = Some item_row ->
  0 <= Inventory.quantity item_row ->
  snd (uncancel_sale_db sale_id (fst (cancel_sale_db sale_id d))) =
  Sale_uncancelled_and_inventory_updated.
Proof.
  intros Hrow H0 Hitem Hq.
  rewrite (cancel_sale_db_active _ _ _ Hrow H0). cbn [fst].
  rewrite (uncancel_sale_db_cases _ _ (Sales.set_cancelled 1 row)).
  - cbn [Sales.item_id Sales.quantity Sales.set_cancelled].
    rewrite select_item_eq, inventory_update_inventory.
    cbn [inventory update_cancelled].
    rewrite select_where_update by reflexivity.
    rewrite <- select_item_eq, Hitem. cbn [option_map].
    destruct (Z.ltb_spec (Inventory.quantity (add_quantity (Sales.quantity row) item_row))
                         (Sales.quantity row)) as [Hlt|_]; [|reflexivity].
    destruct item_row. simpl in *. lia.
  - rewrite select_sale_eq. cbn [sales update_inventory].
    rewrite sales_update_cancelled, select_where_update by reflexivity.
    rewrite <- select_sale_eq, Hrow. reflexivity.
  - simpl. lia.
Qed.

(** *** The ledger invariant *)

Lemma debit_cancelled (i v : Z) row :
  v <> 0 -> debit i (Sales.set_cancelled v row) = 0.
Proof.
  intros H. unfold debit. cbn [Sales.cancelled Sales.set_cancelled].
  rewrite (truthy_not_0 _ H). reflexivity.
Qed.

Lemma debit_of_cancelled (i : Z) row :
  Sales.cancelled row <> 0 -> debit i row = 0.
Proof. intros H. unfold debit. rewrite (truthy_not_0 _ H). reflexivity. Qed.

Lemma debit_active (i : Z) row :
  debit i (Sales.set_cancelled 0 row) =
  if Sales.item_id row =? i then Sales.quantity row else 0.
Proof. reflexivity. Qed.

Lemma debit_of_active (i : Z) row :
  Sales.cancelled row = 0 ->
  debit i row = if Sales.item_id row =? i then Sales.quantity row else 0.
Proof. intros H. unfold debit. rewrite (truthy_0 _ H). reflexivity. Qed.

(** Moving [delta] units to the item [k], while the sales of [k] hold
    [delta] units fewer, keeps every row reconciled. *)
Lemma reconciled_transfer (l l' : list (Sales.row price)) (k delta : Z)
    (inv0 inv : list (Inventory.row price)) :
  (forall i, active_quantity i l' =
             active_quantity i l - (if k =? i then delta else 0)) ->
  Forall2 (reconciled l) inv0 inv ->
  Forall2 (reconciled l') inv0
          (update_where Inventory.id (add_quantity delta) k inv).
Proof.
  intros Hact H. induction H as [|r0 r inv0 inv Hr _ IH]; simpl; constructor;
    [|exact IH].
  unfold reconciled in *. rewrite <- Hr. destruct r as [i n p q im fv].
  cbn [Inventory.id]. destruct (Z.eqb_spec i k) as [E|E];
    unfold add_quantity, Inventory.set_quantity; simpl; rewrite Hact.
  - subst. rewrite Z.eqb_refl. f_equal. lia.
  - assert ((k =? i) = false) as -> by (apply Z.eqb_neq; lia).
    f_equal. lia.
Qed.

Lemma reconciled_same (l l' : list (Sales.row price))
    (inv0 inv : list (Inventory.row price)) :
  (forall i, active_quantity i l' = active_quantity i l) ->
  Forall2 (reconciled l) inv0 inv -> Forall2 (reconciled l') inv0 inv.
Proof.
  intros Hact H. induction H; constructor; auto.
  unfold reconciled in *. now rewrite Hact.
Qed.

Lemma ledger_invariant_start (d0 : db price) :
  sales d0 = [] -> ledger_invariant d0 d0.
Proof.
  intros H. unfold ledger_invariant. rewrite H. split; [constructor|].
  induction (inventory d0) as [|r l IH]; constructor; [|exact IH].
  unfold reconciled, active_quantity, Inventory.set_quantity.
  destruct r. simpl. f_equal. lia.
Qed.

Lemma record_sale_db_invariant d0 d item_id q now :
  ledger_invariant d0 d ->
  ledger_invariant d0 (fst (record_sale_db price_mul item_id q now d)).
Proof.
  intros [Hnd Hrec]. unfold record_sale_db.
  destruct (select_item item_id d) as [r|]; [|now split].
  destruct (q <=? 0); [now split|].
  destruct (Inventory.quantity r <? q); [now split|].
  cbn [fst]. split.
  - cbn [sales insert_sale update_inventory].
    apply NoDup_keys_insert; [exact Hnd | apply next_id_fresh].
  - cbn [sales inventory insert_sale update_inventory].
    change (sub_quantity q) with (add_quantity (price := price) (- q)).
    apply (reconciled_transfer (sales d)); [|exact Hrec].
    intros i. unfold active_quantity. rewrite total_app. simpl.
    unfold debit at 2. simpl. destruct (item_id =? i); lia.
Qed.

Lemma cancel_sale_db_invariant d0 d sale_id :
  ledger_invariant d0 d -> ledger_invariant d0 (fst (cancel_sale_db sale_id d)).
Proof.
  intros [Hnd Hrec]. unfold cancel_sale_db.
  destruct (select_sale sale_id d) as [row|] eqn:Hrow; [|now split].
  destruct (truthy (Sales.cancelled row)) eqn:Hc; [now split|].
  apply truthy_false in Hc. cbn [fst]. split.
  - cbn [sales update_inventory]. rewrite sales_update_cancelled.
    rewrite update_where_keys by reflexivity. exact Hnd.
  - rewrite inventory_update_inventory. cbn [sales inventory update_inventory].
    rewrite sales_update_cancelled. cbn [inventory update_cancelled].
    apply (reconciled_transfer (sales d)); [|exact Hrec].
    intros i. unfold active_quantity.
    rewrite (total_update Sales.id _ _ _ _ row Hnd Hrow).
    rewrite debit_cancelled by lia. rewrite (debit_of_active _ _ Hc).
    destruct (Sales.item_id row =? i); lia.
Qed.

Lemma uncancel_sale_db_invariant d0 d sale_id :
  ledger_invariant d0 d -> ledger_invariant d0 (fst (uncancel_sale_db sale_id d)).
Proof.
  intros [Hnd Hrec]. unfold uncancel_sale_db.
  destruct (select_sale sale_id d) as [row|] eqn:Hrow; [|now split].
  destruct (truthy (Sales.cancelled row)) eqn:Hc; [|now split].
  assert (Hc' : Sales.cancelled row <> 0).
  { intros E. rewrite (truthy_0 _ E) in Hc. discriminate. }
  cbn [negb].
  destruct (select_item (Sales.item_id row) d) as [item_row|]; [|now split].
  destruct (Inventory.quantity item_row <? Sales.quantity row); [now split|].
  cbn [fst]. split.
  - rewrite sales_update_cancelled. cbn [sales update_inventory].
    rewrite update_where_keys by reflexivity. exact Hnd.
  - rewrite sales_update_cancelled.
    cbn [sales inventory update_inventory update_cancelled].
    change (sub_quantity (Sales.quantity row))
      with (add_quantity (price := price) (- Sales.quantity row)).
    apply (reconciled_transfer (sales d)); [|exact Hrec].
    intros i. unfold active_quantity.
    rewrite (total_update Sales.id _ _ _ _ row Hnd Hrow).
    rewrite (debit_of_cancelled _ _ Hc'), (debit_active i).
    destruct (Sales.item_id row =? i); lia.
Qed.

Lemma delete_sale_db_invariant d0 d sale_id :
  ledger_invariant d0 d -> ledger_invariant d0 (fst (delete_sale_db sale_id d)).
Proof.
  intros [Hnd Hrec]. unfold delete_sale_db.
  destruct (select_sale sale_id d) as [row|] eqn:Hrow; [|now split].
  cbn [fst]. split.
  - rewrite sales_delete_sale_row.
    destruct (negb (truthy (Sales.cancelled row)));
      cbn [sales update_inventory]; now apply NoDup_keys_delete.
  - rewrite sales_delete_sale_row. cbn [inventory delete_sale_row].
    destruct (truthy (Sales.cancelled row)) eqn:Hc; cbn [negb].
    + assert (Hc' : Sales.cancelled row <> 0).
      { intros E. rewrite (truthy_0 _ E) in Hc. discriminate. }
      apply (reconciled_same (sales d)); [|exact Hrec].
      intros i. unfold active_quantity.
      rewrite (total_delete Sales.id _ _ _ row Hnd Hrow).
      rewrite (debit_of_cancelled _ _ Hc'). lia.
    + apply truthy_false in Hc.
      cbn [sales inventory update_inventory].
      apply (reconciled_transfer (sales d)); [|exact Hrec].
      intros i. unfold active_quantity.
      rewrite (total_delete Sales.id _ _ _ row Hnd Hrow).
      rewrite (debit_of_active _ _ Hc).
      destruct (Sales.item_id row =? i); lia.
Qed.

Lemma step_invariant d0 d op :
  ledger_invariant d0 d -> ledger_invariant d0 (step price_mul d op).
Proof.
  destruct op; simpl.
  - apply record_sale_db_invariant.
  - apply cancel_sale_db_invariant.
  - apply uncancel_sale_db_invariant.
  - apply delete_sale_db_invariant.
Qed.

Lemma run_invariant d0 ops d :
  ledger_invariant d0 d -> ledger_invariant d0 (run price_mul ops d).
Proof.
  revert d. unfold run. induction ops as [|op ops IH]; simpl; [auto|].
  intros d H. apply IH. now apply step_invariant.
Qed.

(** C1.  From a database [d0] without sales, after any sequence of sales,
    cancellations, restorations and sale deletions, the inventory has the
    same rows in the same order, and for each of them the original quantity
    is the current quantity plus the sum of the quantities of the sales
    that refer to the row and are not cancelled; no other column of the
    row has changed. *)
Theorem ledger_reconciles (d0 : db price) (ops : list ledger_op) :
  sales d0 = [] ->
  let d := run price_mul ops d0 in
  Forall2 (fun r0 r =>
             Inventory.quantity r0 =
               Inventory.quantity r + active_quantity (Inventory.id r) (sales d) /\
             Inventory.set_quantity (Inventory.quantity r0) r = r0)
          (inventory d0) (inventory d).
Proof.
  intros H d.
  destruct (run_invariant d0 ops d0 (ledger_invariant_start d0 H)) as [_ Hrec].
  fold d in Hrec. revert Hrec. apply Forall2_impl.
  intros r0 r Hr. unfold reconciled in Hr. rewrite <- Hr.
  destruct r. simpl. split; reflexivity.
Qed.

End Lifecycle.

(** ** Editing and adding items *)

Section Catalogue.

Context {price : Type}.
Variable py_float : string -> option price.
Variable py_int : string -> option Z.
Variable isnan : price -> bool.

Implicit Types (d : db price) (r : Inventory.row price).

Lemma apply_set_clause_edited name p quantity image_path r :
  apply_set_clause (set_clause name p quantity image_path) r =
  edited name p quantity image_path r.
Proof.
  destruct r as [i n pr q im fv].
  destruct name, p, quantity, image_path; reflexivity.
Qed.

Lemma edited_nothing r : edited None None None None r = r.
Proof. destruct r. reflexivity. Qed.

Lemma storable_update_item_raises item_id p quantity d :
  storable isnan p quantity ->
  update_item_raises isnan item_id p quantity d = None.
Proof.
  intros [Hq Hp]. unfold update_item_raises.
  destruct quantity as [v|]; [rewrite Hq|]; cbn [negb];
    (destruct p as [w|]; [now rewrite Hp|reflexivity]).
Qed.

Lemma storable_insert_item_raises (p : price) (quantity : Z) :
  binds quantity = true -> isnan p = false ->
  insert_item_raises isnan p quantity = None.
Proof. intros Hq Hp. unfold insert_item_raises. now rewrite Hq, Hp. Qed.

Lemma update_item_db_stored item_id name p quantity image_path d :
  storable isnan p quantity ->
  update_item_db isnan item_id name p quantity image_path d =
  update_inventory (edited name p quantity image_path) item_id d.
Proof.
  intros Hst. unfold update_item_db.
  rewrite (storable_update_item_raises item_id p quantity d Hst).
  destruct (set_clause name p quantity image_path) eqn:E.
  - destruct name, p, quantity, image_path; try discriminate.
    destruct d as [inv sl s1 s2]. unfold update_inventory. simpl. f_equal.
    symmetry. apply (update_where_id Inventory.id).
    intros r _ _. apply edited_nothing.
  - rewrite <- E. unfold update_inventory. f_equal.
    apply map_ext. intros x.
    now rewrite apply_set_clause_edited.
Qed.

Lemma update_item_db_raised item_id name p quantity image_path d e :
  update_item_raises isnan item_id p quantity d = Some e ->
  update_item_db isnan item_id name p quantity image_path d = d.
Proof.
  intros H. unfold update_item_db. rewrite H.
  now destruct (set_clause name p quantity image_path).
Qed.

(** C10.  An edit of an existing item that supplies a quantity, if any,
    that fits an [INTEGER] and a price, if any, that is a number leaves the
    sales table alone and rewrites the inventory rows of that id only: each
    column for which a value is supplied takes it, the name stripped of
    surrounding white space, and the other columns, the id and the
    favourite flag among them, keep their value.  In the text menu a name
    that is empty counts as not supplied, and the image path is never
    touched.  On any other quantity or price [execute] raises, in the text
    menu as well, and the database is left as it was. *)
Theorem update_item_db_frame item_id name p quantity image_path d row :
  select_item item_id d = Some row ->
  let d' := update_item_db isnan item_id name p quantity image_path d in
  let d'' := fst (pos_system.update_item isnan item_id name p quantity d) in
  (storable isnan p quantity ->
   (sales d' = sales d /\
    sales_seq d' = sales_seq d /\
    inventory_seq d' = inventory_seq d /\
    select_item item_id d' = Some (edited name p quantity image_path row) /\
    Forall2 (fun r r' =>
               r' = if Inventory.id r =? item_id
                    then edited name p quantity image_path r
                    else r)
            (inventory d) (inventory d')) /\
   (sales d'' = sales d /\
    sales_seq d'' = sales_seq d /\
    inventory_seq d'' = inventory_seq d /\
    select_item item_id d'' =
      Some (edited (pos_system.name_given name) p quantity None row) /\
    Forall2 (fun r r' =>
               r' = if Inventory.id r =? item_id
                    then Inventory.Row (Inventory.id r)
                           (Inventory.name (edited (pos_system.name_given name) None None None row))
                           (Inventory.price_ (edited None p None None row))
                           (Inventory.quantity (edited None None quantity None row))
                           (Inventory.image_path r) (Inventory.favorite r)
                    else r)
            (inventory d) (inventory d''))) /\
  (~ storable isnan p quantity ->
   d' = d /\
   exists e, pos_system.update_item isnan item_id name p quantity d =
             (d, pos_system.Raised e)).
Proof.
  intros Hrow d' d''. split.
  - intros Hst. split.
    + subst d'. rewrite (update_item_db_stored _ _ _ _ _ _ Hst). repeat split.
      * rewrite select_item_update by reflexivity. now rewrite Hrow.
      * exact (update_where_Forall2 Inventory.id _ item_id (inventory d)).
    + subst d''. unfold pos_system.update_item.
      rewrite Hrow, (storable_update_item_raises item_id p quantity d Hst).
      cbn [fst]. repeat split.
      * rewrite select_item_update by reflexivity. rewrite Hrow.
        destruct row as [i' n' pr' q' im' fv'].
        destruct (pos_system.name_given name), p, quantity; reflexivity.
      * cbn [inventory update_inventory].
        induction (inventory d) as [|r l IH]; simpl; constructor; [|exact IH].
        destruct (Inventory.id r =? item_id); [|reflexivity].
        destruct r as [i n pr q im fv], row as [i' n' pr' q' im' fv'].
        destruct (pos_system.name_given name), p, quantity; reflexivity.
  - intros Hst.
    destruct (update_item_raises isnan item_id p quantity d) as [e|] eqn:E.
    + split; [exact (update_item_db_raised _ _ _ _ _ _ _ E)|].
      exists e. unfold pos_system.update_item. now rewrite Hrow, E.
    + exfalso. apply Hst. unfold update_item_raises in E. rewrite Hrow in E.
      split.
      * destruct quantity as [v|]; [|exact I]. now destruct (binds v).
      * destruct p as [v|]; [|exact I].
        destruct quantity as [w|]; [destruct (binds w); [|discriminate]|];
          cbn in E; now destruct (isnan v).
Qed.

(** *** [strip] is idempotent *)

Lemma rstrip_cons (c : ascii) (s : string) :
  rstrip (String c s) =
  if is_space (String c (rstrip s)) then EmptyString else String c (rstrip s).
Proof. reflexivity. Qed.

Lemma rstrip_idempotent (s : string) : rstrip (rstrip s) = rstrip s.
Proof.
  induction s as [|c s IH]; [reflexivity|].
  rewrite rstrip_cons.
  destruct (is_space (String c (rstrip s))) eqn:E; [reflexivity|].
  now rewrite rstrip_cons, IH, E.
Qed.

Lemma lstrip_fixed (s : string) : space_start s = false -> lstrip s = s.
Proof.
  destruct s as [|c1 s1]; [reflexivity|]. cbn [space_start lstrip].
  destruct (isspace c1); [discriminate|]. cbn [orb].
  destruct s1 as [|c2 s2]; [reflexivity|].
  destruct (isspace2 c1 c2); [discriminate|]. cbn [orb].
  destruct s2 as [|c3 s3]; [reflexivity|].
  now destruct (isspace3 c1 c2 c3).
Qed.

Lemma lstrip_clean_upto (n : nat) : forall s,
  (String.length s <= n)%nat -> space_start (lstrip s) = false.
Proof.
  induction n as [|n IH]; intros s Hn.
  - destruct s; [reflexivity | cbn in Hn; lia].
  - destruct s as [|c1 s1]; [reflexivity|]. cbn [lstrip].
    destruct (isspace c1) eqn:E1; [apply IH; cbn in Hn; lia|].
    destruct s1 as [|c2 s2]; [cbn [space_start]; now rewrite E1|].
    destruct (isspace2 c1 c2) eqn:E2; [apply IH; cbn in Hn; lia|].
    destruct s2 as [|c3 s3]; [cbn [space_start]; now rewrite E1, E2|].
    destruct (isspace3 c1 c2 c3) eqn:E3; [apply IH; cbn in Hn; lia|].
    cbn [space_start]. now rewrite E1, E2, E3.
Qed.

Lemma lstrip_clean (s : string) : space_start (lstrip s) = false.
Proof. exact (lstrip_clean_upto (String.length s) s (le_n _)). Qed.

Lemma rstrip_prefix (s : string) : exists u, s = rstrip s ++ u.
Proof.
  induction s as [|c s [u IH]]; [now exists ""|].
  rewrite rstrip_cons.
  destruct (is_space (String c (rstrip s))).
  - now exists (String c s).
  - exists u. cbn. now rewrite <- IH.
Qed.

Lemma space_start_app (s u : string) :
  space_start s = true -> space_start (s ++ u) = true.
Proof.
  destruct s as [|c1 s1]; [discriminate|]. cbn [space_start append].
  destruct (isspace c1); [reflexivity|]. cbn [orb].
  destruct s1 as [|c2 s2]; [discriminate|]. cbn [append].
  destruct (isspace2 c1 c2); [reflexivity|]. cbn [orb].
  destruct s2 as [|c3 s3]; [discriminate|]. cbn [append]. auto.
Qed.

Lemma rstrip_clean (s : string) :
  space_start s = false -> space_start (rstrip s) = false.
Proof.
  intros H. destruct (rstrip_prefix s) as [u E].
  destruct (space_start (rstrip s)) eqn:E'; [|reflexivity].
  apply (space_start_app _ u) in E'. rewrite <- E in E'. congruence.
Qed.

Lemma strip_idempotent (s : string) : strip (strip s) = strip s.
Proof.
  unfold strip.
  rewrite (lstrip_fixed (rstrip (lstrip s)))
    by (apply rstrip_clean, lstrip_clean).
  apply rstrip_idempotent.
Qed.

(** C7.  The add-item handler inserts nothing, and flashes an error, when
    the name is empty once stripped, when [float] rejects the price text,
    when [int] rejects the quantity text, or when the uploaded file has an
    extension that is not allowed.  In every other case, when the quantity
    fits an [INTEGER] and the price is a number, whatever their sign, it
    appends one row with a new id, the stripped name, the two parsed
    values, the stored image path and the favourite flag down, and leaves
    the other rows and the sales alone; on any other quantity or price the
    insertion raises and the database is left as it was. *)
Theorem add_item_validates (form : add_item_form) (uuid_hex : string) d :
  let name := strip (form_name form) in
  let result := add_item py_float py_int isnan POST form uuid_hex d in
  (name = "" \/
   py_float (strip (form_price form)) = None \/
   py_int (strip (form_quantity form)) = None \/
   image_rejected (form_image form) = true ->
   fst result = d /\
   (snd result = Item_name_cannot_be_empty \/
    snd result = Enter_valid_numeric_values \/
    snd result = Unsupported_image_type)) /\
  (forall p quantity,
     name <> "" ->
     py_float (strip (form_price form)) = Some p ->
     py_int (strip (form_quantity form)) = Some quantity ->
     image_rejected (form_image form) = false ->
     (binds quantity = true -> isnan p = false ->
      snd result = Item_added_successfully name /\
      sales (fst result) = sales d /\
      exists new_id,
        ~ In new_id (map Inventory.id (inventory d)) /\
        inventory (fst result) =
          (inventory d ++
           [Inventory.Row new_id name p quantity
              (stored_image_path uuid_hex (form_image form)) 0])%list) /\
     (forall e, insert_item_raises isnan p quantity = Some e ->
                result = (d, Add_item_raised e))).
Proof.
  intros name result. subst result. unfold add_item. fold name.
  destruct (String.eqb_spec name "") as [Hn|Hn].
  { split; [intros _; cbn [fst snd]; auto | intros p q Hn'; contradiction]. }
  destruct (py_float (strip (form_price form))) as [p|].
  2:{ split; [intros _; cbn [fst snd]; auto | intros p q _ Hp; discriminate]. }
  destruct (py_int (strip (form_quantity form))) as [q|].
  2:{ split; [intros _; cbn [fst snd]; auto | intros p' q _ _ Hq; discriminate]. }
  cbv zeta.
  assert (Hadd : forall image_path,
            (binds q = true -> isnan p = false ->
             snd match insert_item_raises isnan p q with
                 | Some e => (d, Add_item_raised e)
                 | None => (add_item_with_image isnan name p q image_path d,
                            Item_added_successfully name)
                 end = Item_added_successfully name /\
             sales (fst match insert_item_raises isnan p q with
                        | Some e => (d, Add_item_raised e)
                        | None => (add_item_with_image isnan name p q image_path d,
                                   Item_added_successfully name)
                        end) = sales d /\
             exists new_id,
               ~ In new_id (map Inventory.id (inventory d)) /\
               inventory (fst match insert_item_raises isnan p q with
                              | Some e => (d, Add_item_raised e)
                              | None =>
                                  (add_item_with_image isnan name p q image_path d,
                                   Item_added_successfully name)
                              end) =
                 (inventory d ++ [Inventory.Row new_id name p q image_path 0])%list) /\
            (forall e, insert_item_raises isnan p q = Some e ->
                       match insert_item_raises isnan p q with
                       | Some e => (d, Add_item_raised e)
                       | None => (add_item_with_image isnan name p q image_path d,
                                  Item_added_successfully name)
                       end = (d, Add_item_raised e))).
  { intros image_path. split.
    - intros Hq Hp. unfold add_item_with_image.
      rewrite (storable_insert_item_raises p q Hq Hp). cbn [fst snd].
      repeat split.
      exists (next_id (inventory_seq d) (map Inventory.id (inventory d))).
      split; [apply next_id_fresh|].
      unfold insert_item. cbn [inventory].
      subst name. rewrite strip_idempotent. reflexivity.
    - intros e He. now rewrite He. }
  unfold image_rejected, stored_image_path, uploaded, extension.
  destruct (form_image form) as [[|c f]|].
  - split; [intros [?|[?|[?|?]]]; try contradiction; discriminate|].
    intros p' q' _ Hp Hq _. injection Hp as <-. injection Hq as <-.
    apply Hadd.
  - destruct (allowed_extension (lower (rsplit_dot_last (String c f)))).
    + cbn [negb]. split;
        [intros [?|[?|[?|?]]]; try contradiction; discriminate|].
      intros p' q' _ Hp Hq _. injection Hp as <-. injection Hq as <-.
      apply Hadd.
    + cbn [negb]. split; [intros _; cbn [fst snd]; auto|].
      intros p' q' _ _ _ H. discriminate.
  - split; [intros [?|[?|[?|?]]]; try contradiction; discriminate|].
    intros p' q' _ Hp Hq _. injection Hp as <-. injection Hq as <-.
    apply Hadd.
Qed.

End Catalogue.

(** ** Checkout *)

Section Checkout.

Context {price : Type}.
Variable price_mul : price -> Z -> price.
Variable py_int : string -> option Z.
Variable clock : nat -> string.

Implicit Types (d : db price) (lines : list (Z * Z)).

Lemma record_sale_db_refused item_id q now d :
  is_sold (snd (record_sale_db price_mul item_id q now d)) = false ->
  fst (record_sale_db price_mul item_id q now d) = d.
Proof.
  unfold record_sale_db.
  destruct (select_item item_id d); [|reflexivity].
  destruct (q <=? 0); [reflexivity|].
  destruct (Inventory.quantity r <? q); [reflexivity | discriminate].
Qed.

Lemma sell_each_length lines : forall k d,
  List.length (snd (sell_each price_mul clock k lines d)) = List.length lines.
Proof.
  induction lines as [|[i q] lines IH]; intros k d; simpl; [reflexivity|].
  destruct (record_sale_db price_mul i q (clock k) d) as [d1 msg].
  specialize (IH (S k) d1).
  destruct (sell_each price_mul clock (S k) lines d1) as [d2 msgs].
  simpl in *. now rewrite IH.
Qed.

Lemma sell_each_app before after : forall k d,
  sell_each price_mul clock k (before ++ after) d =
  let (d1, msgs1) := sell_each price_mul clock k before d in
  let (d2, msgs2) := sell_each price_mul clock (List.length before + k) after d1 in
  (d2, (msgs1 ++ msgs2)%list).
Proof.
  induction before as [|[i q] before IH]; intros k d; simpl.
  - now destruct (sell_each price_mul clock k after d).
  - destruct (record_sale_db price_mul i q (clock k) d) as [d1 msg].
    rewrite IH.
    destruct (sell_each price_mul clock (S k) before d1) as [d2 msgs].
    replace (List.length before + S k)%nat with (S (List.length before + k)) by lia.
    now destruct (sell_each price_mul clock (S (List.length before + k)) after d2).
Qed.

(** The loop of the handler, on a cart whose keys are all read by [int],
    sells the lines one after the other. *)
Lemma checkout_loop_sell_each (c : cart) : forall ids k messages d,
  map (fun line => py_int (fst line)) c = map Some ids ->
  checkout_loop price_mul py_int clock k c messages d =
  (fst (sell_each price_mul clock k (combine ids (map snd c)) d),
   Some (messages ++ snd (sell_each price_mul clock k (combine ids (map snd c)) d))%list).
Proof.
  induction c as [|[key qty] c IH]; intros ids k messages d Hids.
  - destruct ids; [|discriminate]. simpl. now rewrite app_nil_r.
  - destruct ids as [|i ids]; [discriminate|]. simpl in Hids.
    injection Hids as Hkey Hids. simpl. rewrite Hkey.
    destruct (record_sale_db price_mul i qty (clock k) d) as [d1 msg].
    rewrite (IH ids (S k) (messages ++ [msg])%list d1 Hids).
    destruct (sell_each price_mul clock (S k) (combine ids (map snd c)) d1)
      as [d2 msgs].
    simpl. now rewrite <- app_assoc.
Qed.

(** C8.  On a cart that is not empty and whose keys [int] reads, checkout
    sells every line once, in the order of the cart, each on the database
    that the lines before it left; it empties the cart and reports one
    message for each line.  It has no transaction around the lines: when
    the sale of a line is refused, what the lines before it sold stays,
    and the lines after it are sold all the same, from that database. *)
Theorem checkout_sells_every_line (c : cart) (ids : list Z) d :
  c <> [] ->
  map (fun line => py_int (fst line)) c = map Some ids ->
  let lines := combine ids (map snd c) in
  let sold := sell_each price_mul clock 0 lines d in
  checkout price_mul py_int clock c d =
    (fst sold, [], Checkout_complete (snd sold)) /\
  List.length (snd sold) = List.length c /\
  (forall before item_id qty after,
     lines = (before ++ (item_id, qty) :: after)%list ->
     let d1 := fst (sell_each price_mul clock 0 before d) in
     let k := List.length before in
     is_sold (snd (record_sale_db price_mul item_id qty (clock k) d1)) = false ->
     fst sold = fst (sell_each price_mul clock (S k) after d1)).
Proof.
  intros Hc Hids lines sold. split; [|split].
  - unfold checkout. destruct c as [|line c']; [contradiction|].
    rewrite (checkout_loop_sell_each _ ids 0%nat [] d Hids). reflexivity.
  - subst sold. rewrite sell_each_length. subst lines.
    rewrite length_combine, length_map.
    apply (f_equal (@List.length _)) in Hids. rewrite !length_map in Hids.
    rewrite <- Hids. apply Nat.min_id.
  - intros before item_id qty after Hsplit d1 k Hrefused.
    subst sold. rewrite Hsplit, sell_each_app. subst d1.
    destruct (sell_each price_mul clock 0 before d) as [d1 msgs1].
    cbn [fst] in *. cbn [sell_each].
    rewrite Nat.add_0_r. fold k.
    pose proof (record_sale_db_refused item_id qty (clock k) d1 Hrefused) as Hsame.
    destruct (record_sale_db price_mul item_id qty (clock k) d1) as [d2 msg].
    cbn [fst] in Hsame. subst d2.
    now destruct (sell_each price_mul clock (S k) after d1).
Qed.

(** A key that [int] does not read ends the loop: what the lines before it
    sold stays, the lines after it are not sold, and the cart is kept. *)
Lemma checkout_stops_on_ValueError (before after : cart) (ids : list Z)
    (key : string) (qty : Z) d :
  map (fun line => py_int (fst line)) before = map Some ids ->
  py_int key = None ->
  let c := (before ++ (key, qty) :: after)%list in
  checkout price_mul py_int clock c d =
    (fst (sell_each price_mul clock 0 (combine ids (map snd before)) d),
     c, ValueError).
Proof.
  intros Hids Hkey c.
  assert (Hloop : forall k messages d0 ids0 (l : cart),
            map (fun line => py_int (fst line)) l = map Some ids0 ->
            checkout_loop price_mul py_int clock k
              (l ++ (key, qty) :: after)%list messages d0 =
            (fst (sell_each price_mul clock k (combine ids0 (map snd l)) d0),
             None)).
  { intros k messages d0 ids0 l. revert k messages d0 ids0.
    induction l as [|[key' qty'] l IH]; intros k messages d0 ids0 H.
    - destruct ids0; [|discriminate]. simpl. now rewrite Hkey.
    - destruct ids0 as [|i ids0]; [discriminate|]. simpl in H.
      injection H as Hk H. simpl. rewrite Hk.
      destruct (record_sale_db price_mul i qty' (clock k) d0) as [d1 msg].
      rewrite (IH (S k) _ d1 ids0 H).
      now destruct (sell_each price_mul clock (S k) (combine ids0 (map snd l)) d1). }
  subst c. unfold checkout.
  destruct (before ++ (key, qty) :: after)%list as [|line c'] eqn:E.
  - now destruct before.
  - rewrite <- E, (Hloop 0%nat [] d ids before Hids). reflexivity.
Qed.

End Checkout.

(** ** The sales listing *)

Section Listing.

Context {price : Type}.

Abbreviation listing := (listing (price := price)).

(** The order of text is transitive. *)
Lemma string_leb_trans (a : string) : forall b c,
  (a <=? b)%string = true -> (b <=? c)%string = true -> (a <=? c)%string = true.
Proof.
  unfold String.leb.
  induction a as [|x a IH]; intros [|y b] [|z c]; simpl; try easy.
  destruct (Ascii.compare x y) eqn:Exy; destruct (Ascii.compare y z) eqn:Eyz;
    try easy.
  - apply Ascii.compare_eq_iff in Exy. subst y. rewrite Eyz. apply IH.
  - apply Ascii.compare_eq_iff in Exy. subst y. now rewrite Eyz.
  - apply Ascii.compare_eq_iff in Eyz. subst z. now rewrite Exy.
  - unfold Ascii.compare in *. rewrite N.compare_lt_iff in Exy, Eyz.
    assert (N_of_ascii x < N_of_ascii z)%N as H by lia.
    apply N.compare_lt_iff in H. now rewrite H.
Qed.

Lemma not_older_trans (a b c : listing) :
  not_older a b -> not_older b c -> not_older a c.
Proof.
  unfold not_older. intros Hab Hbc. exact (string_leb_trans _ _ _ Hbc Hab).
Qed.

Lemma insert_desc_Permutation (x : listing) (l : list listing) :
  Permutation (insert_desc x l) (x :: l).
Proof.
  induction l as [|y l IH]; simpl; [reflexivity|].
  destruct (listing_timestamp y <=? listing_timestamp x)%string; [reflexivity|].
  rewrite IH. apply perm_swap.
Qed.

Lemma order_by_timestamp_desc_Permutation (l : list listing) :
  Permutation (order_by_timestamp_desc l) l.
Proof.
  induction l as [|x l IH]; simpl; [reflexivity|].
  rewrite insert_desc_Permutation. now constructor.
Qed.

Lemma insert_desc_HdRel (x y : listing) (l : list listing) :
  not_older y x -> HdRel not_older y l -> HdRel not_older y (insert_desc x l).
Proof.
  intros Hyx Hl. destruct l as [|z l]; simpl; [now constructor|].
  destruct (listing_timestamp z <=? listing_timestamp x)%string.
  - now constructor.
  - inversion Hl. now constructor.
Qed.

Lemma insert_desc_Sorted (x : listing) (l : list listing) :
  Sorted not_older l -> Sorted not_older (insert_desc x l).
Proof.
  induction l as [|y l IH]; simpl; intros Hs.
  - repeat constructor.
  - destruct (listing_timestamp y <=? listing_timestamp x)%string eqn:E.
    + constructor; [exact Hs | constructor; exact E].
    + inversion Hs as [|? ? Hl Hy]. subst.
      constructor; [now apply IH|].
      apply insert_desc_HdRel; [|exact Hy].
      unfold not_older.
      destruct (String.leb_total (listing_timestamp y) (listing_timestamp x))
        as [H|H]; [congruence | exact H].
Qed.

Lemma order_by_timestamp_desc_Sorted (l : list listing) :
  StronglySorted not_older (order_by_timestamp_desc l).
Proof.
  apply Sorted_StronglySorted; [exact not_older_trans|].
  induction l as [|x l IH]; simpl; [constructor | now apply insert_desc_Sorted].
Qed.

(** Under the primary key of the inventory a sale joins with the row that
    its item id selects, and with no other. *)
Lemma join_rows_select (k : Z) (l : list (Inventory.row price)) :
  NoDup (map Inventory.id l) ->
  filter (fun r => k =? Inventory.id r) l =
  match select_where Inventory.id k l with
  | Some r => [r]
  | None => []
  end.
Proof.
  unfold select_where. induction l as [|r l IH]; simpl; [reflexivity|].
  intros Hnd. apply NoDup_cons_iff in Hnd. destruct Hnd as [Hr Hnd].
  rewrite (Z.eqb_sym k). destruct (Z.eqb_spec (Inventory.id r) k) as [E|E].
  - f_equal. rewrite (IH Hnd).
    assert (Hn : select_where Inventory.id k l = None).
    { apply select_where_None. now rewrite <- E. }
    unfold select_where in Hn. now rewrite Hn.
  - now apply IH.
Qed.

Lemma join_sales_inventory_listed (d : db price) :
  NoDup (map Inventory.id (inventory d)) -> join_sales_inventory d = listed d.
Proof.
  intros Hnd. unfold join_sales_inventory, listed.
  apply flat_map_ext. intros s.
  rewrite (join_rows_select _ _ Hnd). rewrite select_item_eq.
  now destruct (select_where Inventory.id (Sales.item_id s) (inventory d)).
Qed.

(** C4.  Under the primary key of the inventory, the listing holds, for each
    sale whose item is in the inventory, cancelled or not, one row that
    carries the columns of the sale and the name the item has now, and
    nothing else; every row of the listing has a timestamp that is, as
    text, at least that of every row after it. *)
Theorem list_sales_newest_first (d : db price) :
  NoDup (map Inventory.id (inventory d)) ->
  Permutation (list_sales d) (listed d) /\
  StronglySorted not_older (list_sales d) /\
  (forall s r, In s (sales d) ->
               select_item (Sales.item_id s) d = Some r ->
               In (listing_of s r) (list_sales d)).
Proof.
  intros Hnd.
  assert (Hperm : Permutation (list_sales d) (listed d)).
  { unfold list_sales. rewrite order_by_timestamp_desc_Permutation.
    now rewrite join_sales_inventory_listed. }
  split; [exact Hperm|]. split.
  - apply order_by_timestamp_desc_Sorted.
  - intros s r Hs Hr. apply (Permutation_in _ (Permutation_sym Hperm)).
    unfold listed. apply in_flat_map. exists s. split; [exact Hs|].
    rewrite Hr. now left.
Qed.

End Listing.

(** * The properties on the shop of [Decimal] *)

Import Decimal.

Lemma NoDup_shop_ids :
  NoDup (map Inventory.id (inventory (run price_mul day shop))).
Proof.
  vm_compute. constructor; [|constructor; [|constructor]]; simpl; intuition lia.
Qed.

(** The day of [day] leaves seven units of tea of ten with three held by
    sale 1, and three mugs of five with two held by sale 3. *)
Lemma ledger_reconciles_shop :
  sales shop = [] /\
  Forall2 (fun r0 r =>
             Inventory.quantity r0 =
               Inventory.quantity r +
               active_quantity (Inventory.id r) (sales (run price_mul day shop)) /\
             Inventory.set_quantity (Inventory.quantity r0) r = r0)
          (inventory shop) (inventory (run price_mul day shop)).
Proof.
  split; [reflexivity|].
  exact (ledger_reconciles price_mul shop day eq_refl).
Defined.

(** [sell(Tea, 3)] at ten units and two a unit: seven units left, total 6. *)
Lemma record_sale_db_sells_shop :
  select_item 1 shop = Some (Inventory.Row 1 "Tea" (2 # 1)%Q 10 None 0) /\
  0 < 3 /\ 3 <= 10 /\
  snd (record_sale_db price_mul 1 3 t1 shop) = Sold 3 "Tea" (6 # 1)%Q t1 /\
  select_item 1 (fst (record_sale_db price_mul 1 3 t1 shop)) =
    Some (Inventory.Row 1 "Tea" (2 # 1)%Q 7 None 0).
Proof.
  split; [reflexivity|]. split; [lia|]. split; [lia|].
  pose proof (record_sale_db_sells price_mul 1 3 t1 shop
                (Inventory.Row 1 "Tea" (2 # 1)%Q 10 None 0)
                eq_refl ltac:(lia) ltac:(simpl; lia))
    as H.
  split; [exact (proj1 H) | exact (proj1 (proj2 H))].
Defined.

(** [sell(Tea, 20)] at ten units is refused with the ten units available,
    and the database stays as it was. *)
Lemma record_sale_db_refuses_shop :
  record_sale_db price_mul 1 20 t1 shop = (shop, Insufficient_stock 10) /\
  record_sale_db price_mul 1 0 t1 shop = (shop, Quantity_must_be_positive) /\
  record_sale_db price_mul 9 1 t1 shop = (shop, Item_does_not_exist 9).
Proof.
  split; [|split].
  - apply (proj2 (record_sale_db_refuses price_mul 1 20 t1 shop)); simpl; lia.
  - apply (proj1 (record_sale_db_refuses price_mul 1 0 t1 shop)); lia.
  - exact (record_sale_db_refuses price_mul 9 1 t1 shop).
Defined.



(** The sale of the tea that is gone can be cancelled and deleted, and the
    inventory, which holds the mugs only, does not move. *)
Lemma dangling_sale_cancel_delete_shop :
  select_sale 1 orphaned = Some (Sales.Row 1 1 3 t1 (6 # 1)%Q 0) /\
  select_item 1 orphaned = None /\
  snd (cancel_sale_db 1 orphaned) = Sale_cancelled_and_inventory_restored /\
  inventory (fst (cancel_sale_db 1 orphaned)) = inventory orphaned /\
  select_sale 1 (fst (delete_sale_db 1 orphaned)) = None /\
  inventory (fst (delete_sale_db 1 orphaned)) = inventory orphaned.
Proof.
  split; [reflexivity|]. split; [reflexivity|].
  pose proof (dangling_sale_cancel_delete 1 orphaned
                (Sales.Row 1 1 3 t1 (6 # 1)%Q 0) eq_refl eq_refl) as [Hc Hd].
  specialize (Hc eq_refl).
  split; [exact (proj1 Hc)|]. split; [exact (proj2 (proj2 Hc))|].
  split; [exact (proj1 (proj2 (proj2 Hd))) | exact (proj2 (proj2 (proj2 Hd)))].
Defined.

(** An edit of the price of the tea alone; and an edit of its quantity to
    one more than an [INTEGER] holds, which changes nothing. *)
Lemma update_item_db_frame_shop :
  select_item 1 shop = Some (Inventory.Row 1 "Tea" (2 # 1)%Q 10 None 0) /\
  storable isnan (Some (5 # 2)%Q) None /\
  select_item 1 (update_item_db isnan 1 None (Some (5 # 2)%Q) None None shop) =
    Some (Inventory.Row 1 "Tea" (5 # 2)%Q 10 None 0) /\
  sales (update_item_db isnan 1 None (Some (5 # 2)%Q) None None shop) = sales shop /\
  ~ storable isnan None (Some (2 ^ 63)) /\
  update_item_db isnan 1 None None (Some (2 ^ 63)) None shop = shop.
Proof.
  split; [reflexivity|]. split; [split; [exact I | reflexivity]|].
  pose proof (update_item_db_frame isnan 1 None (Some (5 # 2)%Q) None None shop
                (Inventory.Row 1 "Tea" (2 # 1)%Q 10 None 0) eq_refl) as [H _].
  specialize (H (conj I eq_refl)). destruct H as [H _].
  split; [exact (proj1 (proj2 (proj2 (proj2 H))))|]. split; [exact (proj1 H)|].
  assert (Hno : ~ storable isnan None (Some (2 ^ 63))).
  { intros [Hq _]. discriminate Hq. }
  split; [exact Hno|].
  exact (proj1 (proj2 (update_item_db_frame isnan 1 None None (Some (2 ^ 63)) None
                         shop (Inventory.Row 1 "Tea" (2 # 1)%Q 10 None 0) eq_refl)
                  Hno)).
Defined.

(** C10, as stated, fails on a name with surrounding white space: the name
    stored is not the name supplied. *)
Lemma update_item_db_strips_name :
  option_map Inventory.name
    (select_item 1 (update_item_db isnan 1 (Some "  Green tea ") None None None shop)) =
    Some "Green tea" /\
  "Green tea" <> "  Green tea ".
Proof. split; [reflexivity | discriminate]. Qed.

(** The add-item form with a price that [float] rejects inserts nothing; with
    a price and a quantity that parse it appends the item; with a quantity
    of one more than an [INTEGER] holds the insertion raises. *)
Lemma add_item_validates_shop :
  fst (add_item py_float py_int isnan POST (Add_item_form "Jam" "two" "4" None) "0f" shop)
    = shop /\
  snd (add_item py_float py_int isnan POST (Add_item_form " Jam " "2.50" "4" None) "0f" shop)
    = Item_added_successfully "Jam" /\
  add_item py_float py_int isnan POST
    (Add_item_form "Jam" "2.50" "9223372036854775808" None) "0f" shop
    = (shop, Add_item_raised OverflowError).
Proof.
  split; [|split].
  - apply (proj1 (add_item_validates py_float py_int isnan
                    (Add_item_form "Jam" "two" "4" None) "0f" shop)).
    right. left. reflexivity.
  - apply (proj1 (proj2 (add_item_validates py_float py_int isnan
                           (Add_item_form " Jam " "2.50" "4" None) "0f" shop)
                    (5 # 2)%Q 4 ltac:(discriminate) eq_refl eq_refl eq_refl));
      reflexivity.
  - apply (proj2 (proj2 (add_item_validates py_float py_int isnan
                           (Add_item_form "Jam" "2.50" "9223372036854775808" None)
                           "0f" shop)
                    (5 # 2)%Q (2 ^ 63) ltac:(discriminate) eq_refl eq_refl eq_refl)).
    reflexivity.
Defined.

(** C7, as stated, fails on a negative quantity: the form is accepted and a
    row with three units below zero is appended. *)
Lemma add_item_accepts_negative_quantity :
  py_int "-3" = Some (-3) /\
  add_item py_float py_int isnan POST (Add_item_form "Tea bags" "1.50" "-3" None) "0f" shop =
  (Db (inventory shop ++ [Inventory.Row 3 "Tea bags" (3 # 2)%Q (-3) None 0])
      (sales shop) 3 (sales_seq shop),
   Item_added_successfully "Tea bags").
Proof. split; reflexivity. Qed.

(** A cart of two lines whose first is refused. *)
Lemma checkout_sells_every_line_shop :
  [("1", 20); ("2", 1)] <> [] /\
  map (fun line : string * Z => py_int (fst line)) [("1", 20); ("2", 1)] =
    map Some [1; 2] /\
  checkout price_mul py_int clock [("1", 20); ("2", 1)] shop =
    (fst (sell_each price_mul clock 0 [(1, 20); (2, 1)] shop), [],
     Checkout_complete (snd (sell_each price_mul clock 0 [(1, 20); (2, 1)] shop))).
Proof.
  split; [discriminate|]. split; [reflexivity|].
  apply (proj1 (checkout_sells_every_line price_mul py_int clock
                  [("1", 20); ("2", 1)] [1; 2] shop
                  ltac:(discriminate) eq_refl)).
Defined.

(** C8, as stated, fails on that cart: the sale of the first line is refused
    for want of stock, and the second line is sold all the same. *)
Lemma checkout_continues_after_refusal :
  snd (checkout price_mul py_int clock [("1", 20); ("2", 1)] shop) =
    Checkout_complete [Insufficient_stock 10; Sold 1 "Mug" (7 # 2)%Q t2] /\
  sales (fst (fst (checkout price_mul py_int clock [("1", 20); ("2", 1)] shop))) =
    [Sales.Row 1 2 1 t2 (7 # 2)%Q 0] /\
  option_map Inventory.quantity
    (select_item 2 (fst (fst (checkout price_mul py_int clock
                                [("1", 20); ("2", 1)] shop)))) = Some 4.
Proof. repeat split. Qed.

(** The listing of the shop at the end of the day. *)
Lemma list_sales_newest_first_shop :
  NoDup (map Inventory.id (inventory (run price_mul day shop))) /\
  list_sales (run price_mul day shop) =
    [Listing 3 "Mug" 2 (7 # 1)%Q t3 0; Listing 1 "Tea" 3 (6 # 1)%Q t1 0] /\
  Permutation (list_sales (run price_mul day shop)) (listed (run price_mul day shop)) /\
  StronglySorted not_older (list_sales (run price_mul day shop)).
Proof.
  split; [exact NoDup_shop_ids|]. split; [reflexivity|].
  pose proof (list_sales_newest_first (run price_mul day shop) NoDup_shop_ids) as H.
  split; [exact (proj1 H) | exact (proj1 (proj2 H))].
Defined.

(** C4, as stated, fails on the ledger whose item is gone: the sales table
    holds a sale, and the listing is empty. *)
Lemma list_sales_omits_orphaned_sale :
  sales orphaned = [Sales.Row 1 1 3 t1 (6 # 1)%Q 0] /\
  select_item 1 orphaned = None /\
  list_sales orphaned = [].
Proof. repeat split. Qed.

(** * Further properties of the two files *)

(** ** Sorting and look-up, once more *)

Section OrderByFacts.

Context {A : Type}.
Variable leb : A -> A -> bool.

Lemma insert_by_Permutation (x : A) (l : list A) :
  Permutation (insert_by leb x l) (x :: l).
Proof.
  induction l as [|y l IH]; simpl; [reflexivity|].
  destruct (leb x y); [reflexivity|].
  rewrite IH. apply perm_swap.
Qed.

Lemma order_by_Permutation (l : list A) : Permutation (order_by leb l) l.
Proof.
  induction l as [|x l IH]; simpl; [reflexivity|].
  rewrite insert_by_Permutation. now constructor.
Qed.

Hypothesis leb_total : forall a b, leb a b = true \/ leb b a = true.

Lemma insert_by_Sorted (x : A) (l : list A) :
  Sorted (fun a b => leb a b = true) l ->
  Sorted (fun a b => leb a b = true) (insert_by leb x l).
Proof.
  induction l as [|y l IH]; simpl; intros Hs.
  - repeat constructor.
  - destruct (leb x y) eqn:E.
    + constructor; [exact Hs | constructor; exact E].
    + inversion Hs as [|? ? Hl Hy]. subst.
      constructor; [now apply IH|].
      assert (Hyx : leb y x = true).
      { destruct (leb_total x y) as [H|H]; [congruence | exact H]. }
      destruct l as [|z l]; simpl; [now constructor|].
      destruct (leb x z); constructor; [exact Hyx|].
      now inversion Hy.
Qed.

Hypothesis leb_trans : forall a b c,
  leb a b = true -> leb b c = true -> leb a c = true.

Lemma order_by_StronglySorted (l : list A) :
  StronglySorted (fun a b => leb a b = true) (order_by leb l).
Proof.
  apply Sorted_StronglySorted; [intros a b c; apply leb_trans|].
  induction l as [|x l IH]; simpl; [constructor | now apply insert_by_Sorted].
Qed.

End OrderByFacts.

Section MoreTables.

Context {A : Type}.
Variable key : A -> Z.

Lemma select_where_app_new (k : Z) (l : list A) (x : A) :
  key x <> k ->
  select_where key k (l ++ [x]) = select_where key k l.
Proof.
  intros Hx. unfold select_where. induction l as [|y l IH]; simpl.
  - now apply Z.eqb_neq in Hx as ->.
  - destruct (key y =? k); [reflexivity | exact IH].
Qed.

Lemma select_where_app_last (l : list A) (x : A) :
  ~ In (key x) (map key l) ->
  select_where key (key x) (l ++ [x]) = Some x.
Proof.
  intros Hx. unfold select_where. induction l as [|y l IH]; simpl.
  - now rewrite Z.eqb_refl.
  - destruct (Z.eqb_spec (key y) (key x)) as [E|E].
    + exfalso. apply Hx. left. exact E.
    + apply IH. intros H. apply Hx. now right.
Qed.

Lemma select_where_app_old (k : Z) (l : list A) (x y : A) :
  select_where key k l = Some y ->
  select_where key k (l ++ [x]) = Some y.
Proof.
  unfold select_where. induction l as [|z l IH]; simpl; [discriminate|].
  destruct (key z =? k); [auto | exact IH].
Qed.

Lemma Forall_update_where (P : A -> Prop) (f : A -> A) (k : Z) (l : list A) :
  (forall x, In x l -> key x = k -> P x -> P (f x)) ->
  Forall P l -> Forall P (update_where key f k l).
Proof.
  intros Hf Hl. unfold update_where. apply Forall_forall.
  intros y Hy. apply in_map_iff in Hy. destruct Hy as [x [<- Hx]].
  rewrite Forall_forall in Hl.
  destruct (Z.eqb_spec (key x) k); auto.
Qed.

Lemma Forall_delete_where (P : A -> Prop) (k : Z) (l : list A) :
  Forall P l -> Forall P (delete_where key k l).
Proof.
  intros Hl. unfold delete_where. apply Forall_forall. intros x Hx.
  apply filter_In in Hx. rewrite Forall_forall in Hl. now apply Hl.
Qed.

End MoreTables.

(** ** Every function writes through the same few statements *)

Section Statements.

Context {price : Type}.
Variable price_mul : price -> Z -> price.
Variable py_float : string -> option price.
Variable py_int : string -> option Z.
Variable isnan : price -> bool.

Implicit Types (d : db price).

Lemma statements_one d d' : statement d d' -> statements d d'.
Proof. intros H. eapply Then_statement; [apply No_statement | exact H]. Qed.

Lemma statements_trans d1 d2 d3 :
  statements d1 d2 -> statements d2 d3 -> statements d1 d3.
Proof.
  intros H12 H23. induction H23 as [|d2 d3 d4 _ IH Hs]; [exact H12|].
  eapply Then_statement; [apply IH; exact H12 | exact Hs].
Qed.

Lemma statements_two d d1 d2 :
  statement d d1 -> statement d1 d2 -> statements d d2.
Proof.
  intros H1 H2. eapply Then_statement; [apply statements_one; exact H1 | exact H2].
Qed.

Ltac case_match :=
  match goal with
  | |- context [match ?x with _ => _ end] => destruct x eqn:?
  end.

Ltac by_statements :=
  repeat case_match; cbn [fst snd];
  first
    [ apply No_statement
    | apply statements_one; constructor; reflexivity
    | eapply statements_two; constructor; reflexivity ].

Lemma record_sale_db_statements item_id q now d :
  statements d (fst (record_sale_db price_mul item_id q now d)).
Proof. unfold record_sale_db. by_statements. Qed.

Lemma cancel_sale_db_statements sale_id d :
  statements d (fst (cancel_sale_db sale_id d)).
Proof. unfold cancel_sale_db. by_statements. Qed.

Lemma uncancel_sale_db_statements sale_id d :
  statements d (fst (uncancel_sale_db sale_id d)).
Proof. unfold uncancel_sale_db. by_statements. Qed.

Lemma delete_sale_db_statements sale_id d :
  statements d (fst (delete_sale_db sale_id d)).
Proof.
  unfold delete_sale_db. destruct (select_sale sale_id d); cbn [fst];
    [|apply No_statement].
  destruct (negb (truthy (Sales.cancelled r))).
  - eapply statements_two; constructor; reflexivity.
  - apply statements_one. constructor.
Qed.

Lemma update_item_db_statements item_id name p quantity image_path d :
  statements d (update_item_db isnan item_id name p quantity image_path d).
Proof.
  unfold update_item_db.
  destruct (set_clause name p quantity image_path) eqn:E; [apply No_statement|].
  destruct (update_item_raises isnan item_id p quantity d); [apply No_statement|].
  rewrite <- E. apply statements_one. constructor.
  intros x. now rewrite apply_set_clause_edited.
Qed.

Lemma add_item_statements method form uuid_hex d :
  statements d (fst (add_item py_float py_int isnan method form uuid_hex d)).
Proof.
  unfold add_item, add_item_with_image.
  repeat case_match; cbn [fst];
    first [apply No_statement | apply statements_one; constructor].
Qed.

Lemma edit_item_statements method item_id form uuid_hex d :
  statements d (fst (edit_item py_float py_int isnan method item_id form uuid_hex d)).
Proof.
  unfold edit_item.
  repeat case_match; cbn [fst];
    first [apply No_statement | apply update_item_db_statements].
Qed.

Lemma toggle_favorite_statements item_id d :
  statements d (fst (toggle_favorite item_id d)).
Proof. unfold toggle_favorite. by_statements. Qed.

Lemma sell_statements item_id quantity now d :
  statements d (fst (sell price_mul py_int item_id quantity now d)).
Proof.
  unfold sell.
  destruct (int_of_field py_int item_id); [|apply No_statement].
  destruct (int_of_field py_int quantity); [|apply No_statement].
  pose proof (record_sale_db_statements z z0 now d) as H.
  now destruct (record_sale_db price_mul z z0 now d).
Qed.

Lemma checkout_loop_statements clock (c : cart) : forall k messages d,
  statements d (fst (checkout_loop price_mul py_int clock k c messages d)).
Proof.
  induction c as [|[key qty] c IH]; intros k messages d; simpl;
    [apply No_statement|].
  destruct (py_int key) as [i|]; [|apply No_statement].
  pose proof (record_sale_db_statements i qty (clock k) d) as H.
  destruct (record_sale_db price_mul i qty (clock k) d) as [d1 msg].
  eapply statements_trans; [exact H | apply IH].
Qed.

Lemma checkout_statements clock (c : cart) d :
  statements d (fst (fst (checkout price_mul py_int clock c d))).
Proof.
  unfold checkout. destruct c as [|line c]; [apply No_statement|].
  pose proof (checkout_loop_statements clock (line :: c) 0%nat [] d) as H.
  now destruct (checkout_loop price_mul py_int clock 0 (line :: c) [] d)
    as [d' [messages|]].
Qed.

Lemma cancel_sale_statements sale_id d :
  statements d (fst (cancel_sale sale_id d)).
Proof.
  unfold cancel_sale. pose proof (cancel_sale_db_statements sale_id d) as H.
  now destruct (cancel_sale_db sale_id d).
Qed.

Lemma delete_sale_statements admin_code sale_id d :
  statements d (fst (delete_sale admin_code sale_id d)).
Proof.
  unfold delete_sale.
  destruct (negb (strip admin_code =? ADMIN_CODE)%string); [apply No_statement|].
  pose proof (delete_sale_db_statements sale_id d) as H.
  now destruct (delete_sale_db sale_id d).
Qed.

Lemma uncancel_sale_statements admin_code sale_id d :
  statements d (fst (uncancel_sale admin_code sale_id d)).
Proof.
  unfold uncancel_sale.
  destruct (negb (strip admin_code =? ADMIN_CODE)%string); [apply No_statement|].
  pose proof (uncancel_sale_db_statements sale_id d) as H.
  now destruct (uncancel_sale_db sale_id d).
Qed.

Lemma serve_statements (st : db price * cart) (r : request) :
  statements (fst st) (fst (serve price_mul py_float py_int isnan st r)).
Proof.
  destruct st as [d c]. destruct r; cbn [serve fst].
  - apply No_statement.
  - apply sell_statements.
  - apply add_item_statements.
  - apply No_statement.
  - apply edit_item_statements.
  - apply No_statement.
  - apply No_statement.
  - apply checkout_statements.
  - apply No_statement.
  - apply toggle_favorite_statements.
  - apply cancel_sale_statements.
  - apply delete_sale_statements.
  - apply uncancel_sale_statements.
Qed.

Lemma serve_all_statements (requests : list request) : forall st,
  statements (fst st) (fst (serve_all price_mul py_float py_int isnan requests st)).
Proof.
  unfold serve_all.
  induction requests as [|r requests IH]; intros st; simpl; [apply No_statement|].
  eapply statements_trans; [apply serve_statements | apply IH].
Qed.

Lemma menu_statements item_id name p quantity now
    (new_name : option string) (new_price : option price)
    (new_quantity : option Z) d :
  statements d (fst (pos_system.add_item isnan name p quantity d)) /\
  statements d (fst (pos_system.record_sale price_mul item_id quantity now d)) /\
  statements d (fst (pos_system.update_item isnan item_id new_name new_price
                       new_quantity d)) /\
  statements d (fst (pos_system.delete_item item_id d)).
Proof.
  repeat split.
  - unfold pos_system.add_item.
    destruct (insert_item_raises isnan p quantity); cbn [fst];
      [apply No_statement|].
    apply statements_one. constructor.
  - unfold pos_system.record_sale. by_statements.
  - unfold pos_system.update_item.
    destruct (select_item item_id d); cbn [fst]; [|apply No_statement].
    destruct (update_item_raises isnan item_id new_price new_quantity d);
      cbn [fst]; [apply No_statement|].
    apply statements_one. constructor. reflexivity.
  - unfold pos_system.delete_item. by_statements.
Qed.

End Statements.

(** ** Primary keys, and what is written once *)

Section Keys.

Context {price : Type}.

Implicit Types (d : db price).

Lemma Forall_ids_insert {A : Type} (key : A -> Z) (seq : Z) (l : list A) (x : A) :
  key x = next_id seq (map key l) ->
  Forall (fun y => key y <= next_id seq (map key l)) (l ++ [x]).
Proof.
  intros Hx. apply Forall_app. split.
  - apply Forall_forall. intros y Hy.
    pose proof (proj2 (next_id_above seq (map key l)) (key y) (in_map key l y Hy)).
    lia.
  - constructor; [lia | constructor].
Qed.

Lemma statement_keys_ok d d' : statement d d' -> keys_ok d -> keys_ok d'.
Proof.
  intros Hs (Hi & Hsl & Hib & Hsb). destruct Hs; unfold keys_ok; cbn.
  - repeat split; auto.
    + apply NoDup_keys_insert; [exact Hi | apply next_id_fresh].
    + now apply Forall_ids_insert.
  - repeat split; auto.
    + apply NoDup_keys_insert; [exact Hsl | apply next_id_fresh].
    + now apply Forall_ids_insert.
  - repeat split; auto.
    + fold (update_where Inventory.id f item_id (inventory d)).
      now rewrite update_where_keys.
    + apply (Forall_update_where Inventory.id); [|exact Hib].
      intros x _ _ Hx. now rewrite H.
  - repeat split; auto.
    + fold (update_where Sales.id (Sales.set_cancelled v) sale_id (sales d)).
      now rewrite update_where_keys.
    + now apply (Forall_update_where Sales.id).
  - repeat split; auto.
    + now apply (NoDup_keys_delete Sales.id).
    + now apply (Forall_delete_where Sales.id).
  - repeat split; auto.
    + now apply (NoDup_keys_delete Inventory.id).
    + now apply (Forall_delete_where Inventory.id).
Qed.

Lemma statements_keys_ok d d' : statements d d' -> keys_ok d -> keys_ok d'.
Proof.
  intros Hs Hk. induction Hs as [|d1 d2 d3 _ IH Hs]; [exact Hk|].
  eapply statement_keys_ok; eauto.
Qed.

Lemma statement_seq d d' :
  statement d d' ->
  inventory_seq d <= inventory_seq d' /\ sales_seq d <= sales_seq d'.
Proof.
  intros Hs. destruct Hs; cbn; try lia.
  - pose proof (proj1 (next_id_above (inventory_seq d)
                         (map Inventory.id (inventory d)))). lia.
  - pose proof (proj1 (next_id_above (sales_seq d) (map Sales.id (sales d)))).
    lia.
Qed.

(** A sale id that was handed out and is not in the table stays out. *)
Lemma statement_sale_absent d d' (i : Z) :
  statement d d' -> i <= sales_seq d ->
  select_sale i d = None -> select_sale i d' = None.
Proof.
  intros Hs Hi Hnone. rewrite select_sale_eq in *. destruct Hs;
    cbn [sales inventory insert_item insert_sale update_inventory update_cancelled
         delete_sale_row delete_item_row]; auto.
  - rewrite select_where_app_new; [exact Hnone|]. cbn.
    pose proof (proj1 (next_id_above (sales_seq d) (map Sales.id (sales d)))).
    lia.
  - fold (update_where Sales.id (Sales.set_cancelled v) sale_id (sales d)).
    destruct (Z.eq_dec i sale_id) as [->|Hne].
    + rewrite select_where_update by reflexivity. now rewrite Hnone.
    + rewrite select_where_update_other by auto. exact Hnone.
  - fold (delete_where Sales.id sale_id (sales d)).
    destruct (Z.eq_dec i sale_id) as [->|Hne].
    + apply select_where_delete.
    + rewrite select_where_delete_other by auto. exact Hnone.
Qed.

Lemma statements_sale_absent d d' (i : Z) :
  statements d d' -> i <= sales_seq d ->
  select_sale i d = None -> select_sale i d' = None /\ i <= sales_seq d'.
Proof.
  intros Hs Hi Hnone. induction Hs as [|d1 d2 d3 _ IH Hs]; [now split|].
  destruct (IH Hi Hnone) as [H2 Hi2]. split.
  - eapply statement_sale_absent; eauto.
  - pose proof (statement_seq _ _ Hs). lia.
Qed.

(** The same for an item id. *)
Lemma statement_item_absent d d' (i : Z) :
  statement d d' -> i <= inventory_seq d ->
  select_item i d = None -> select_item i d' = None.
Proof.
  intros Hs Hi Hnone. rewrite select_item_eq in *. destruct Hs;
    cbn [sales inventory insert_item insert_sale update_inventory update_cancelled
         delete_sale_row delete_item_row]; auto.
  - rewrite select_where_app_new; [exact Hnone|]. cbn.
    pose proof (proj1 (next_id_above (inventory_seq d)
                         (map Inventory.id (inventory d)))).
    lia.
  - fold (update_where Inventory.id f item_id (inventory d)).
    destruct (Z.eq_dec i item_id) as [->|Hne].
    + rewrite select_where_update by assumption. now rewrite Hnone.
    + rewrite select_where_update_other by auto. exact Hnone.
  - fold (delete_where Inventory.id item_id (inventory d)).
    destruct (Z.eq_dec i item_id) as [->|Hne].
    + apply select_where_delete.
    + rewrite select_where_delete_other by auto. exact Hnone.
Qed.

Lemma statements_item_absent d d' (i : Z) :
  statements d d' -> i <= inventory_seq d ->
  select_item i d = None -> select_item i d' = None /\ i <= inventory_seq d'.
Proof.
  intros Hs Hi Hnone. induction Hs as [|d1 d2 d3 _ IH Hs]; [now split|].
  destruct (IH Hi Hnone) as [H2 Hi2]. split.
  - eapply statement_item_absent; eauto.
  - pose proof (statement_seq _ _ Hs). lia.
Qed.

Lemma same_sale_refl (s : Sales.row price) : same_sale s s.
Proof. repeat split. Qed.

Lemma same_sale_trans (s1 s2 s3 : Sales.row price) :
  same_sale s1 s2 -> same_sale s2 s3 -> same_sale s1 s3.
Proof. unfold same_sale. intuition congruence. Qed.

(** A statement leaves a sale where it is, but for its [cancelled] column,
    or deletes it. *)
Lemma statement_sale_kept d d' (i : Z) (s : Sales.row price) :
  statement d d' -> select_sale i d = Some s ->
  select_sale i d' = None \/
  exists s', select_sale i d' = Some s' /\ same_sale s s'.
Proof.
  intros Hs Hsome. rewrite select_sale_eq in *.
  destruct Hs;
    cbn [sales inventory insert_item insert_sale update_inventory update_cancelled
         delete_sale_row delete_item_row];
    try (right; exists s; split; [assumption | apply same_sale_refl]).
  - right. exists s. split; [|apply same_sale_refl].
    now apply select_where_app_old.
  - right.
    fold (update_where Sales.id (Sales.set_cancelled v) sale_id (sales d)).
    destruct (Z.eq_dec i sale_id) as [->|Hne].
    + exists (Sales.set_cancelled v s). split; [|repeat split].
      rewrite select_where_update by reflexivity. now rewrite Hsome.
    + exists s. split; [|apply same_sale_refl].
      now rewrite select_where_update_other by auto.
  - fold (delete_where Sales.id sale_id (sales d)).
    destruct (Z.eq_dec i sale_id) as [->|Hne].
    + left. apply select_where_delete.
    + right. exists s. split; [|apply same_sale_refl].
      now rewrite select_where_delete_other by auto.
Qed.

Lemma statements_sale_kept d d' (i : Z) (s : Sales.row price) :
  statements d d' -> i <= sales_seq d -> select_sale i d = Some s ->
  i <= sales_seq d' /\
  (select_sale i d' = None \/
   exists s', select_sale i d' = Some s' /\ same_sale s s').
Proof.
  intros Hs Hi Hsome. induction Hs as [|d1 d2 d3 _ IH Hs].
  - split; [exact Hi|]. right. exists s. split; [exact Hsome | apply same_sale_refl].
  - destruct (IH Hi Hsome) as [Hi2 [Hnone|[s2 [H2 Hsame]]]].
    + split; [pose proof (statement_seq _ _ Hs); lia|].
      left. eapply statement_sale_absent; eauto.
    + split; [pose proof (statement_seq _ _ Hs); lia|].
      destruct (statement_sale_kept _ _ i s2 Hs H2) as [H3|[s3 [H3 Hsame3]]].
      * now left.
      * right. exists s3. split; [exact H3|].
        eapply same_sale_trans; eauto.
Qed.

Lemma keys_ok_sale_issued d (i : Z) (s : Sales.row price) :
  keys_ok d -> select_sale i d = Some s -> i <= sales_seq d.
Proof.
  intros (_ & _ & _ & Hsb) Hsome. rewrite select_sale_eq in Hsome.
  apply select_where_In in Hsome. destruct Hsome as [Hin <-].
  rewrite Forall_forall in Hsb. now apply Hsb.
Qed.

Lemma keys_ok_item_issued d (i : Z) (r : Inventory.row price) :
  keys_ok d -> select_item i d = Some r -> i <= inventory_seq d.
Proof.
  intros (_ & _ & Hib & _) Hsome. rewrite select_item_eq in Hsome.
  apply select_where_In in Hsome. destruct Hsome as [Hin <-].
  rewrite Forall_forall in Hib. now apply Hib.
Qed.

End Keys.

(** ** Stock *)

Section Stock.

Context {price : Type}.
Variable price_mul : price -> Z -> price.
Variable py_int : string -> option Z.

Implicit Types (d : db price).

Lemma stock_update_inventory d (k delta : Z) (row : Inventory.row price) :
  keys_ok d -> stock_ok d ->
  select_item k d = Some row -> 0 <= Inventory.quantity row + delta ->
  stock_ok (update_inventory (add_quantity delta) k d).
Proof.
  intros (Hnd & _) [Hq Hs] Hrow Hdelta. split; [|exact Hs].
  rewrite inventory_update_inventory.
  apply (Forall_update_where Inventory.id); [|exact Hq].
  intros x Hx Hk _. rewrite select_item_eq in Hrow.
  rewrite (select_where_unique Inventory.id k _ x Hnd Hx Hk) in Hrow.
  injection Hrow as ->. exact Hdelta.
Qed.

Lemma stock_update_inventory_up d (k delta : Z) :
  stock_ok d -> 0 <= delta -> stock_ok (update_inventory (add_quantity delta) k d).
Proof.
  intros [Hq Hs] Hdelta. split; [|exact Hs].
  rewrite inventory_update_inventory.
  apply (Forall_update_where Inventory.id); [|exact Hq].
  intros x _ _ Hx. cbn. lia.
Qed.

Lemma stock_update_cancelled d (v k : Z) :
  stock_ok d -> stock_ok (update_cancelled v k d).
Proof.
  intros [Hq Hs]. split; [exact Hq|]. rewrite sales_update_cancelled.
  apply (Forall_update_where Sales.id); [|exact Hs]. intros x _ _ Hx. exact Hx.
Qed.

Lemma stock_delete_sale_row d (k : Z) :
  stock_ok d -> stock_ok (delete_sale_row k d).
Proof.
  intros [Hq Hs]. split; [exact Hq|]. rewrite sales_delete_sale_row.
  now apply (Forall_delete_where Sales.id).
Qed.

Lemma stock_sale_positive d (k : Z) (row : Sales.row price) :
  stock_ok d -> select_sale k d = Some row -> 0 < Sales.quantity row.
Proof.
  intros [_ Hs] Hrow. rewrite select_sale_eq in Hrow.
  apply select_where_In in Hrow. rewrite Forall_forall in Hs.
  now apply Hs.
Qed.

Lemma record_sale_db_stock item_id q now d :
  keys_ok d -> stock_ok d ->
  stock_ok (fst (record_sale_db price_mul item_id q now d)).
Proof.
  intros Hk Hst. unfold record_sale_db.
  destruct (select_item item_id d) as [row|] eqn:Hrow; [|exact Hst].
  destruct (Z.leb_spec q 0) as [|Hq]; [exact Hst|].
  destruct (Z.ltb_spec (Inventory.quantity row) q) as [|Hstock]; [exact Hst|].
  cbn [fst].
  assert (H1 : stock_ok (update_inventory (sub_quantity q) item_id d)).
  { change (sub_quantity q) with (add_quantity (price := price) (- q)).
    apply (stock_update_inventory d item_id (- q) row); auto. lia. }
  destruct H1 as [H1q H1s]. split; [exact H1q|].
  cbn [sales insert_sale]. apply Forall_app. split; [exact H1s|].
  constructor; [exact Hq | constructor].
Qed.

Lemma cancel_sale_db_stock sale_id d :
  stock_ok d -> stock_ok (fst (cancel_sale_db sale_id d)).
Proof.
  intros Hst. unfold cancel_sale_db.
  destruct (select_sale sale_id d) as [row|] eqn:Hrow; [|exact Hst].
  destruct (truthy (Sales.cancelled row)); [exact Hst|]. cbn [fst].
  apply stock_update_inventory_up; [now apply stock_update_cancelled|].
  pose proof (stock_sale_positive d sale_id row Hst Hrow). lia.
Qed.

Lemma uncancel_sale_db_stock sale_id d :
  keys_ok d -> stock_ok d -> stock_ok (fst (uncancel_sale_db sale_id d)).
Proof.
  intros Hk Hst. unfold uncancel_sale_db.
  destruct (select_sale sale_id d) as [row|] eqn:Hrow; [|exact Hst].
  destruct (negb (truthy (Sales.cancelled row))); [exact Hst|].
  destruct (select_item (Sales.item_id row) d) as [item_row|] eqn:Hitem;
    [|exact Hst].
  destruct (Z.ltb_spec (Inventory.quantity item_row) (Sales.quantity row))
    as [|Hstock]; [exact Hst|].
  cbn [fst]. apply stock_update_cancelled.
  change (sub_quantity (Sales.quantity row))
    with (add_quantity (price := price) (- Sales.quantity row)).
  apply (stock_update_inventory d _ _ item_row); auto. lia.
Qed.

Lemma delete_sale_db_stock sale_id d :
  stock_ok d -> stock_ok (fst (delete_sale_db sale_id d)).
Proof.
  intros Hst. unfold delete_sale_db.
  destruct (select_sale sale_id d) as [row|] eqn:Hrow; [|exact Hst].
  cbn [fst]. apply stock_delete_sale_row.
  destruct (negb (truthy (Sales.cancelled row))); [|exact Hst].
  apply stock_update_inventory_up; [exact Hst|].
  pose proof (stock_sale_positive d sale_id row Hst Hrow). lia.
Qed.

Lemma step_stock d op :
  keys_ok d /\ stock_ok d ->
  keys_ok (step price_mul d op) /\ stock_ok (step price_mul d op).
Proof.
  intros [Hk Hst]. destruct op; cbn [step]; split.
  - eapply statements_keys_ok; [apply record_sale_db_statements | exact Hk].
  - now apply record_sale_db_stock.
  - eapply statements_keys_ok; [apply cancel_sale_db_statements | exact Hk].
  - now apply cancel_sale_db_stock.
  - eapply statements_keys_ok; [apply uncancel_sale_db_statements | exact Hk].
  - now apply uncancel_sale_db_stock.
  - eapply statements_keys_ok; [apply delete_sale_db_statements | exact Hk].
  - now apply delete_sale_db_stock.
Qed.

Lemma checkout_loop_stock clock (c : cart) : forall k messages d,
  keys_ok d /\ stock_ok d ->
  stock_ok (fst (checkout_loop price_mul py_int clock k c messages d)).
Proof.
  induction c as [|[key qty] c IH]; intros k messages d [Hk Hst]; simpl;
    [exact Hst|].
  destruct (py_int key) as [i|]; [|exact Hst].
  pose proof (record_sale_db_stock i qty (clock k) d Hk Hst) as H1.
  pose proof (statements_keys_ok _ _
                (record_sale_db_statements price_mul i qty (clock k) d) Hk) as H2.
  destruct (record_sale_db price_mul i qty (clock k) d) as [d1 msg].
  apply IH. now split.
Qed.

Lemma total_at_least {A : Type} (c : A -> Z) (l : list A) (x : A) :
  Forall (fun y => 0 <= c y) l -> In x l -> c x <= total c l.
Proof.
  intros H. induction H as [|y l Hy Hl IH]; intros Hin; [contradiction|].
  assert (Hpos : 0 <= total c l).
  { clear - Hl. unfold total.
    induction Hl as [|z l Hz _ IH]; cbn [fold_right]; lia. }
  unfold total in *. cbn [fold_right].
  destruct Hin as [->|Hin]; [lia | specialize (IH Hin); lia].
Qed.

(** In a database that sales, cancellations, restorations and deletions of
    sales have made of one without sales, whose quantities are not
    negative and fit an [INTEGER], what a sale that is not cancelled would
    restore fits an [INTEGER] too: it is at most the original quantity. *)
Lemma run_restorable (d0 : db price) (ops : list ledger_op) (sale_id : Z)
    (row : Sales.row price) :
  sales d0 = [] ->
  keys_ok d0 ->
  Forall (fun r => 0 <= Inventory.quantity r /\
                   binds (Inventory.quantity r) = true) (inventory d0) ->
  let d := run price_mul ops d0 in
  select_sale sale_id d = Some row ->
  Sales.cancelled row = 0 ->
  restorable row d.
Proof.
  intros Hno Hk H0 d Hrow Hc.
  assert (Hst0 : stock_ok d0).
  { split; [|rewrite Hno; constructor]. revert H0. apply Forall_impl. tauto. }
  assert (Hrun : keys_ok d /\ stock_ok d).
  { subst d. unfold run. clear Hrow Hno H0. revert d0 Hk Hst0.
    induction ops as [|op ops IH]; intros d0 Hk Hst; simpl; [now split|].
    destruct (step_stock d0 op (conj Hk Hst)) as [Hk' Hst']. now apply IH. }
  destruct Hrun as [_ [Hq Hs]].
  destruct (run_invariant price_mul d0 ops d0 (ledger_invariant_start d0 Hno))
    as [_ Hrec].
  fold d in Hrec.
  rewrite select_sale_eq in Hrow. apply select_where_In in Hrow.
  destruct Hrow as [Hin _].
  assert (Hdebit : forall i, Sales.item_id row = i ->
            Sales.quantity row <= active_quantity i (sales d)).
  { intros i Hi. unfold active_quantity.
    assert (E : (Sales.item_id row =? i) = true) by now apply Z.eqb_eq.
    replace (Sales.quantity row) with (debit i row)
      by (rewrite (debit_of_active i row Hc), E; reflexivity).
    apply total_at_least; [|exact Hin].
    apply Forall_forall. intros s Hs'. rewrite Forall_forall in Hs.
    specialize (Hs s Hs'). unfold debit.
    destruct (negb (truthy (Sales.cancelled s)) && (Sales.item_id s =? i)); lia. }
  assert (Hpos : 0 < Sales.quantity row).
  { rewrite Forall_forall in Hs. now apply Hs. }
  unfold restorable.
  clear Hin. revert Hq. generalize dependent (inventory d0).
  induction (inventory d) as [|r l IH]; intros l0 H0 Hrec Hq; [constructor|].
  inversion Hrec as [|r0 ? l0' ? Hr Hrest]. subst.
  inversion H0 as [|? ? [Hr0 Hb0] H0']. subst.
  inversion Hq as [|? ? Hrq Hq']. subst.
  constructor; [|now apply (IH l0')].
  intros Hid. unfold reconciled in Hr.
  assert (E : Inventory.quantity r + active_quantity (Inventory.id r) (sales d)
              = Inventory.quantity r0).
  { rewrite <- Hr. reflexivity. }
  specialize (Hdebit (Inventory.id r) (eq_sym Hid)).
  unfold binds in *. apply andb_true_iff in Hb0. destruct Hb0 as [_ Hmax].
  apply Z.leb_le in Hmax.
  apply andb_true_iff. split; apply Z.leb_le; lia.
Qed.

(** X1.  With the primary keys in place, in a database where no item has a
    negative quantity and every sale is of at least one unit, no sequence
    of sales, cancellations, restorations and deletions of sales, and no
    checkout of any cart, makes a quantity negative: the stock checks of
    [record_sale_db] and [uncancel_sale_db] never let an item be sold
    beyond what it has. *)
Theorem stock_never_negative (ops : list ledger_op) (clock : nat -> string)
    (c : cart) d :
  keys_ok d -> stock_ok d ->
  stock_ok (run price_mul ops d) /\
  stock_ok (fst (fst (checkout price_mul py_int clock c (run price_mul ops d)))).
Proof.
  intros Hk Hst.
  assert (Hrun : keys_ok (run price_mul ops d) /\ stock_ok (run price_mul ops d)).
  { unfold run. revert d Hk Hst.
    induction ops as [|op ops IH]; intros d Hk Hst; simpl; [now split|].
    destruct (step_stock d op (conj Hk Hst)) as [Hk' Hst']. now apply IH. }
  split; [exact (proj2 Hrun)|].
  unfold checkout. destruct c as [|line c]; [exact (proj2 Hrun)|].
  pose proof (checkout_loop_stock clock (line :: c) 0%nat []
                (run price_mul ops d) Hrun) as H.
  now destruct (checkout_loop price_mul py_int clock 0 (line :: c) []
                  (run price_mul ops d)) as [d' [messages|]].
Qed.

End Stock.

(** ** The application and its keys *)

Section AppKeys.

Context {price : Type}.
Variable price_mul : price -> Z -> price.
Variable py_float : string -> option price.
Variable py_int : string -> option Z.
Variable isnan : price -> bool.

Implicit Types (d : db price) (c : cart).

(** X2.  Whatever requests the application serves, and whatever the four
    functions of the text menu that write are asked, the ids of each table
    stay pairwise distinct and none exceeds the largest id handed out. *)
Theorem primary_keys_kept (requests : list request) d c
    (item_id quantity : Z) (name now : string) (p : price)
    (new_name : option string) (new_price : option price)
    (new_quantity : option Z) :
  keys_ok d ->
  keys_ok (fst (serve_all price_mul py_float py_int isnan requests (d, c))) /\
  keys_ok (fst (pos_system.add_item isnan name p quantity d)) /\
  keys_ok (fst (pos_system.record_sale price_mul item_id quantity now d)) /\
  keys_ok (fst (pos_system.update_item isnan item_id new_name new_price new_quantity d)) /\
  keys_ok (fst (pos_system.delete_item item_id d)).
Proof.
  intros Hk.
  destruct (menu_statements price_mul isnan item_id name p quantity now
              new_name new_price new_quantity d) as (H1 & H2 & H3 & H4).
  split; [|repeat split; eapply statements_keys_ok; eauto].
  exact (statements_keys_ok _ _
           (serve_all_statements price_mul py_float py_int isnan requests (d, c)) Hk).
Qed.

(** X3.  Once a sale has been deleted, no request brings its id back: the
    sale is not found, whatever is sold, cancelled, restored, deleted, added
    or edited afterwards, for ids of sales are not handed out twice. *)
Theorem deleted_sale_never_returns (requests : list request) d c
    (sale_id : Z) (row : Sales.row price) :
  keys_ok d ->
  select_sale sale_id d = Some row ->
  select_sale sale_id
    (fst (serve_all price_mul py_float py_int isnan requests
            (fst (delete_sale_db sale_id d), c))) = None.
Proof.
  intros Hk Hrow.
  pose proof (keys_ok_sale_issued d sale_id row Hk Hrow) as Hi.
  assert (Hgone : select_sale sale_id (fst (delete_sale_db sale_id d)) = None).
  { unfold delete_sale_db. rewrite Hrow. cbn [fst].
    rewrite select_sale_eq, sales_delete_sale_row. apply select_where_delete. }
  assert (Hseq : sale_id <= sales_seq (fst (delete_sale_db sale_id d))).
  { pose proof (statements_sale_kept d _ sale_id row
                  (delete_sale_db_statements sale_id d) Hi Hrow). tauto. }
  exact (proj1 (statements_sale_absent _ _ sale_id
                  (serve_all_statements price_mul py_float py_int isnan requests
                     (fst (delete_sale_db sale_id d), c)) Hseq Hgone)).
Qed.

(** X4.  The id, the item, the quantity, the timestamp and the total price
    of a sale are written once: a sale that is found before and after any
    sequence of requests has them unchanged, whatever was cancelled or
    restored, and whatever price its item was given in between. *)
Theorem sale_columns_written_once (requests : list request) d c
    (sale_id : Z) (s s' : Sales.row price) :
  keys_ok d ->
  select_sale sale_id d = Some s ->
  select_sale sale_id (fst (serve_all price_mul py_float py_int isnan requests (d, c)))
    = Some s' ->
  same_sale s s'.
Proof.
  intros Hk Hs Hs'.
  pose proof (keys_ok_sale_issued d sale_id s Hk Hs) as Hi.
  destruct (statements_sale_kept d _ sale_id s
              (serve_all_statements price_mul py_float py_int isnan requests (d, c))
              Hi Hs) as [_ [Hnone|[s2 [H2 Hsame]]]];
    cbn [fst] in *.
  - congruence.
  - rewrite H2 in Hs'. now injection Hs' as <-.
Qed.

(** X5.  Once an item has been deleted with the text menu, its id is not
    given to another item: after any sequence of requests the item is not
    found, a sale of it is refused as the sale of an item that does not
    exist, and a sale of it that was cancelled cannot be restored. *)
Theorem deleted_item_never_returns (requests : list request) d c
    (item_id q : Z) (now : string) (r : Inventory.row price) :
  keys_ok d ->
  select_item item_id d = Some r ->
  let d' := fst (serve_all price_mul py_float py_int isnan requests
                   (fst (pos_system.delete_item item_id d), c)) in
  select_item item_id d' = None /\
  record_sale_db price_mul item_id q now d' = (d', Item_does_not_exist item_id) /\
  (forall sale_id row,
     select_sale sale_id d' = Some row ->
     Sales.item_id row = item_id ->
     Sales.cancelled row <> 0 ->
     uncancel_sale_db sale_id d' = (d', Associated_item_not_found)).
Proof.
  intros Hk Hr d'.
  pose proof (keys_ok_item_issued d item_id r Hk Hr) as Hi.
  assert (Hgone : select_item item_id d' = None).
  { subst d'. unfold pos_system.delete_item. rewrite Hr. cbn [fst].
    refine (proj1 (statements_item_absent _ _ item_id
                     (serve_all_statements price_mul py_float py_int isnan requests
                        (delete_item_row item_id d, c)) Hi _)).
    rewrite select_item_eq. apply select_where_delete. }
  split; [exact Hgone|]. split.
  - unfold record_sale_db. now rewrite Hgone.
  - intros sale_id row Hrow Hitem Hc.
    rewrite (uncancel_sale_db_cases _ _ _ Hrow Hc), Hitem, Hgone. reflexivity.
Qed.

End AppKeys.

(** ** More on cancelling, restoring and deleting *)

Section LedgerMore.

Context {price : Type}.

Implicit Types (d : db price) (row : Sales.row price).

Lemma sub_add_quantity (q : Z) (r : Inventory.row price) :
  add_quantity q (sub_quantity q r) = r.
Proof.
  destruct r. unfold sub_quantity, add_quantity, Inventory.set_quantity. simpl.
  f_equal. lia.
Qed.

Lemma select_sale_after_cancelled (v sale_id : Z) d row :
  select_sale sale_id d = Some row ->
  forall f k,
  select_sale sale_id (update_inventory f k (update_cancelled v sale_id d)) =
  Some (Sales.set_cancelled v row).
Proof.
  intros Hrow f k. rewrite select_sale_eq. cbn [sales update_inventory].
  rewrite sales_update_cancelled, select_where_update by reflexivity.
  now rewrite <- select_sale_eq, Hrow.
Qed.

(** X6.  Asking twice is asking once: a second cancellation of the same
    sale changes nothing and answers that the sale is already cancelled, or
    not found; a second restoration changes nothing and is never accepted;
    a second deletion changes nothing and answers that the sale is not
    found. *)
Theorem ledger_requests_idempotent (sale_id : Z) d :
  (fst (cancel_sale_db sale_id (fst (cancel_sale_db sale_id d))) =
     fst (cancel_sale_db sale_id d) /\
   (snd (cancel_sale_db sale_id (fst (cancel_sale_db sale_id d))) = Sale_not_found \/
    snd (cancel_sale_db sale_id (fst (cancel_sale_db sale_id d))) =
      Sale_already_cancelled)) /\
  (fst (uncancel_sale_db sale_id (fst (uncancel_sale_db sale_id d))) =
     fst (uncancel_sale_db sale_id d) /\
   snd (uncancel_sale_db sale_id (fst (uncancel_sale_db sale_id d))) <>
     Sale_uncancelled_and_inventory_updated) /\
  (fst (delete_sale_db sale_id (fst (delete_sale_db sale_id d))) =
     fst (delete_sale_db sale_id d) /\
   snd (delete_sale_db sale_id (fst (delete_sale_db sale_id d))) = Sale_not_found).
Proof.
  split; [|split].
  - destruct (select_sale sale_id d) as [row|] eqn:Hrow.
    + destruct (Z.eq_dec (Sales.cancelled row) 0) as [H0|H0].
      * rewrite (cancel_sale_db_active _ _ _ Hrow H0). cbn [fst].
        unfold cancel_sale_db at 1 3.
        rewrite (select_sale_after_cancelled 1 _ _ _ Hrow). cbn. auto.
      * assert (Hsame : cancel_sale_db sale_id d = (d, Sale_already_cancelled)).
        { unfold cancel_sale_db. now rewrite Hrow, (truthy_not_0 _ H0). }
        rewrite Hsame. cbn [fst]. rewrite Hsame. auto.
    + assert (Hsame : cancel_sale_db sale_id d = (d, Sale_not_found)).
      { unfold cancel_sale_db. now rewrite Hrow. }
      rewrite Hsame. cbn [fst]. rewrite Hsame. auto.
  - destruct (select_sale sale_id d) as [row|] eqn:Hrow.
    + destruct (Z.eq_dec (Sales.cancelled row) 0) as [H0|H0].
      * assert (Hsame : uncancel_sale_db sale_id d = (d, Sale_is_not_cancelled)).
        { unfold uncancel_sale_db. now rewrite Hrow, (truthy_0 _ H0). }
        rewrite Hsame. cbn [fst]. rewrite Hsame. split; [reflexivity | discriminate].
      * rewrite (uncancel_sale_db_cases _ _ _ Hrow H0).
        destruct (select_item (Sales.item_id row) d) as [item_row|] eqn:Hitem.
        -- destruct (Inventory.quantity item_row <? Sales.quantity row) eqn:Hq;
             cbn [fst].
           ++ rewrite (uncancel_sale_db_cases _ _ _ Hrow H0), Hitem, Hq.
              split; [reflexivity | discriminate].
           ++ unfold uncancel_sale_db at 1 2.
              assert (Hrow' : select_sale sale_id
                        (update_cancelled 0 sale_id
                           (update_inventory (sub_quantity (Sales.quantity row))
                              (Sales.item_id row) d)) =
                        Some (Sales.set_cancelled 0 row)).
              { rewrite select_sale_eq, sales_update_cancelled.
                cbn [sales update_inventory].
                rewrite select_where_update by reflexivity.
                now rewrite <- select_sale_eq, Hrow. }
              rewrite Hrow'. cbn. split; [reflexivity | discriminate].
        -- cbn [fst].
           rewrite (uncancel_sale_db_cases _ _ _ Hrow H0), Hitem.
           split; [reflexivity | discriminate].
    + assert (Hsame : uncancel_sale_db sale_id d = (d, Sale_not_found)).
      { unfold uncancel_sale_db. now rewrite Hrow. }
      rewrite Hsame. cbn [fst]. rewrite Hsame. split; [reflexivity | discriminate].
  - assert (Hgone : select_sale sale_id (fst (delete_sale_db sale_id d)) = None).
    { unfold delete_sale_db.
      destruct (select_sale sale_id d) as [row|] eqn:Hrow; cbn [fst];
        [|exact Hrow].
      rewrite select_sale_eq, sales_delete_sale_row. apply select_where_delete. }
    assert (Hsame : delete_sale_db sale_id (fst (delete_sale_db sale_id d)) =
                    (fst (delete_sale_db sale_id d), Sale_not_found)).
    { unfold delete_sale_db at 1. now rewrite Hgone. }
    rewrite Hsame. split; reflexivity.
Qed.

(** X7.  A request to the ledger that is not granted writes nothing: when
    the answer of [cancel_sale_db] or of [uncancel_sale_db] is not its
    answer of success, and when [delete_sale_db] answers that the sale is
    not found, the database is the one that was passed. *)
Theorem refused_ledger_requests_write_nothing (sale_id : Z) d :
  (snd (cancel_sale_db sale_id d) <> Sale_cancelled_and_inventory_restored ->
   fst (cancel_sale_db sale_id d) = d) /\
  (snd (uncancel_sale_db sale_id d) <> Sale_uncancelled_and_inventory_updated ->
   fst (uncancel_sale_db sale_id d) = d) /\
  (snd (delete_sale_db sale_id d) = Sale_not_found ->
   fst (delete_sale_db sale_id d) = d).
Proof.
  split; [|split].
  - unfold cancel_sale_db. destruct (select_sale sale_id d); [|reflexivity].
    destruct (truthy (Sales.cancelled r)); [reflexivity|].
    cbn [snd]. congruence.
  - unfold uncancel_sale_db. destruct (select_sale sale_id d); [|reflexivity].
    destruct (negb (truthy (Sales.cancelled r))); [reflexivity|].
    destruct (select_item (Sales.item_id r) d); [|reflexivity].
    destruct (Inventory.quantity r0 <? Sales.quantity r); [reflexivity|].
    cbn [snd]. congruence.
  - unfold delete_sale_db. destruct (select_sale sale_id d); [|reflexivity].
    cbn [snd]. destruct (negb (truthy (Sales.cancelled r))); discriminate.
Qed.

(** X8.  The round trip the other way: restoring a cancelled sale and then
    cancelling it again, when the restoration is accepted, is accepted too,
    leaves every inventory row as it was and the sale cancelled. *)
Theorem uncancel_cancel_round_trip (sale_id : Z) d row :
  select_sale sale_id d = Some row ->
  Sales.cancelled row <> 0 ->
  snd (uncancel_sale_db sale_id d) = Sale_uncancelled_and_inventory_updated ->
  let d1 := fst (uncancel_sale_db sale_id d) in
  snd (cancel_sale_db sale_id d1) = Sale_cancelled_and_inventory_restored /\
  inventory (fst (cancel_sale_db sale_id d1)) = inventory d /\
  select_sale sale_id (fst (cancel_sale_db sale_id d1)) =
    Some (Sales.set_cancelled 1 row).
Proof.
  intros Hrow Hc. rewrite (uncancel_sale_db_cases _ _ _ Hrow Hc).
  destruct (select_item (Sales.item_id row) d) as [item_row|]; [|discriminate].
  destruct (Inventory.quantity item_row <? Sales.quantity row); [discriminate|].
  intros _. cbn [fst].
  set (d1 := update_cancelled 0 sale_id
               (update_inventory (sub_quantity (Sales.quantity row))
                  (Sales.item_id row) d)).
  assert (Hrow1 : select_sale sale_id d1 = Some (Sales.set_cancelled 0 row)).
  { subst d1. rewrite select_sale_eq, sales_update_cancelled.
    cbn [sales update_inventory]. rewrite select_where_update by reflexivity.
    now rewrite <- select_sale_eq, Hrow. }
  rewrite (cancel_sale_db_active _ _ _ Hrow1 eq_refl). cbn [fst snd].
  split; [reflexivity|]. split.
  - subst d1. cbn [Sales.quantity Sales.item_id Sales.set_cancelled].
    rewrite !inventory_update_inventory. cbn [inventory update_cancelled].
    rewrite inventory_update_inventory, update_where_compose by reflexivity.
    apply update_where_id. intros r _ _. apply sub_add_quantity.
  - rewrite (select_sale_after_cancelled 1 _ _ _ Hrow1).
    destruct row. reflexivity.
Qed.

End LedgerMore.

(** ** More on the catalogue *)

Section CatalogueMore.

Context {price : Type}.
Variable price_mul : price -> Z -> price.
Variable py_float : string -> option price.
Variable py_int : string -> option Z.
Variable isnan : price -> bool.

Implicit Types (d : db price) (r : Inventory.row price).

Lemma db_ext (d1 d2 : db price) :
  inventory d1 = inventory d2 -> sales d1 = sales d2 ->
  inventory_seq d1 = inventory_seq d2 -> sales_seq d1 = sales_seq d2 ->
  d1 = d2.
Proof. destruct d1, d2. cbn. congruence. Qed.

(** X9.  An item that is added with a quantity that fits an [INTEGER] and
    a price that is a number is found under its new id, with the name
    stripped and the values given; the id is larger than every id handed
    out before; every other look-up answers as before and the sales are
    not touched.  With any other quantity or price the insertion raises and
    the database is left as it was.  The three functions that add an item
    leave the same database. *)
Theorem added_item_is_found (name : string) (p : price) (quantity : Z)
    (image_path : option string) d :
  let new_id := next_id (inventory_seq d) (map Inventory.id (inventory d)) in
  let d' := add_item_with_image isnan name p quantity image_path d in
  (binds quantity = true -> isnan p = false ->
   select_item new_id d' =
     Some (Inventory.Row new_id (strip name) p quantity image_path 0) /\
   inventory_seq d < new_id /\
   (forall i, i <> new_id -> select_item i d' = select_item i d) /\
   sales d' = sales d) /\
  (binds quantity = false \/ isnan p = true ->
   d' = d /\
   exists e, pos_system.add_item isnan name p quantity d = (d, pos_system.Raised e)) /\
  add_item_db isnan name p quantity d = add_item_with_image isnan name p quantity None d /\
  fst (pos_system.add_item isnan name p quantity d) =
    add_item_with_image isnan name p quantity None d.
Proof.
  intros new_id d'. split; [|split; [|split]].
  - intros Hq Hp. subst d'. unfold add_item_with_image.
    rewrite (storable_insert_item_raises isnan p quantity Hq Hp).
    repeat split.
    + unfold insert_item. rewrite select_item_eq. cbn [inventory].
      exact (select_where_app_last Inventory.id (inventory d)
               (Inventory.Row new_id (strip name) p quantity image_path 0)
               (next_id_fresh _ _)).
    + exact (proj1 (next_id_above _ _)).
    + intros i Hi. unfold insert_item.
      rewrite !select_item_eq. cbn [inventory].
      apply select_where_app_new. cbn. subst new_id. congruence.
  - intros H. subst d'. unfold add_item_with_image, pos_system.add_item.
    destruct (insert_item_raises isnan p quantity) as [e|] eqn:E.
    + split; [reflexivity | now exists e].
    + exfalso. unfold insert_item_raises in E.
      destruct (binds quantity); [|discriminate]. cbn in E.
      destruct (isnan p); [discriminate|].
      destruct H; discriminate.
  - reflexivity.
  - unfold pos_system.add_item, add_item_with_image.
    now destruct (insert_item_raises isnan p quantity).
Qed.

Lemma set_favorite_twice (v w : Z) r : set_favorite w (set_favorite v r) = set_favorite w r.
Proof. reflexivity. Qed.

(** X10.  Toggling the favourite flag of an item that exists sets it to 0
    when it was not 0 and to 1 when it was 0, and touches no other column,
    no other item and no sale; under the primary key, toggling twice an
    item whose flag is 0 or 1 gives the database back. *)
Theorem toggle_favorite_twice (item_id : Z) d r :
  select_item item_id d = Some r ->
  let d1 := fst (toggle_favorite item_id d) in
  select_item item_id d1 =
    Some (set_favorite (if Inventory.favorite r =? 0 then 1 else 0) r) /\
  (forall i, i <> item_id -> select_item i d1 = select_item i d) /\
  sales d1 = sales d /\
  (NoDup (map Inventory.id (inventory d)) ->
   Inventory.favorite r = 0 \/ Inventory.favorite r = 1 ->
   fst (toggle_favorite item_id d1) = d).
Proof.
  intros Hr d1.
  assert (Hd1 : d1 = update_inventory
                      (set_favorite (if Inventory.favorite r =? 0 then 1 else 0))
                      item_id d).
  { subst d1. unfold toggle_favorite. rewrite Hr. cbn [fst]. unfold truthy.
    now destruct (Inventory.favorite r =? 0). }
  clearbody d1. subst d1.
  assert (H1 : select_item item_id
                 (update_inventory
                    (set_favorite (if Inventory.favorite r =? 0 then 1 else 0))
                    item_id d) =
               Some (set_favorite (if Inventory.favorite r =? 0 then 1 else 0) r)).
  { rewrite select_item_eq, inventory_update_inventory.
    rewrite select_where_update by reflexivity.
    now rewrite <- select_item_eq, Hr. }
  split; [exact H1|]. split; [|split; [reflexivity|]].
  - intros i Hi. rewrite !select_item_eq, inventory_update_inventory.
    now apply select_where_update_other.
  - intros Hnd Hflag. unfold toggle_favorite. rewrite H1. cbn [fst].
    apply db_ext; try reflexivity.
    rewrite !inventory_update_inventory.
    rewrite update_where_compose by reflexivity.
    apply update_where_id. intros x Hx Hk.
    rewrite select_item_eq in Hr.
    rewrite (select_where_unique Inventory.id item_id _ x Hnd Hx Hk) in Hr.
    injection Hr as ->. destruct r as [i n pr q im fv]. cbn in *.
    destruct Hflag as [->| ->]; reflexivity.
Qed.

End CatalogueMore.

(** ** What the requests keep true of every item *)

Section RowInvariant.

Context {price : Type}.
Variable price_mul : price -> Z -> price.
Variable py_float : string -> option price.
Variable py_int : string -> option Z.
Variable isnan : price -> bool.

(** A property of an inventory row that the writes of the handlers keep:
    a change of quantity, a flag set to 0 or 1, an edit to a stripped name
    that is not empty, and the insertion of a row with such a name. *)
Variable P : Inventory.row price -> Prop.
Hypothesis P_quantity : forall v r, P r -> P (Inventory.set_quantity v r).
Hypothesis P_favorite : forall v r, v = 0 \/ v = 1 -> P r -> P (set_favorite v r).
Hypothesis P_edited : forall n p q image_path r,
  strip n = n -> n <> "" -> P r -> P (edited (Some n) (Some p) (Some q) image_path r).
Hypothesis P_inserted : forall i n p q image_path,
  strip n = n -> n <> "" -> P (Inventory.Row i n p q image_path 0).

Implicit Types (d : db price).

Let kept d := Forall P (inventory d).

Lemma kept_update_quantity d (delta k : Z) :
  kept d ->
  kept (update_inventory (add_quantity delta) k d) /\
  kept (update_inventory (sub_quantity delta) k d).
Proof.
  intros H. split; unfold kept; rewrite inventory_update_inventory;
    (apply (Forall_update_where Inventory.id); [|exact H]);
    intros x _ _ Hx; now apply P_quantity.
Qed.

Lemma record_sale_db_kept item_id q now d :
  kept d -> kept (fst (record_sale_db price_mul item_id q now d)).
Proof.
  intros H. unfold record_sale_db.
  destruct (select_item item_id d); [|exact H].
  destruct (q <=? 0); [exact H|].
  destruct (Inventory.quantity r <? q); [exact H|].
  cbn [fst]. exact (proj2 (kept_update_quantity d q item_id H)).
Qed.

Lemma cancel_sale_db_kept sale_id d :
  kept d -> kept (fst (cancel_sale_db sale_id d)).
Proof.
  intros H. unfold cancel_sale_db.
  destruct (select_sale sale_id d); [|exact H].
  destruct (truthy (Sales.cancelled r)); [exact H|].
  cbn [fst].
  exact (proj1 (kept_update_quantity (update_cancelled 1 sale_id d) _ _ H)).
Qed.

Lemma uncancel_sale_db_kept sale_id d :
  kept d -> kept (fst (uncancel_sale_db sale_id d)).
Proof.
  intros H. unfold uncancel_sale_db.
  destruct (select_sale sale_id d); [|exact H].
  destruct (negb (truthy (Sales.cancelled r))); [exact H|].
  destruct (select_item (Sales.item_id r) d); [|exact H].
  destruct (Inventory.quantity r0 <? Sales.quantity r); [exact H|].
  cbn [fst]. exact (proj2 (kept_update_quantity d _ _ H)).
Qed.

Lemma delete_sale_db_kept sale_id d :
  kept d -> kept (fst (delete_sale_db sale_id d)).
Proof.
  intros H. unfold delete_sale_db.
  destruct (select_sale sale_id d); [|exact H].
  cbn [fst]. destruct (negb (truthy (Sales.cancelled r))); [|exact H].
  exact (proj1 (kept_update_quantity d _ _ H)).
Qed.

Lemma add_item_kept method form uuid_hex d :
  kept d -> kept (fst (add_item py_float py_int isnan method form uuid_hex d)).
Proof.
  intros H.
  assert (Hins : forall image_path p q,
            strip (form_name form) <> "" ->
            kept (add_item_with_image isnan (strip (form_name form)) p q image_path d)).
  { intros image_path p q Hn. unfold kept, add_item_with_image.
    destruct (insert_item_raises isnan p q); [exact H|]. unfold insert_item.
    cbn [inventory]. apply Forall_app. split; [exact H|].
    constructor; [|constructor].
    apply P_inserted; [apply strip_idempotent|].
    now rewrite strip_idempotent. }
  unfold add_item. destruct method; [exact H|].
  destruct (String.eqb_spec (strip (form_name form)) "") as [|Hn]; [exact H|].
  destruct (py_float (strip (form_price form))) as [p|]; [|exact H].
  destruct (py_int (strip (form_quantity form))) as [q|]; [|exact H].
  cbv zeta.
  assert (Hadd : forall image_path,
            kept (fst match insert_item_raises isnan p q with
                      | Some e => (d, Add_item_raised e)
                      | None =>
                          (add_item_with_image isnan (strip (form_name form)) p q
                             image_path d,
                           Item_added_successfully (strip (form_name form)))
                      end)).
  { intros image_path. specialize (Hins image_path p q Hn).
    destruct (insert_item_raises isnan p q); [exact H | exact Hins]. }
  destruct (form_image form) as [[|c f]|]; auto.
  destruct (negb (allowed_extension (lower (rsplit_dot_last (String c f)))));
    cbn [fst]; auto.
Qed.

Lemma edit_item_kept method item_id form uuid_hex d :
  kept d -> kept (fst (edit_item py_float py_int isnan method item_id form uuid_hex d)).
Proof.
  intros H.
  assert (Hupd : forall image_path p q,
            strip (form_name form) <> "" ->
            kept (update_item_db isnan item_id (Some (strip (form_name form))) (Some p)
                    (Some q) image_path d)).
  { intros image_path p q Hn. unfold kept, update_item_db.
    destruct (set_clause (Some (strip (form_name form))) (Some p) (Some q)
                image_path) eqn:E; [exact H|].
    destruct (update_item_raises isnan item_id (Some p) (Some q) d); [exact H|].
    rewrite <- E, inventory_update_inventory.
    apply (Forall_update_where Inventory.id); [|exact H].
    intros x _ _ Hx. rewrite apply_set_clause_edited.
    apply P_edited; auto. apply strip_idempotent. }
  unfold edit_item. destruct (select_item item_id d); [|exact H].
  destruct method; [exact H|].
  destruct (String.eqb_spec (strip (form_name form)) "") as [|Hn]; [exact H|].
  destruct (py_float (strip (form_price form))) as [p|]; [|exact H].
  destruct (py_int (strip (form_quantity form))) as [q|]; [|exact H].
  cbv zeta.
  assert (Hedit : forall image_path,
            kept (fst match update_item_raises isnan item_id (Some p) (Some q) d with
                      | Some e => (d, @Edit_item_raised price e)
                      | None =>
                          (update_item_db isnan item_id
                             (Some (strip (form_name form))) (Some p) (Some q)
                             image_path d,
                           Item_updated_successfully)
                      end)).
  { intros image_path. specialize (Hupd image_path p q Hn).
    destruct (update_item_raises isnan item_id (Some p) (Some q) d);
      [exact H | exact Hupd]. }
  destruct (form_image form) as [[|c f]|]; auto.
  destruct (negb (allowed_extension (lower (rsplit_dot_last (String c f)))));
    cbn [fst]; auto.
Qed.

Lemma toggle_favorite_kept item_id d :
  kept d -> kept (fst (toggle_favorite item_id d)).
Proof.
  intros H. unfold toggle_favorite.
  destruct (select_item item_id d); [|exact H].
  cbn [fst]. unfold kept. rewrite inventory_update_inventory.
  apply (Forall_update_where Inventory.id); [|exact H].
  intros x _ _ Hx. apply P_favorite; [|exact Hx].
  destruct (truthy (Inventory.favorite r)); auto.
Qed.

Lemma checkout_loop_kept clock (c : cart) : forall k messages d,
  kept d -> kept (fst (checkout_loop price_mul py_int clock k c messages d)).
Proof.
  induction c as [|[key qty] c IH]; intros k messages d H; simpl; [exact H|].
  destruct (py_int key) as [i|]; [|exact H].
  pose proof (record_sale_db_kept i qty (clock k) d H) as H1.
  destruct (record_sale_db price_mul i qty (clock k) d) as [d1 msg].
  now apply IH.
Qed.

Lemma serve_kept (st : db price * cart) (r : request) :
  kept (fst st) -> kept (fst (serve price_mul py_float py_int isnan st r)).
Proof.
  destruct st as [d c]. intros H.
  destruct r as [q | item_id quantity now | method form uuid_hex |
                 | method item_id form uuid_hex | item_id quantity
                 | item_id action quantity | clk | | item_id | sale_id
                 | admin_code sale_id | admin_code sale_id];
    cbn [serve fst]; auto.
  - unfold sell. destruct (int_of_field py_int item_id) as [i|]; [|exact H].
    destruct (int_of_field py_int quantity) as [n|]; [|exact H].
    pose proof (record_sale_db_kept i n now d H) as H1.
    now destruct (record_sale_db price_mul i n now d).
  - now apply add_item_kept.
  - now apply edit_item_kept.
  - unfold checkout. destruct c as [|line c]; [exact H|].
    pose proof (checkout_loop_kept clk (line :: c) 0%nat [] d H) as H1.
    destruct (checkout_loop price_mul py_int clk 0 (line :: c) [] d)
      as [d' [messages|]]; exact H1.
  - now apply toggle_favorite_kept.
  - unfold cancel_sale. pose proof (cancel_sale_db_kept sale_id d H) as H1.
    now destruct (cancel_sale_db sale_id d).
  - unfold delete_sale.
    destruct (negb (strip admin_code =? ADMIN_CODE)%string); [exact H|].
    pose proof (delete_sale_db_kept sale_id d H) as H1.
    now destruct (delete_sale_db sale_id d).
  - unfold uncancel_sale.
    destruct (negb (strip admin_code =? ADMIN_CODE)%string); [exact H|].
    pose proof (uncancel_sale_db_kept sale_id d H) as H1.
    now destruct (uncancel_sale_db sale_id d).
Qed.

Lemma serve_all_kept (requests : list request) : forall st,
  kept (fst st) -> kept (fst (serve_all price_mul py_float py_int isnan requests st)).
Proof.
  unfold serve_all.
  induction requests as [|r requests IH]; intros st H; simpl; [exact H|].
  apply IH. now apply serve_kept.
Qed.

End RowInvariant.

Section NamesAndFlags.

Context {price : Type}.
Variable price_mul : price -> Z -> price.
Variable py_float : string -> option price.
Variable py_int : string -> option Z.
Variable isnan : price -> bool.

(** X11.  No request leaves an item without a name: in a catalogue where
    every name is stripped and not empty, the names are so after any
    sequence of requests, for the two handlers that write a name refuse one
    that is empty once stripped. *)
Theorem names_stay_given (requests : list request) (d : db price) (c : cart) :
  names_ok d ->
  names_ok (fst (serve_all price_mul py_float py_int isnan requests (d, c))).
Proof.
  intros H. unfold names_ok.
  apply (serve_all_kept price_mul py_float py_int isnan
           (fun r => Inventory.name r <> "" /\ strip (Inventory.name r) = Inventory.name r));
    [ intros v r Hr; exact Hr
    | intros v r _ Hr; exact Hr
    | intros n p q image_path r Hs Hn _; cbn; rewrite Hs; now split
    | intros i n p q image_path Hs Hn; cbn; now split
    | exact H ].
Qed.

(** X12.  The favourite flag is a flag: in a catalogue where every flag is
    0 or 1, it is so after any sequence of requests. *)
Theorem favorites_stay_flags (requests : list request) (d : db price) (c : cart) :
  favorites_ok d ->
  favorites_ok (fst (serve_all price_mul py_float py_int isnan requests (d, c))).
Proof.
  intros H. unfold favorites_ok.
  apply (serve_all_kept price_mul py_float py_int isnan
           (fun r => Inventory.favorite r = 0 \/ Inventory.favorite r = 1));
    [ intros v r Hr; exact Hr
    | intros v r Hv _; exact Hv
    | intros n p q image_path r _ _ Hr; exact Hr
    | intros i n p q image_path _ _; now left
    | exact H ].
Qed.

End NamesAndFlags.

(** ** The catalogue listing *)

Section CatalogueListing.

Context {price : Type}.

Implicit Types (d : db price) (r : Inventory.row price).

Lemma nocase_leb_total (a b : string) :
  nocase_leb a b = true \/ nocase_leb b a = true.
Proof.
  unfold nocase_leb. cbv zeta.
  rewrite (String.eqb_sym (lower (c_string b))).
  destruct (lower (c_string a) =? lower (c_string b))%string.
  - destruct (Nat.le_ge_cases (String.length a) (String.length b));
      [left | right]; now apply Nat.leb_le.
  - apply String.leb_total.
Qed.

Lemma nocase_leb_trans (a b c : string) :
  nocase_leb a b = true -> nocase_leb b c = true -> nocase_leb a c = true.
Proof.
  unfold nocase_leb. cbv zeta.
  destruct (String.eqb_spec (lower (c_string a)) (lower (c_string b))) as [Eab|Nab].
  - rewrite Eab.
    destruct (lower (c_string b) =? lower (c_string c))%string; [|auto].
    rewrite !Nat.leb_le. lia.
  - destruct (String.eqb_spec (lower (c_string b)) (lower (c_string c))) as [Ebc|Nbc].
    + rewrite <- Ebc. apply String.eqb_neq in Nab. rewrite Nab. auto.
    + intros Hab Hbc.
      destruct (String.eqb_spec (lower (c_string a)) (lower (c_string c))) as [Eac|_].
      * exfalso. apply Nab. rewrite <- Eac in Hbc.
        now apply String.leb_antisym.
      * eapply string_leb_trans; eauto.
Qed.

(** On texts without NUL the order is the order of the folded texts. *)
Lemma nocase_leb_lower (a b : string) :
  c_string a = a -> c_string b = b ->
  nocase_leb a b = true -> (lower a <=? lower b)%string = true.
Proof.
  unfold nocase_leb. cbv zeta. intros -> ->.
  destruct (String.eqb_spec (lower a) (lower b)) as [E|_]; [|auto].
  intros _. rewrite E.
  destruct (String.leb_total (lower b) (lower b)); assumption.
Qed.

Lemma favorite_name_leb_iff (a b : Inventory.row price) :
  favorite_name_leb a b = true <->
  Inventory.favorite b < Inventory.favorite a \/
  (Inventory.favorite a = Inventory.favorite b /\
   nocase_leb (Inventory.name a) (Inventory.name b) = true).
Proof.
  unfold favorite_name_leb.
  rewrite orb_true_iff, andb_true_iff, Z.ltb_lt, Z.eqb_eq. reflexivity.
Qed.

Lemma favorite_name_leb_total (a b : Inventory.row price) :
  favorite_name_leb a b = true \/ favorite_name_leb b a = true.
Proof.
  rewrite !favorite_name_leb_iff.
  destruct (Z.lt_total (Inventory.favorite a) (Inventory.favorite b))
    as [H|[H|H]]; try tauto.
  destruct (nocase_leb_total (Inventory.name a) (Inventory.name b));
    [left | right]; right; split; auto.
Qed.

Lemma favorite_name_leb_trans (a b c : Inventory.row price) :
  favorite_name_leb a b = true -> favorite_name_leb b c = true ->
  favorite_name_leb a c = true.
Proof.
  rewrite !favorite_name_leb_iff.
  intros [Hab|[Hab Nab]] [Hbc|[Hbc Nbc]]; try (left; lia).
  right. split; [lia|]. eapply nocase_leb_trans; eauto.
Qed.

Lemma StronglySorted_weaken {A : Type} (R S : A -> A -> Prop) (l : list A) :
  (forall a b, R a b -> S a b) -> StronglySorted R l -> StronglySorted S l.
Proof.
  intros HRS H. induction H as [|a l _ IH Ha]; constructor; [exact IH|].
  revert Ha. apply Forall_impl. apply HRS.
Qed.

(** *** [LIKE] *)

Lemma like_characters_percent (p s : list N) :
  like_characters (37%N :: p) s =
  like_characters p s ||
  match s with
  | [] => false
  | _ :: s' => like_characters (37%N :: p) s'
  end.
Proof. destruct s; reflexivity. Qed.

Lemma like_characters_one (c : N) (p s : list N) :
  (c =? 37)%N = false ->
  like_characters (c :: p) s =
  match s with
  | [] => false
  | c' :: s' => ((c =? 95)%N || eq_nocase c c') && like_characters p s'
  end.
Proof. intros H. cbn [like_characters]. now rewrite H. Qed.

Lemma like_characters_any (s : list N) : like_characters [37%N] s = true.
Proof.
  induction s as [|c s IH]; rewrite like_characters_percent; [reflexivity|].
  now rewrite IH, orb_true_r.
Qed.

Lemma like_characters_percent_iff (p s : list N) :
  like_characters (37%N :: p) s = true <->
  exists before rest, s = (before ++ rest)%list /\ like_characters p rest = true.
Proof.
  induction s as [|c s IH]; rewrite like_characters_percent, orb_true_iff.
  - split.
    + intros [H|H]; [|discriminate]. now exists [], [].
    + intros [before [rest [E H]]]. left.
      symmetry in E. apply app_eq_nil in E. destruct E as [_ ->]. exact H.
  - rewrite IH. split.
    + intros [H|[before [rest [E H]]]].
      * now exists [], (c :: s).
      * exists (c :: before), rest. cbn. now rewrite E.
    + intros [[|c' before] [rest [E H]]].
      * left. cbn in E. now subst.
      * right. cbn in E. injection E as -> ->. now exists before, rest.
Qed.

Lemma like_characters_plain_iff (t : list N) : forall p s,
  Forall (fun c => c <> 37%N /\ c <> 95%N) t ->
  (like_characters (t ++ p) s = true <->
   exists found rest,
     s = (found ++ rest)%list /\
     Forall2 (fun c c' => eq_nocase c c' = true) t found /\
     like_characters p rest = true).
Proof.
  induction t as [|c t IH]; intros p s Hplain.
  - cbn [app]. split.
    + intros H. exists [], s. repeat split; [constructor | exact H].
    + intros [found [rest [E [Hl H]]]]. inversion Hl. subst. exact H.
  - inversion Hplain as [|? ? [Hpct Hone] Ht]. subst.
    apply N.eqb_neq in Hpct, Hone.
    cbn [app]. rewrite (like_characters_one c _ s Hpct), Hone. cbn [orb].
    destruct s as [|c' s].
    + split; [discriminate|].
      intros [found [rest [E [Hl _]]]]. inversion Hl. subst. discriminate.
    + rewrite andb_true_iff, (IH p s Ht). split.
      * intros [Hcc [found [rest [E [Hl H]]]]].
        exists (c' :: found), rest. cbn. rewrite E.
        repeat split; [now constructor | exact H].
      * intros [found [rest [E [Hl H]]]].
        inversion Hl as [|? x ? found' Hcc Hl']. subst.
        cbn in E. injection E as -> ->.
        split; [exact Hcc|]. now exists found', rest.
Qed.

Lemma utf8_value_high (c : N) : (128 <= utf8_value c)%N.
Proof.
  unfold utf8_value.
  destruct (N.ltb_spec c 128) as [H|H]; cbn [orb]; [lia|].
  destruct (_ || _); lia.
Qed.

Lemma utf8_read_plain (s : string) : forall cur,
  plain s = true ->
  Forall (fun c => c <> 37%N /\ c <> 95%N) (utf8_read cur s).
Proof.
  induction s as [|b s IH]; intros cur Hplain.
  - destruct cur as [c|]; cbn; [|constructor].
    constructor; [|constructor].
    pose proof (utf8_value_high c). lia.
  - cbn [plain] in Hplain.
    apply andb_true_iff in Hplain. destruct Hplain as [Hb Hplain].
    apply andb_true_iff in Hb. destruct Hb as [Hb _].
    apply andb_true_iff in Hb. destruct Hb as [Hpct Hone].
    assert (Hn : N_of_ascii b <> 37%N /\ N_of_ascii b <> 95%N).
    { split; intros E.
      - assert (b = "%"%char) by (rewrite <- (ascii_N_embedding b), E; reflexivity).
        subst. discriminate.
      - assert (b = "_"%char) by (rewrite <- (ascii_N_embedding b), E; reflexivity).
        subst. discriminate. }
    assert (Hstart : Forall (fun c => c <> 37%N /\ c <> 95%N)
              (if (192 <=? N_of_ascii b)%N
               then utf8_read (Some (utf8_lead (N_of_ascii b))) s
               else N_of_ascii b :: utf8_read None s)).
    { destruct (192 <=? N_of_ascii b)%N; [now apply IH|].
      constructor; [exact Hn | now apply IH]. }
    cbn [utf8_read]. destruct cur as [c|]; [|exact Hstart].
    destruct (N.land (N_of_ascii b) 192 =? 128)%N; [now apply IH|].
    constructor; [|exact Hstart].
    pose proof (utf8_value_high c). lia.
Qed.

Lemma c_string_plain (s : string) : plain s = true -> c_string s = s.
Proof.
  induction s as [|b s IH]; [reflexivity|]. cbn [plain c_string]. intros H.
  apply andb_true_iff in H. destruct H as [Hb H].
  apply andb_true_iff in Hb. destruct Hb as [_ Hnul].
  apply negb_true_iff in Hnul. now rewrite Hnul, IH.
Qed.

Lemma c_string_app_plain (s u : string) :
  plain s = true -> c_string (s ++ u) = s ++ c_string u.
Proof.
  induction s as [|b s IH]; [reflexivity|]. cbn [plain c_string append]. intros H.
  apply andb_true_iff in H. destruct H as [Hb H].
  apply andb_true_iff in Hb. destruct Hb as [_ Hnul].
  apply negb_true_iff in Hnul. now rewrite Hnul, IH.
Qed.

Lemma utf8_read_percent (s : string) : forall cur,
  utf8_read cur (s ++ "%") = (utf8_read cur s ++ [37%N])%list.
Proof.
  induction s as [|b s IH]; intros cur.
  - destruct cur; reflexivity.
  - cbn [append utf8_read]. cbv zeta.
    destruct cur as [c|].
    + destruct (N.land (N_of_ascii b) 192 =? 128)%N; [apply IH|].
      destruct (192 <=? N_of_ascii b)%N; cbn [app]; now rewrite IH.
    + destruct (192 <=? N_of_ascii b)%N; cbn [app]; now rewrite IH.
Qed.

Lemma characters_pattern (t : string) :
  plain t = true ->
  characters ("%" ++ t ++ "%") = (37%N :: characters t ++ [37%N])%list.
Proof.
  intros H. unfold characters.
  change ("%" ++ t ++ "%") with (String "%" (t ++ "%")).
  cbn [c_string]. change (N_of_ascii "%" =? 0)%N with false. cbn iota.
  rewrite (c_string_app_plain t "%" H), (c_string_plain t H).
  change (c_string "%") with "%".
  change (utf8_read None (String "%" (t ++ "%")))
    with (37%N :: utf8_read None (t ++ "%")).
  now rewrite utf8_read_percent.
Qed.

Lemma like_contains (t s : string) :
  plain t = true ->
  (like ("%" ++ t ++ "%") s = true <-> contains_nocase t s).
Proof.
  intros Hplain. unfold like, contains_nocase.
  rewrite (characters_pattern t Hplain), like_characters_percent_iff.
  assert (Ht : Forall (fun c => c <> 37%N /\ c <> 95%N) (characters t)).
  { unfold characters. rewrite (c_string_plain t Hplain).
    now apply utf8_read_plain. }
  split.
  - intros [before [rest [E H]]].
    apply (like_characters_plain_iff _ [37%N] rest Ht) in H.
    destruct H as [found [after [E' [Hl _]]]].
    exists before, found, after. now rewrite <- E'.
  - intros [before [found [after [E Hl]]]].
    exists before, (found ++ after)%list. split; [exact E|].
    apply (like_characters_plain_iff _ [37%N] _ Ht).
    exists found, after. repeat split; auto. apply like_characters_any.
Qed.

(** X13.  The catalogue listing is a rearrangement of the rows it selects,
    all the rows of the inventory when there is no search term or an empty
    one, and it is in order: a row comes before every row with a smaller
    favourite flag, and, among rows with the same flag, before every row
    whose name is greater under [COLLATE NOCASE]. *)
Theorem list_inventory_in_order (search_term : option string) d :
  Permutation (list_inventory search_term d)
    match field_given search_term with
    | Some term =>
        filter (fun r => like ("%" ++ term ++ "%") (Inventory.name r)) (inventory d)
    | None => inventory d
    end /\
  StronglySorted
    (fun a b =>
       Inventory.favorite b < Inventory.favorite a \/
       (Inventory.favorite a = Inventory.favorite b /\
        nocase_leb (Inventory.name a) (Inventory.name b) = true))
    (list_inventory search_term d).
Proof.
  split.
  - unfold list_inventory. rewrite order_by_Permutation.
    destruct search_term as [[|c t]|]; reflexivity.
  - unfold list_inventory.
    eapply StronglySorted_weaken;
      [| apply (order_by_StronglySorted favorite_name_leb
                  favorite_name_leb_total favorite_name_leb_trans)].
    intros a b H. now apply favorite_name_leb_iff.
Qed.

(** X14.  With a search term that is not empty and has neither [%] nor
    [_], the listing holds exactly the items whose name contains the term,
    upper and lower case letters of the ASCII range taken for the same. *)
Theorem list_inventory_searches_names (c : ascii) (t : string) d r :
  plain (String c t) = true ->
  (In r (list_inventory (Some (String c t)) d) <->
   In r (inventory d) /\ contains_nocase (String c t) (Inventory.name r)).
Proof.
  intros Hplain. unfold list_inventory.
  split.
  - intros H. apply (Permutation_in _ (order_by_Permutation _ _)) in H.
    apply filter_In in H. destruct H as [Hin Hl].
    split; [exact Hin|]. now apply (like_contains _ _ Hplain).
  - intros [Hin Hc].
    apply (Permutation_in _ (Permutation_sym (order_by_Permutation _ _))).
    apply filter_In. split; [exact Hin|]. now apply (like_contains _ _ Hplain).
Qed.

End CatalogueListing.

(** ** The home page *)

Section HomePage.

Context {price : Type}.
Variable price_mul : price -> Z -> price.
Variable price_add : price -> price -> price.
Variable price_zero : price.
Variable py_int : string -> option Z.

Implicit Types (d : db price) (r : Inventory.row price).

Lemma favorites_first_split (l : list (Inventory.row price)) :
  StronglySorted (fun a b => favorite_name_leb a b = true) l ->
  Forall (fun r => 0 <= Inventory.favorite r) l ->
  (filter (fun r => truthy (Inventory.favorite r)) l ++
   filter (fun r => negb (truthy (Inventory.favorite r))) l)%list = l.
Proof.
  intros Hs. induction Hs as [|a l Hs IH Ha]; intros Hpos; [reflexivity|].
  inversion Hpos as [|? ? Ha0 Hl]. subst. cbn [filter].
  destruct (truthy (Inventory.favorite a)) eqn:Ht; cbn [negb].
  - cbn. now rewrite IH.
  - apply truthy_false in Ht.
    assert (Hzero : Forall (fun r => Inventory.favorite r = 0) l).
    { rewrite Forall_forall in *. intros r Hr.
      specialize (Ha r Hr). apply favorite_name_leb_iff in Ha.
      specialize (Hl r Hr). cbn in Hl. lia. }
    assert (Hnone : filter (fun r => truthy (Inventory.favorite r)) l = []).
    { clear - Hzero. induction Hzero as [|r l Hr _ IH]; [reflexivity|].
      cbn. now rewrite Hr, IH. }
    assert (Hall : filter (fun r => negb (truthy (Inventory.favorite r))) l = l).
    { clear - Hzero. induction Hzero as [|r l Hr _ IH]; [reflexivity|].
      cbn. now rewrite Hr, IH. }
    now rewrite Hnone, Hall.
Qed.

Lemma list_inventory_rows (search_term : option string) d r :
  In r (list_inventory search_term d) -> In r (inventory d).
Proof.
  unfold list_inventory. intros H.
  apply (Permutation_in _ (order_by_Permutation _ _)) in H.
  destruct search_term as [[|c t]|]; auto.
  now apply filter_In in H.
Qed.

(** X15.  The home page shows every item of the listing once, the
    favourites first: in a catalogue without negative favourite flags, the
    favourites followed by the other items are the listing for the
    stripped search term, in its order. *)
Theorem index_shows_favorites_first (q : string) (c : cart) d
    favorites items cart_items cart_total search_term :
  Forall (fun r => 0 <= Inventory.favorite r) (inventory d) ->
  index price_mul py_int price_add price_zero q c d =
    Index_page favorites items cart_items cart_total search_term ->
  search_term = strip q /\
  (favorites ++ items)%list = list_inventory (Some search_term) d /\
  Forall (fun r => Inventory.favorite r <> 0) favorites /\
  Forall (fun r => Inventory.favorite r = 0) items.
Proof.
  intros Hpos Hpage.
  assert (Hfields :
    search_term = strip q /\
    favorites = filter (fun r => truthy (Inventory.favorite r))
                  (list_inventory (Some (strip q)) d) /\
    items = filter (fun r => negb (truthy (Inventory.favorite r)))
              (list_inventory (Some (strip q)) d)).
  { unfold index in Hpage. destruct c as [|line c].
    - injection Hpage as <- <- _ _ <-. auto.
    - destruct (cart_item_ids py_int (line :: c)) as [ids|]; [|discriminate].
      destruct (forallb binds ids); [|discriminate].
      destruct (cart_details _ _ _ _ _ _ _) as [[ci ct]|]; [|discriminate].
      injection Hpage as <- <- _ _ <-. auto. }
  destruct Hfields as (-> & -> & ->). split; [reflexivity|]. split; [|split].
  - apply favorites_first_split.
    + unfold list_inventory.
      apply (order_by_StronglySorted favorite_name_leb
               favorite_name_leb_total favorite_name_leb_trans).
    + apply Forall_forall. intros r Hr. apply list_inventory_rows in Hr.
      rewrite Forall_forall in Hpos. now apply Hpos.
  - apply Forall_forall. intros r Hr. apply filter_In in Hr.
    destruct Hr as [_ Ht]. intros E. now rewrite (truthy_0 _ E) in Ht.
  - apply Forall_forall. intros r Hr. apply filter_In in Hr.
    destruct Hr as [_ Ht]. apply negb_true_iff in Ht. now apply truthy_false.
Qed.

End HomePage.

(** ** The cart on the home page *)

Section CartSummary.

Context {price : Type}.
Variable price_mul : price -> Z -> price.
Variable price_add : price -> price -> price.
Variable price_zero : price.
Variable py_int : string -> option Z.

Implicit Types (d : db price) (r : Inventory.row price).

Lemma NoDup_keys_filter {A : Type} (key : A -> Z) (f : A -> bool) (l : list A) :
  NoDup (map key l) -> NoDup (map key (filter f l)).
Proof.
  induction l as [|x l IH]; simpl; [auto|].
  intros Hnd. apply NoDup_cons_iff in Hnd. destruct Hnd as [Hx Hnd].
  destruct (f x); simpl; [|auto].
  constructor; [|auto].
  intros Hin. apply Hx. apply in_map_iff in Hin.
  destruct Hin as [y [Hy Hin]]. apply filter_In in Hin.
  apply in_map_iff. exists y. tauto.
Qed.

Lemma select_where_rev {A : Type} (key : A -> Z) (k : Z) (l : list A) :
  NoDup (map key l) ->
  select_where key k (rev l) = select_where key k l.
Proof.
  intros Hnd. destruct (select_where key k l) as [x|] eqn:E.
  - apply select_where_In in E. destruct E as [Hin Hk].
    apply select_where_unique; [|now apply in_rev in Hin | exact Hk].
    rewrite map_rev. now apply NoDup_rev.
  - destruct (select_where key k (rev l)) as [y|] eqn:E'; [|reflexivity].
    apply select_where_In in E'. destruct E' as [Hin Hk].
    apply in_rev in Hin.
    exfalso. exact (select_where_absent_keys key k l E y Hin Hk).
Qed.

Lemma select_where_filter {A : Type} (key : A -> Z) (f : A -> bool) (k : Z)
    (l : list A) :
  (forall x, key x = k -> f x = true) ->
  select_where key k (filter f l) = select_where key k l.
Proof.
  intros Hf. unfold select_where.
  induction l as [|x l IH]; simpl; [reflexivity|].
  destruct (Z.eqb_spec (key x) k) as [E|E].
  - rewrite (Hf x E). simpl. now rewrite (proj2 (Z.eqb_eq _ _) E).
  - destruct (f x); simpl; [|exact IH].
    now rewrite (proj2 (Z.eqb_neq _ _) E).
Qed.

Lemma items_map_get_select (item_ids : list Z) (iid : Z) d :
  NoDup (map Inventory.id (inventory d)) ->
  In iid item_ids ->
  items_map_get item_ids iid d = select_item iid d.
Proof.
  intros Hnd Hin. unfold items_map_get.
  change (select_where Inventory.id iid
            (rev (filter (fun r => existsb (Z.eqb (Inventory.id r)) item_ids)
                         (inventory d))) = select_item iid d).
  rewrite select_where_rev by now apply NoDup_keys_filter.
  rewrite select_where_filter; [reflexivity|].
  intros x Hx. apply existsb_exists. exists iid. split; [exact Hin|].
  now apply Z.eqb_eq.
Qed.

Lemma cart_details_summary (item_ids : list Z) d (lines : list (Z * Z)) :
  NoDup (map Inventory.id (inventory d)) ->
  (forall line, In line lines -> In (fst line) item_ids) ->
  Forall (fun line => converts (snd line) = true) lines ->
  forall cart_items cart_total,
  cart_details price_mul price_add item_ids lines d cart_items cart_total =
  Some ((cart_items ++ cart_summary price_mul lines d)%list,
        fold_left price_add (map cart_item_total (cart_summary price_mul lines d))
                  cart_total).
Proof.
  intros Hnd. induction lines as [|[iid qty] lines IH]; intros Hin Hconv acc tot.
  - cbn. now rewrite app_nil_r.
  - inversion Hconv as [|? ? Hq Hrest]. subst. cbn [snd] in Hq.
    cbn [cart_details]. rewrite items_map_get_select; auto.
    2:{ apply (Hin (iid, qty)). now left. }
    unfold cart_summary. cbn [flat_map fst snd].
    fold (cart_summary price_mul lines d).
    destruct (select_item iid d) as [r|].
    + rewrite Hq, IH by (auto; intros line Hl; apply Hin; now right).
      cbn. now rewrite <- app_assoc.
    + rewrite IH by (auto; intros line Hl; apply Hin; now right). reflexivity.
Qed.

Lemma cart_details_raises (item_ids : list Z) d (lines : list (Z * Z)) :
  NoDup (map Inventory.id (inventory d)) ->
  (forall line, In line lines -> In (fst line) item_ids) ->
  Exists (fun line => select_item (fst line) d <> None /\
                      converts (snd line) = false) lines ->
  forall cart_items cart_total,
  cart_details price_mul price_add item_ids lines d cart_items cart_total = None.
Proof.
  intros Hnd. induction lines as [|[iid qty] lines IH]; intros Hin Hex acc tot.
  - inversion Hex.
  - cbn [cart_details]. rewrite items_map_get_select; auto.
    2:{ apply (Hin (iid, qty)). now left. }
    inversion Hex as [? ? [Hitem Hq]|? ? Hrest]; subst; cbn [fst snd] in *.
    + destruct (select_item iid d); [now rewrite Hq | contradiction].
    + assert (Hin' : forall line, In line lines -> In (fst line) item_ids)
        by (intros line Hl; apply Hin; now right).
      destruct (select_item iid d); [destruct (converts qty)|]; auto.
Qed.

Lemma cart_item_ids_combine (c : cart) (ids : list Z) :
  cart_item_ids py_int c = Some ids ->
  forall line, In line (combine ids (map snd c)) -> In (fst line) ids.
Proof.
  intros _ [i q] H. now apply in_combine_l in H.
Qed.

Lemma Forall_combine_r {A B : Type} (P : B -> Prop) (l : list A) (l' : list B) :
  Forall P l' -> Forall (fun line => P (snd line)) (combine l l').
Proof.
  intros H. apply Forall_forall. intros [a b] Hin.
  apply in_combine_r in Hin. rewrite Forall_forall in H. now apply H.
Qed.

(** X16.  Under the primary key of the inventory, for a cart whose keys
    [int] reads as ids that fit an [INTEGER] and whose quantities convert
    to a float, the home page shows one entry for each line of the cart
    whose item is in the inventory, in the order of the cart, with the name
    and the price the item has now and the total price times quantity; a
    line whose item is gone is left out; and the total of the cart is the
    sum of the totals shown.  When the cart has a line for an item of the
    inventory with a quantity that does not convert to a float, the page
    raises instead. *)
Theorem index_cart_summary (q : string) (c : cart) (ids : list Z) d :
  NoDup (map Inventory.id (inventory d)) ->
  cart_item_ids py_int c = Some ids ->
  Forall (fun i => binds i = true) ids ->
  (Forall (fun line => converts (snd line) = true) c ->
   exists favorites items,
     index price_mul py_int price_add price_zero q c d =
     Index_page favorites items
       (cart_summary price_mul (combine ids (map snd c)) d)
       (fold_left price_add
          (map cart_item_total (cart_summary price_mul (combine ids (map snd c)) d))
          price_zero)
       (strip q)) /\
  (Exists (fun line => select_item (fst line) d <> None /\
                       converts (snd line) = false)
          (combine ids (map snd c)) ->
   index price_mul py_int price_add price_zero q c d = Index_OverflowError).
Proof.
  intros Hnd Hids Hbinds.
  assert (Hb : forallb binds ids = true).
  { apply forallb_forall. intros i Hi. rewrite Forall_forall in Hbinds. auto. }
  split.
  - intros Hconv. unfold index. do 2 eexists.
    destruct c as [|line c].
    + cbn in Hids. injection Hids as <-. reflexivity.
    + rewrite Hids, Hb.
      rewrite (cart_details_summary ids d _ Hnd
                 (cart_item_ids_combine _ _ Hids)
                 (Forall_combine_r (fun v => converts v = true) ids _
                    (proj2 (Forall_map snd (fun v => converts v = true) _) Hconv))
                 [] price_zero).
      reflexivity.
  - intros Hex. unfold index. destruct c as [|line c].
    + cbn in Hids. injection Hids as <-. inversion Hex.
    + rewrite Hids, Hb.
      now rewrite (cart_details_raises ids d _ Hnd
                     (cart_item_ids_combine _ _ Hids) Hex [] price_zero).
Qed.

End CartSummary.

(** ** The session cart *)

Section CartDict.

Variable py_int : string -> option Z.

Implicit Types (c : cart) (k key : string).

Lemma cart_get_set_same k (v : Z) c : cart_get k (cart_set k v c) = Some v.
Proof.
  induction c as [|[k' v'] c IH]; cbn.
  - now rewrite String.eqb_refl.
  - destruct (String.eqb_spec k' k) as [->|Hne]; cbn.
    + now rewrite String.eqb_refl.
    + apply String.eqb_neq in Hne. now rewrite Hne.
Qed.

Lemma cart_get_set_other k k' (v : Z) c :
  k' <> k -> cart_get k' (cart_set k v c) = cart_get k' c.
Proof.
  intros Hne. induction c as [|[k0 v0] c IH]; cbn.
  - apply not_eq_sym in Hne. apply String.eqb_neq in Hne. now rewrite Hne.
  - destruct (String.eqb_spec k0 k) as [->|Hk]; cbn.
    + apply not_eq_sym in Hne. apply String.eqb_neq in Hne. now rewrite Hne.
    + now rewrite IH.
Qed.

Lemma cart_get_None k c : cart_get k c = None <-> ~ In k (map fst c).
Proof.
  induction c as [|[k' v'] c IH]; cbn; [tauto|].
  destruct (String.eqb_spec k' k) as [->|Hne].
  - split; [discriminate | intros H; exfalso; apply H; now left].
  - rewrite IH. tauto.
Qed.

Lemma cart_set_keys k (v : Z) c :
  map fst (cart_set k v c) =
  match cart_get k c with
  | Some _ => map fst c
  | None => (map fst c ++ [k])%list
  end.
Proof.
  induction c as [|[k' v'] c IH]; cbn; [reflexivity|].
  destruct (String.eqb_spec k' k) as [->|Hne]; cbn; [reflexivity|].
  rewrite IH. now destruct (cart_get k c).
Qed.

Lemma cart_pop_In k c (line : string * Z) :
  In line (cart_pop k c) -> In line c.
Proof.
  induction c as [|[k' v'] c IH]; cbn; [auto|].
  destruct (String.eqb k' k); cbn; [auto|]. intros [H|H]; auto.
Qed.

Lemma cart_pop_NoDup k c : NoDup (map fst c) -> NoDup (map fst (cart_pop k c)).
Proof.
  induction c as [|[k' v'] c IH]; cbn; [auto|].
  intros Hnd. apply NoDup_cons_iff in Hnd. destruct Hnd as [Hk Hnd].
  destruct (String.eqb k' k); cbn; [exact Hnd|].
  constructor; [|auto]. intros Hin. apply Hk.
  apply in_map_iff in Hin. destruct Hin as [line [E Hin]].
  apply in_map_iff. exists line. split; [exact E|].
  now apply cart_pop_In in Hin.
Qed.

Lemma cart_get_pop_same k c :
  NoDup (map fst c) -> cart_get k (cart_pop k c) = None.
Proof.
  induction c as [|[k' v'] c IH]; cbn; [reflexivity|].
  intros Hnd. apply NoDup_cons_iff in Hnd. destruct Hnd as [Hk Hnd].
  destruct (String.eqb_spec k' k) as [->|Hne]; cbn.
  - now apply cart_get_None.
  - apply String.eqb_neq in Hne. rewrite Hne. now apply IH.
Qed.

Lemma cart_get_pop_other k k' c :
  k' <> k -> cart_get k' (cart_pop k c) = cart_get k' c.
Proof.
  intros Hne. induction c as [|[k0 v0] c IH]; cbn; [reflexivity|].
  destruct (String.eqb_spec k0 k) as [->|Hk]; cbn.
  - apply not_eq_sym in Hne. apply String.eqb_neq in Hne. now rewrite Hne.
  - now rewrite IH.
Qed.

Lemma cart_set_ok k (v : Z) c :
  py_int k <> None -> cart_ok py_int c -> cart_ok py_int (cart_set k v c).
Proof.
  intros Hk [Hnd Hint]. split.
  - rewrite cart_set_keys. destruct (cart_get k c) eqn:E; [exact Hnd|].
    apply cart_get_None in E.
    apply (Permutation_NoDup (l := k :: map fst c)).
    + apply Permutation_cons_append.
    + now constructor.
  - clear Hnd. induction c as [|[k' v'] c IH]; cbn.
    + constructor; [exact Hk | constructor].
    + inversion Hint as [|? ? Hk' Hc]. subst.
      destruct (String.eqb k' k); constructor; auto.
Qed.

Lemma cart_pop_ok k c : cart_ok py_int c -> cart_ok py_int (cart_pop k c).
Proof.
  intros [Hnd Hint]. split; [now apply cart_pop_NoDup|].
  apply Forall_forall. intros line Hin. apply cart_pop_In in Hin.
  rewrite Forall_forall in Hint. now apply Hint.
Qed.

Lemma cart_get_key_ok k c (v : Z) :
  cart_ok py_int c -> cart_get k c = Some v -> py_int k <> None.
Proof.
  intros [_ Hint]. induction c as [|[k' v'] c IH]; cbn; [discriminate|].
  inversion Hint as [|? ? Hk' Hc]. subst.
  destruct (String.eqb_spec k' k) as [->|Hne]; auto.
Qed.

(** X18.  Updating a key that the cart holds: the entry goes when removal
    is asked or when the new quantity is not positive, it takes the new
    quantity when that is positive, and it stays when [int] does not read
    the quantity; the other entries stay in every case. *)
Theorem update_cart_sets_or_removes (item_id action quantity : option string)
    (key : string) (v : Z) c :
  NoDup (map fst c) ->
  field_given item_id = Some key ->
  cart_get key c = Some v ->
  let c' := fst (update_cart py_int item_id action quantity c) in
  cart_get key c' =
    (if match action with Some a => String.eqb a "remove" | None => false end
     then None
     else match int_of_field py_int quantity with
          | Some new_qty => if new_qty <=? 0 then None else Some new_qty
          | None => Some v
          end) /\
  (forall k, k <> key -> cart_get k c' = cart_get k c).
Proof.
  intros Hnd Hkey Hv c'. subst c'. unfold update_cart. rewrite Hkey, Hv.
  destruct (match action with Some a => String.eqb a "remove" | None => false end);
    cbn [fst].
  - split; [now apply cart_get_pop_same|].
    intros k Hk. now apply cart_get_pop_other.
  - destruct (int_of_field py_int quantity) as [n|]; cbn [fst]; [|now split].
    destruct (n <=? 0); cbn [fst].
    + split; [now apply cart_get_pop_same|].
      intros k Hk. now apply cart_get_pop_other.
    + split; [apply cart_get_set_same|].
      intros k Hk. now apply cart_get_set_other.
Qed.

End CartDict.

Section Cart.

Context {price : Type}.
Variable price_mul : price -> Z -> price.
Variable py_float : string -> option price.
Variable py_int : string -> option Z.
Variable isnan : price -> bool.

Implicit Types (d : db price) (c : cart) (k key : string).

(** X17.  Adding to the cart an item that exists, with a quantity that
    [int] reads, adds the quantity to the one the cart holds for the key, 0
    when it holds none, whatever its sign; the other entries stay, and the
    cart stays a dict whose keys [int] reads. *)
Theorem add_to_cart_accumulates (item_id quantity : option string)
    (key : string) (i qty : Z) (row : Inventory.row price) c d :
  py_int (match quantity with Some s => s | None => "1" end) = Some qty ->
  field_given item_id = Some key ->
  py_int key = Some i ->
  select_item i d = Some row ->
  let c' := fst (add_to_cart py_int item_id quantity c d) in
  snd (add_to_cart py_int item_id quantity c d) =
    Added_to_cart qty (Inventory.name row) /\
  cart_get key c' =
    Some (match cart_get key c with Some v => v | None => 0 end + qty) /\
  (forall k, k <> key -> cart_get k c' = cart_get k c) /\
  (cart_ok py_int c -> cart_ok py_int c').
Proof.
  intros Hqty Hkey Hi Hrow c'. subst c'. unfold add_to_cart.
  rewrite Hqty, Hkey, Hi, Hrow. cbn [fst snd].
  split; [reflexivity|]. split; [apply cart_get_set_same|]. split.
  - intros k Hk. now apply cart_get_set_other.
  - apply cart_set_ok. congruence.
Qed.

Lemma session_cart_ok c : cart_ok py_int c -> cart_ok py_int (session_cart c).
Proof.
  intros [Hnd Hint].
  pose proof (order_by_Permutation
                (fun a b : string * Z => (fst a <=? fst b)%string) c) as Hp.
  split.
  - apply (Permutation_NoDup (l := map fst c)); [|exact Hnd].
    apply Permutation_map. now apply Permutation_sym.
  - apply (Permutation_Forall (Permutation_sym Hp)). exact Hint.
Qed.

Lemma serve_cart_ok (st : db price * cart) (r : request) :
  cart_ok py_int (snd st) ->
  cart_ok py_int (snd (serve price_mul py_float py_int isnan st r)).
Proof.
  destruct st as [d c]. intros H.
  destruct r as [q | item_id quantity now | method form uuid_hex |
                 | method item_id form uuid_hex | item_id quantity
                 | item_id action quantity | clk | | item_id | sale_id
                 | admin_code sale_id | admin_code sale_id];
    cbn [serve snd]; auto.
  - apply session_cart_ok. unfold add_to_cart.
    destruct (py_int match quantity with Some s => s | None => "1" end);
      [|exact H].
    destruct (field_given item_id) as [key|]; [|exact H].
    destruct (py_int key) eqn:Hkey; [|exact H].
    destruct (select_item z0 d); [|exact H].
    cbn [fst]. apply cart_set_ok; [congruence | exact H].
  - apply session_cart_ok. unfold update_cart.
    destruct (field_given item_id) as [key|]; [|exact H].
    destruct (cart_get key c) eqn:Hget; [|exact H].
    destruct (match action with Some a => String.eqb a "remove" | None => false end);
      cbn [fst]; [now apply cart_pop_ok|].
    destruct (int_of_field py_int quantity) as [n|]; [|exact H].
    destruct (n <=? 0); cbn [fst]; [now apply cart_pop_ok|].
    apply cart_set_ok; [|exact H]. exact (cart_get_key_ok py_int _ _ _ H Hget).
  - unfold checkout. destruct c as [|line c]; [exact H|].
    destruct (checkout_loop price_mul py_int clk 0 (line :: c) [] d)
      as [d' [messages|]]; cbn [fst snd]; [|exact H].
    split; constructor.
  - split; constructor.
Qed.

Lemma serve_all_cart_ok (requests : list request) : forall st : db price * cart,
  cart_ok py_int (snd st) ->
  cart_ok py_int (snd (serve_all price_mul py_float py_int isnan requests st)).
Proof.
  unfold serve_all.
  induction requests as [|r requests IH]; intros st H; simpl; [exact H|].
  apply IH. now apply serve_cart_ok.
Qed.

Lemma cart_ok_ids c :
  cart_ok py_int c ->
  exists ids, map (fun line : string * Z => py_int (fst line)) c = map Some ids.
Proof.
  intros [_ Hint]. induction Hint as [|[k v] c Hk _ [ids IH]].
  - now exists [].
  - cbn in Hk. destruct (py_int k) as [i|] eqn:E; [|contradiction].
    exists (i :: ids). cbn. now rewrite E, IH.
Qed.

(** X19.  A cart that the handlers have built checks out: starting from a
    session cart that is a dict whose keys [int] reads, the empty one for
    instance, the cart is still one after any sequence of requests, and a
    checkout of it never raises: when the cart is not empty it answers with
    one message for each line and leaves the cart empty. *)
Theorem carts_check_out (requests : list request) (clock : nat -> string) c d :
  cart_ok py_int c ->
  let st := serve_all price_mul py_float py_int isnan requests (d, c) in
  cart_ok py_int (snd st) /\
  snd (checkout price_mul py_int clock (snd st) (fst st)) <> ValueError /\
  (snd st <> [] ->
   exists messages,
     snd (checkout price_mul py_int clock (snd st) (fst st)) =
       Checkout_complete messages /\
     List.length messages = List.length (snd st) /\
     snd (fst (checkout price_mul py_int clock (snd st) (fst st))) = []).
Proof.
  intros Hc st.
  assert (Hok : cart_ok py_int (snd st)).
  { subst st. now apply serve_all_cart_ok. }
  split; [exact Hok|].
  destruct (cart_ok_ids _ Hok) as [ids Hids].
  destruct (snd st) as [|line c'] eqn:Ecart.
  - split; [discriminate | intros H; contradiction].
  - unfold checkout.
    rewrite (checkout_loop_sell_each price_mul py_int clock (line :: c') ids
               0%nat [] (fst st) Hids).
    cbn [fst snd]. split; [discriminate|]. intros _.
    eexists. split; [reflexivity|]. split; [|reflexivity].
    cbn [app]. rewrite sell_each_length, length_combine, length_map.
    apply (f_equal (@List.length _)) in Hids. rewrite !length_map in Hids.
    rewrite <- Hids. apply Nat.min_id.
Qed.

End Cart.

(** ** What the administrative code guards *)

Section AdminCode.

Context {price : Type}.
Variable price_mul : price -> Z -> price.
Variable py_float : string -> option price.
Variable py_int : string -> option Z.
Variable isnan : price -> bool.

Implicit Types (d : db price).

(** Every sale of [d] is in [d'], with the columns written once unchanged,
    and cancelled if it was. *)
Let sales_kept d d' : Prop :=
  forall i s, select_sale i d = Some s ->
  exists s', select_sale i d' = Some s' /\ same_sale s s' /\
             (Sales.cancelled s <> 0 -> Sales.cancelled s' <> 0).

Lemma sales_kept_same d d' : sales d' = sales d -> sales_kept d d'.
Proof.
  intros E i s Hs. exists s. rewrite select_sale_eq, E, <- select_sale_eq.
  split; [exact Hs|]. split; [apply same_sale_refl | auto].
Qed.

Lemma sales_kept_trans d1 d2 d3 :
  sales_kept d1 d2 -> sales_kept d2 d3 -> sales_kept d1 d3.
Proof.
  intros H12 H23 i s Hs.
  destruct (H12 i s Hs) as [s2 [H2 [Hsame2 Hc2]]].
  destruct (H23 i s2 H2) as [s3 [H3 [Hsame3 Hc3]]].
  exists s3. split; [exact H3|]. split; [eapply same_sale_trans; eauto | auto].
Qed.

Lemma sales_kept_insert d d' (x : Sales.row price) :
  sales d' = (sales d ++ [x])%list -> sales_kept d d'.
Proof.
  intros E i s Hs. exists s. rewrite select_sale_eq, E.
  split; [|split; [apply same_sale_refl | auto]].
  apply select_where_app_old. now rewrite <- select_sale_eq.
Qed.

Lemma sales_kept_cancel d d' (k : Z) :
  sales d' = update_where Sales.id (Sales.set_cancelled 1) k (sales d) ->
  sales_kept d d'.
Proof.
  intros E i s Hs. rewrite select_sale_eq in Hs. rewrite select_sale_eq, E.
  destruct (Z.eq_dec i k) as [->|Hne].
  - exists (Sales.set_cancelled 1 s).
    rewrite select_where_update by reflexivity. rewrite Hs.
    split; [reflexivity|]. split; [repeat split | cbn; lia].
  - exists s. rewrite select_where_update_other by auto.
    split; [exact Hs|]. split; [apply same_sale_refl | auto].
Qed.

Lemma record_sale_db_sales_kept item_id q now d :
  sales_kept d (fst (record_sale_db price_mul item_id q now d)).
Proof.
  unfold record_sale_db.
  destruct (select_item item_id d); [|now apply sales_kept_same].
  destruct (q <=? 0); [now apply sales_kept_same|].
  destruct (Inventory.quantity r <? q); [now apply sales_kept_same|].
  cbn [fst]. eapply sales_kept_insert. reflexivity.
Qed.

Lemma cancel_sale_db_sales_kept sale_id d :
  sales_kept d (fst (cancel_sale_db sale_id d)).
Proof.
  unfold cancel_sale_db.
  destruct (select_sale sale_id d); [|now apply sales_kept_same].
  destruct (truthy (Sales.cancelled r)); [now apply sales_kept_same|].
  cbn [fst]. eapply sales_kept_cancel. reflexivity.
Qed.

Lemma update_item_db_sales item_id name p quantity image_path d :
  sales (update_item_db isnan item_id name p quantity image_path d) = sales d.
Proof.
  unfold update_item_db.
  destruct (set_clause name p quantity image_path); [reflexivity|].
  now destruct (update_item_raises isnan item_id p quantity d).
Qed.

Lemma checkout_loop_sales_kept clock (c : cart) : forall k messages d,
  sales_kept d (fst (checkout_loop price_mul py_int clock k c messages d)).
Proof.
  induction c as [|[key qty] c IH]; intros k messages d; simpl;
    [now apply sales_kept_same|].
  destruct (py_int key) as [i|]; [|now apply sales_kept_same].
  pose proof (record_sale_db_sales_kept i qty (clock k) d) as H.
  destruct (record_sale_db price_mul i qty (clock k) d) as [d1 msg].
  eapply sales_kept_trans; [exact H | apply IH].
Qed.

Lemma serve_sales_kept (st : db price * cart) (r : request) :
  without_admin_code r ->
  sales_kept (fst st) (fst (serve price_mul py_float py_int isnan st r)).
Proof.
  destruct st as [d c]. intros Hr.
  destruct r as [q | item_id quantity now | method form uuid_hex |
                 | method item_id form uuid_hex | item_id quantity
                 | item_id action quantity | clk | | item_id | sale_id
                 | admin_code sale_id | admin_code sale_id];
    cbn [serve fst]; try (now apply sales_kept_same).
  - unfold sell.
    destruct (int_of_field py_int item_id) as [i|]; [|now apply sales_kept_same].
    destruct (int_of_field py_int quantity) as [n|]; [|now apply sales_kept_same].
    pose proof (record_sale_db_sales_kept i n now d) as H.
    now destruct (record_sale_db price_mul i n now d).
  - apply sales_kept_same. unfold add_item, add_item_with_image.
    destruct method; [reflexivity|].
    destruct (strip (form_name form) =? "")%string; [reflexivity|].
    destruct (py_float (strip (form_price form))) as [p|]; [|reflexivity].
    destruct (py_int (strip (form_quantity form))) as [n|]; [|reflexivity].
    cbv zeta.
    destruct (form_image form) as [[|ch f]|];
      try (now destruct (insert_item_raises isnan p n)).
    destruct (negb (allowed_extension (lower (rsplit_dot_last (String ch f)))));
      [reflexivity | now destruct (insert_item_raises isnan p n)].
  - apply sales_kept_same. unfold edit_item.
    destruct (select_item item_id d); [|reflexivity].
    destruct method; [reflexivity|].
    destruct (strip (form_name form) =? "")%string; [reflexivity|].
    destruct (py_float (strip (form_price form))) as [p|]; [|reflexivity].
    destruct (py_int (strip (form_quantity form))) as [n|]; [|reflexivity].
    cbv zeta.
    assert (Hedit : forall image_path,
              sales (fst match update_item_raises isnan item_id (Some p) (Some n) d with
                         | Some e => (d, @Edit_item_raised price e)
                         | None =>
                             (update_item_db isnan item_id
                                (Some (strip (form_name form))) (Some p) (Some n)
                                image_path d,
                              Item_updated_successfully)
                         end) = sales d).
    { intros image_path.
      destruct (update_item_raises isnan item_id (Some p) (Some n) d);
        [reflexivity | apply update_item_db_sales]. }
    destruct (form_image form) as [[|ch f]|]; auto.
    destruct (negb (allowed_extension (lower (rsplit_dot_last (String ch f)))));
      [reflexivity | apply Hedit].
  - unfold checkout. destruct c as [|line c]; [now apply sales_kept_same|].
    pose proof (checkout_loop_sales_kept clk (line :: c) 0%nat [] d) as H.
    destruct (checkout_loop price_mul py_int clk 0 (line :: c) [] d)
      as [d' [messages|]]; exact H.
  - apply sales_kept_same. unfold toggle_favorite.
    now destruct (select_item item_id d).
  - unfold cancel_sale. pose proof (cancel_sale_db_sales_kept sale_id d) as H.
    now destruct (cancel_sale_db sale_id d).
  - cbn in Hr. unfold delete_sale.
    apply String.eqb_neq in Hr. rewrite Hr. now apply sales_kept_same.
  - cbn in Hr. unfold uncancel_sale.
    apply String.eqb_neq in Hr. rewrite Hr. now apply sales_kept_same.
Qed.

(** X20.  Without the administrative code nothing is taken back: after any
    sequence of requests none of which carries the code in its stripped
    form, every sale of the database is still there, with its item,
    quantity, timestamp and total, and a sale that was cancelled is
    cancelled still. *)
Theorem without_admin_code_sales_stay (requests : list request) d (c : cart)
    (sale_id : Z) (s : Sales.row price) :
  Forall without_admin_code requests ->
  select_sale sale_id d = Some s ->
  exists s',
    select_sale sale_id (fst (serve_all price_mul py_float py_int isnan requests (d, c)))
      = Some s' /\
    same_sale s s' /\
    (Sales.cancelled s <> 0 -> Sales.cancelled s' <> 0).
Proof.
  intros Hreq.
  assert (H : forall st : db price * cart,
            sales_kept (fst st)
              (fst (serve_all price_mul py_float py_int isnan requests st))).
  { unfold serve_all. induction Hreq as [|r requests Hr _ IH]; intros st; simpl.
    - now apply sales_kept_same.
    - eapply sales_kept_trans; [apply serve_sales_kept; exact Hr | apply IH]. }
  exact (H (d, c) sale_id s).
Qed.

End AdminCode.

(** ** The edit form *)

Section EditForm.

Context {price : Type}.
Variable py_float : string -> option price.
Variable py_int : string -> option Z.
Variable isnan : price -> bool.

Implicit Types (d : db price).

Lemma update_item_db_all_fields item_id (name : string) (p : price) (q : Z)
    (image_path : option string) d :
  binds q = true -> isnan p = false ->
  update_item_db isnan item_id (Some name) (Some p) (Some q) image_path d =
  update_inventory (edited (Some name) (Some p) (Some q) image_path) item_id d.
Proof.
  intros Hq Hp. apply update_item_db_stored. now split.
Qed.

Lemma update_item_raises_all_fields item_id (p : price) (q : Z) d
    (row : Inventory.row price) :
  select_item item_id d = Some row ->
  (binds q = true -> isnan p = false ->
   update_item_raises isnan item_id (Some p) (Some q) d = None) /\
  (binds q = false \/ isnan p = true ->
   exists e, update_item_raises isnan item_id (Some p) (Some q) d = Some e).
Proof.
  intros Hrow. unfold update_item_raises. rewrite Hrow. split.
  - intros -> ->. reflexivity.
  - intros H. destruct (binds q); cbn [negb]; [|now exists OverflowError].
    destruct (isnan p); [now exists IntegrityError|].
    destruct H; discriminate.
Qed.

(** X21.  The edit form: for an id that is not in the inventory the
    handler answers that the item is not found; for one that is, a GET
    shows the row; a POST writes nothing when the name is empty once
    stripped, when [float] or [int] rejects the price or the quantity, or
    when the uploaded file has an extension that is not allowed, and
    otherwise, when the quantity fits an [INTEGER] and the price is a
    number, gives the item the stripped name and the parsed price and
    quantity, whatever their sign, and the new image path if a file was
    uploaded, the old one if not; the id and the favourite flag of the
    item, the other items and the sales stay as they were.  On any other
    quantity or price the update raises and the database is left as it
    was. *)
Theorem edit_item_validates (method : http_method) (item_id : Z)
    (form : add_item_form) (uuid_hex : string) d :
  match select_item item_id d with
  | None =>
      edit_item py_float py_int isnan method item_id form uuid_hex d =
      (d, Edit_item_not_found)
  | Some row =>
      edit_item py_float py_int isnan GET item_id form uuid_hex d =
        (d, Edit_item_page row) /\
      let name := strip (form_name form) in
      let result := edit_item py_float py_int isnan POST item_id form uuid_hex d in
      (name = "" \/
       py_float (strip (form_price form)) = None \/
       py_int (strip (form_quantity form)) = None \/
       image_rejected (form_image form) = true ->
       fst result = d /\ snd result <> Item_updated_successfully) /\
      (forall p quantity,
         name <> "" ->
         py_float (strip (form_price form)) = Some p ->
         py_int (strip (form_quantity form)) = Some quantity ->
         image_rejected (form_image form) = false ->
         (binds quantity = true -> isnan p = false ->
          snd result = Item_updated_successfully /\
          select_item item_id (fst result) =
            Some (Inventory.Row (Inventory.id row) name p quantity
                    match stored_image_path uuid_hex (form_image form) with
                    | Some path => Some path
                    | None => Inventory.image_path row
                    end
                    (Inventory.favorite row)) /\
          (forall i, i <> item_id ->
                     select_item i (fst result) = select_item i d) /\
          sales (fst result) = sales d) /\
         (binds quantity = false \/ isnan p = true ->
          fst result = d /\ exists e, snd result = Edit_item_raised e))
  end.
Proof.
  destruct (select_item item_id d) as [row|] eqn:Hrow.
  2:{ unfold edit_item. now rewrite Hrow. }
  split; [unfold edit_item; now rewrite Hrow|].
  intros name result. subst result. unfold edit_item. rewrite Hrow. fold name.
  destruct (String.eqb_spec name "") as [Hn|Hn].
  { split; [intros _; cbn [fst snd]; split; [reflexivity | discriminate]
           | intros p q Hn'; contradiction]. }
  destruct (py_float (strip (form_price form))) as [p|].
  2:{ split; [intros _; cbn [fst snd]; split; [reflexivity | discriminate]
             | intros p q _ Hp; discriminate]. }
  destruct (py_int (strip (form_quantity form))) as [q|].
  2:{ split; [intros _; cbn [fst snd]; split; [reflexivity | discriminate]
             | intros p' q _ _ Hq; discriminate]. }
  cbv zeta.
  destruct (update_item_raises_all_fields item_id p q d row Hrow) as [Hok Hraise].
  assert (Hupd : forall image_path,
            let result :=
              match update_item_raises isnan item_id (Some p) (Some q) d with
              | Some e => (d, @Edit_item_raised price e)
              | None =>
                  (update_item_db isnan item_id (Some name) (Some p) (Some q)
                     image_path d,
                   Item_updated_successfully)
              end in
            (binds q = true -> isnan p = false ->
             snd result = Item_updated_successfully /\
             select_item item_id (fst result) =
               Some (Inventory.Row (Inventory.id row) name p q
                       match image_path with
                       | Some path => Some path
                       | None => Inventory.image_path row
                       end
                       (Inventory.favorite row)) /\
             (forall i, i <> item_id ->
                select_item i (fst result) = select_item i d) /\
             sales (fst result) = sales d) /\
            (binds q = false \/ isnan p = true ->
             fst result = d /\ exists e, snd result = Edit_item_raised e)).
  { intros image_path result. subst result. split.
    - intros Hq Hp. rewrite (Hok Hq Hp). cbn [fst snd].
      rewrite (update_item_db_all_fields _ _ _ _ _ _ Hq Hp). repeat split.
      + rewrite select_item_eq, inventory_update_inventory.
        rewrite select_where_update by reflexivity.
        rewrite <- select_item_eq, Hrow. cbn. unfold edited. cbn.
        subst name. now rewrite strip_idempotent.
      + intros i Hi. rewrite !select_item_eq, inventory_update_inventory.
        now apply select_where_update_other.
    - intros H. destruct (Hraise H) as [e ->]. cbn [fst snd].
      split; [reflexivity | now exists e]. }
  unfold image_rejected, stored_image_path, uploaded, extension.
  destruct (form_image form) as [[|c f]|].
  - split; [intros [?|[?|[?|?]]]; try contradiction; discriminate|].
    intros p' q' _ Hp Hq _. injection Hp as <-. injection Hq as <-.
    apply (Hupd None).
  - destruct (allowed_extension (lower (rsplit_dot_last (String c f)))).
    + cbn [negb]. split;
        [intros [?|[?|[?|?]]]; try contradiction; discriminate|].
      intros p' q' _ Hp Hq _. injection Hp as <-. injection Hq as <-.
      apply (Hupd (Some ("uploads/" ++ uuid_hex ++ "." ++
                         lower (rsplit_dot_last (String c f))))).
    + cbn [negb]. split;
        [intros _; cbn [fst snd]; split; [reflexivity | discriminate]|].
      intros p' q' _ _ _ H. discriminate.
  - split; [intros [?|[?|[?|?]]]; try contradiction; discriminate|].
    intros p' q' _ Hp Hq _. injection Hp as <-. injection Hq as <-.
    apply (Hupd None).
Qed.

End EditForm.

(** ** The text menu *)

Section MenuFacts.

Context {price : Type}.

Implicit Types (d : db price).

Lemma map_flat_map {A B C : Type} (f : B -> C) (g : A -> list B) (l : list A) :
  map f (flat_map g l) = flat_map (fun x => map f (g x)) l.
Proof.
  induction l as [|x l IH]; simpl; [reflexivity|].
  now rewrite map_app, IH.
Qed.

Lemma history_of_join d :
  map history_of_listing (join_sales_inventory d) =
  flat_map (fun s =>
     map (pos_system.history_row_of s)
         (filter (fun r => Sales.item_id s =? Inventory.id r) (inventory d)))
    (sales d).
Proof.
  unfold join_sales_inventory. rewrite map_flat_map.
  apply flat_map_ext. intros s. rewrite map_map. reflexivity.
Qed.

Lemma history_leb_total (a b : pos_system.history_row (price := price)) :
  (pos_system.history_timestamp a <=? pos_system.history_timestamp b)%string = true \/
  (pos_system.history_timestamp b <=? pos_system.history_timestamp a)%string = true.
Proof. apply String.leb_total. Qed.

(** X22.  The history of the text menu and the listing of the web page
    show the same sales: the menu prints that there is nothing when the
    listing is empty, and otherwise the rows of the listing without their
    [cancelled] column, a cancelled sale like any other, the oldest first
    where the listing has the newest first. *)
Theorem menu_history_matches_listing d :
  match pos_system.view_sales d with
  | pos_system.Nothing_to_show => list_sales d = []
  | pos_system.Table rows =>
      rows <> [] /\
      Permutation rows (map history_of_listing (list_sales d)) /\
      StronglySorted
        (fun a b => (pos_system.history_timestamp a <=?
                     pos_system.history_timestamp b)%string = true)
        rows
  end.
Proof.
  unfold pos_system.view_sales. rewrite <- history_of_join.
  set (leb := fun a b : pos_system.history_row (price := price) =>
                (pos_system.history_timestamp a <=?
                 pos_system.history_timestamp b)%string).
  assert (Hperm : Permutation
                    (order_by leb (map history_of_listing (join_sales_inventory d)))
                    (map history_of_listing (list_sales d))).
  { rewrite order_by_Permutation. apply Permutation_map.
    unfold list_sales. symmetry. apply order_by_timestamp_desc_Permutation. }
  assert (Hsorted : StronglySorted (fun a b => leb a b = true)
                      (order_by leb (map history_of_listing
                                       (join_sales_inventory d)))).
  { apply order_by_StronglySorted.
    - intros a b. apply String.leb_total.
    - intros a b c. apply string_leb_trans. }
  destruct (order_by leb (map history_of_listing (join_sales_inventory d)))
    as [|row rows] eqn:E.
  - apply Permutation_nil in Hperm. now apply map_eq_nil in Hperm.
  - split; [discriminate|]. split; [exact Hperm | exact Hsorted].
Qed.

(** X23.  The inventory of the text menu is the inventory in the order of
    the ids, and the menu prints that it is empty exactly when it is. *)
Theorem menu_inventory_in_id_order d :
  Permutation (pos_system.list_inventory d) (inventory d) /\
  StronglySorted (fun a b => Inventory.id a <= Inventory.id b)
                 (pos_system.list_inventory d) /\
  (pos_system.view_inventory d = pos_system.Nothing_to_show <-> inventory d = []) /\
  (inventory d <> [] ->
   pos_system.view_inventory d = pos_system.Table (pos_system.list_inventory d)).
Proof.
  assert (Hperm : Permutation (pos_system.list_inventory d) (inventory d)).
  { apply order_by_Permutation. }
  split; [exact Hperm|]. split; [|split].
  - unfold pos_system.list_inventory.
    eapply StronglySorted_weaken;
      [| apply (order_by_StronglySorted
                  (fun a b : Inventory.row price => Inventory.id a <=? Inventory.id b))].
    + intros a b H. now apply Z.leb_le.
    + intros a b. rewrite !Z.leb_le. lia.
    + intros a b c. rewrite !Z.leb_le. lia.
  - unfold pos_system.view_inventory.
    destruct (pos_system.list_inventory d) as [|r l] eqn:E.
    + split; [|reflexivity]. intros _. now apply Permutation_nil in Hperm.
    + split; [discriminate|]. intros Hd. rewrite Hd in Hperm.
      apply Permutation_sym, Permutation_nil in Hperm. discriminate.
  - intros Hne. unfold pos_system.view_inventory.
    destruct (pos_system.list_inventory d) as [|r l] eqn:E; [|reflexivity].
    apply Permutation_nil in Hperm. contradiction.
Qed.

Lemma prompt_for_skips {A : Type} (parse : string -> option A)
    (bad : list string) : forall (retries : nat) (rest : list string),
  Forall (fun line => parse (strip line) = None) bad ->
  pos_system.prompt_for parse retries (bad ++ rest) =
  pos_system.prompt_for parse (List.length bad + retries) rest.
Proof.
  induction bad as [|line bad IH]; intros retries rest Hbad; [reflexivity|].
  inversion Hbad as [|? ? Hline Hbad']. subst. cbn. rewrite Hline.
  rewrite IH by assumption. f_equal. lia.
Qed.

(** X24.  A prompt for a number asks again for every line that it cannot
    read and yields the first line that it can, stripped, leaving the lines
    after it unread; when no line can be read it ends in [EOFError]. *)
Theorem prompt_yields_first_readable_line (py_float : string -> option price)
    (py_int : string -> option Z) (bad rest : list string) (good : string) :
  (Forall (fun line => py_int (strip line) = None) bad ->
   (forall v, py_int (strip good) = Some v ->
      pos_system.prompt_for_int py_int (bad ++ good :: rest) =
      pos_system.Prompt_value v (List.length bad) rest) /\
   pos_system.prompt_for_int py_int bad =
     pos_system.Prompt_EOFError (List.length bad)) /\
  (Forall (fun line => py_float (strip line) = None) bad ->
   (forall v, py_float (strip good) = Some v ->
      pos_system.prompt_for_float py_float (bad ++ good :: rest) =
      pos_system.Prompt_value v (List.length bad) rest) /\
   pos_system.prompt_for_float py_float bad =
     pos_system.Prompt_EOFError (List.length bad)).
Proof.
  split; intros Hbad; (split; [intros v Hv|]).
  - unfold pos_system.prompt_for_int. rewrite prompt_for_skips by assumption.
    cbn. rewrite Hv. f_equal. lia.
  - unfold pos_system.prompt_for_int.
    rewrite <- (app_nil_r bad) at 1. rewrite prompt_for_skips by assumption.
    cbn. f_equal. lia.
  - unfold pos_system.prompt_for_float. rewrite prompt_for_skips by assumption.
    cbn. rewrite Hv. f_equal. lia.
  - unfold pos_system.prompt_for_float.
    rewrite <- (app_nil_r bad) at 1. rewrite prompt_for_skips by assumption.
    cbn. f_equal. lia.
Qed.

End MenuFacts.

Section Placeholders.

Lemma replace_placeholders_none (query : string) :
  placeholders (pos_system.replace_placeholders query) = O.
Proof.
  induction query as [|c q IH]; [reflexivity|]. cbn.
  destruct (Ascii.eqb c "?") eqn:E; cbn; [exact IH|]. now rewrite E.
Qed.

Lemma replace_placeholders_fixed (query : string) :
  placeholders query = O -> pos_system.replace_placeholders query = query.
Proof.
  induction query as [|c q IH]; [reflexivity|]. cbn.
  destruct (Ascii.eqb c "?"); [discriminate|]. intros H. now rewrite IH.
Qed.

Lemma replace_placeholders_length (query : string) :
  String.length (pos_system.replace_placeholders query) =
  (String.length query + placeholders query)%nat.
Proof.
  induction query as [|c q IH]; [reflexivity|]. cbn.
  destruct (Ascii.eqb c "?"); cbn; rewrite IH; lia.
Qed.

(** X25.  [adapt_sql] leaves a query as it is for SQLite, and when no
    parameter is present; for PostgreSQL it leaves no [?] in the query,
    lengthens it by one character for each [?] it had, leaves a query
    without [?] as it is, and so does nothing more when applied again. *)
Theorem adapt_sql_replaces_every_placeholder (query : string)
    (is_pg params_present : bool) :
  pos_system.adapt_sql query false params_present = query /\
  pos_system.adapt_sql query is_pg false = query /\
  placeholders (pos_system.adapt_sql query true true) = O /\
  String.length (pos_system.adapt_sql query true true) =
    (String.length query + placeholders query)%nat /\
  (placeholders query = O ->
   pos_system.adapt_sql query is_pg params_present = query) /\
  pos_system.adapt_sql (pos_system.adapt_sql query is_pg params_present)
    is_pg params_present =
  pos_system.adapt_sql query is_pg params_present.
Proof.
  unfold pos_system.adapt_sql. repeat split.
  - now rewrite andb_false_r.
  - cbn. apply replace_placeholders_none.
  - cbn. apply replace_placeholders_length.
  - intros H. destruct (params_present && is_pg); [|reflexivity].
    now apply replace_placeholders_fixed.
  - destruct (params_present && is_pg); [|reflexivity].
    apply replace_placeholders_fixed, replace_placeholders_none.
Qed.

End Placeholders.

(** ** Two ways to the same table *)

Section TwoWays.

Context {price : Type}.
Variable price_mul : price -> Z -> price.
Variable isnan : price -> bool.

Implicit Types (d : db price).

Lemma update_where_ext {A : Type} (key : A -> Z) (f g : A -> A) (k : Z)
    (l : list A) :
  (forall x, In x l -> key x = k -> f x = g x) ->
  update_where key f k l = update_where key g k l.
Proof.
  intros H. unfold update_where. apply map_ext_in. intros x Hx.
  destruct (Z.eqb_spec (key x) k); auto.
Qed.

(** X26.  The text menu and the web page write the same: [record_sale]
    leaves the database that [record_sale_db] leaves, whatever is asked;
    and, under the primary key of the inventory, [update_item] leaves the
    database that [update_item_db] leaves when it is given the same price
    and quantity, no image path, and the name unless it is empty. *)
Theorem menu_and_web_write_the_same (item_id quantity : Z) (now : string)
    (name : option string) (p : option price) (q : option Z) d :
  fst (pos_system.record_sale price_mul item_id quantity now d) =
    fst (record_sale_db price_mul item_id quantity now d) /\
  (NoDup (map Inventory.id (inventory d)) ->
   fst (pos_system.update_item isnan item_id name p q d) =
     update_item_db isnan item_id (pos_system.name_given name) p q None d).
Proof.
  split.
  - unfold pos_system.record_sale, record_sale_db.
    destruct (select_item item_id d); [|reflexivity].
    destruct (quantity <=? 0); [reflexivity|].
    now destruct (Inventory.quantity r <? quantity).
  - intros Hnd. unfold pos_system.update_item.
    destruct (select_item item_id d) as [row|] eqn:Hrow; cbn [fst].
    + assert (Hone : forall x, In x (inventory d) -> Inventory.id x = item_id ->
                               x = row).
      { intros x Hx Hk. rewrite select_item_eq in Hrow.
        rewrite (select_where_unique Inventory.id item_id _ x Hnd Hx Hk) in Hrow.
        congruence. }
      unfold update_item_db.
      destruct (set_clause (pos_system.name_given name) p q None) eqn:E.
      * destruct (pos_system.name_given name), p, q; try discriminate.
        cbn [update_item_raises fst].
        apply db_ext; try reflexivity. rewrite inventory_update_inventory.
        apply update_where_id. intros x Hx Hk. rewrite (Hone x Hx Hk).
        now destruct row.
      * destruct (update_item_raises isnan item_id p q d); [reflexivity|].
        cbn [fst]. rewrite <- E. apply db_ext; try reflexivity.
        rewrite !inventory_update_inventory. apply update_where_ext.
        intros x Hx Hk. rewrite apply_set_clause_edited, (Hone x Hx Hk).
        destruct row. now destruct (pos_system.name_given name), p, q.
    + symmetry. unfold update_item_db.
      destruct (set_clause (pos_system.name_given name) p q None);
        [reflexivity|].
      destruct (update_item_raises isnan item_id p q d); [reflexivity|].
      apply db_ext; try reflexivity. rewrite inventory_update_inventory.
      apply update_where_absent. now rewrite <- select_item_eq.
Qed.

End TwoWays.

Section Uploads.

Lemma rsplit_dot_last_no_dot (filename : string) :
  contains_dot filename = false -> rsplit_dot_last filename = filename.
Proof.
  destruct filename as [|c f]; [reflexivity|]. cbn.
  intros H. apply orb_false_iff in H. destruct H as [Hc Hf].
  now rewrite Hf, Hc.
Qed.

(** X27.  The check of the upload handlers and [allowed_file] differ on
    names without a dot only: a file that [allowed_file] accepts is
    accepted by the handlers, and they agree on every name with a dot; a
    name without a dot is refused by [allowed_file], and accepted by the
    handlers when it is, letter case apart, one of the allowed extensions
    itself. *)
Theorem allowed_file_is_stricter (c : ascii) (f : string) :
  let filename := String c f in
  (allowed_file filename = true -> image_rejected (Some filename) = false) /\
  (contains_dot filename = true ->
   allowed_file filename = negb (image_rejected (Some filename))) /\
  (contains_dot filename = false ->
   allowed_file filename = false /\
   image_rejected (Some filename) = negb (allowed_extension (lower filename))).
Proof.
  intros filename. unfold allowed_file, image_rejected, uploaded, extension.
  subst filename. cbn [uploaded]. split; [|split].
  - intros H. apply andb_true_iff in H. destruct H as [_ H]. now rewrite H.
  - intros H. rewrite H. cbn [andb]. now rewrite negb_involutive.
  - intros H. rewrite H. cbn [andb]. split; [reflexivity|].
    now rewrite rsplit_dot_last_no_dot.
Qed.

End Uploads.

(** * The further properties on the shop of [Decimal] *)

Ltac by_listing :=
  repeat match goal with
         | |- _ /\ _ => split
         | |- NoDup _ => constructor
         | |- Forall _ _ => constructor
         | |- ~ In _ _ => cbn; intuition (try lia; try discriminate)
         end;
  cbn; try lia; try (intuition (try lia; try discriminate)).

Lemma keys_ok_shop : keys_ok shop.
Proof. unfold keys_ok, shop. cbn. by_listing. Qed.

Lemma stock_ok_shop : stock_ok shop.
Proof. unfold stock_ok, shop. cbn. by_listing. Qed.

Lemma keys_ok_after_sale : keys_ok after_sale.
Proof. unfold keys_ok. vm_compute. by_listing. Qed.

Lemma keys_ok_after_cancel : keys_ok after_cancel.
Proof. unfold keys_ok. vm_compute. by_listing. Qed.

Lemma names_ok_shop : names_ok shop.
Proof.
  unfold names_ok, shop. cbn.
  repeat constructor; try discriminate.
Qed.

Lemma favorites_ok_shop : favorites_ok shop.
Proof. unfold favorites_ok, shop. cbn. repeat constructor; now left. Qed.

(** The day of [day], followed by the checkout of a cart that asks for more
    tea than is left, leaves no quantity negative. *)
Lemma stock_never_negative_shop :
  keys_ok shop /\ stock_ok shop /\
  stock_ok (run price_mul day shop) /\
  stock_ok (fst (fst (checkout price_mul py_int clock [("1", 20); ("2", 1)]
                        (run price_mul day shop)))).
Proof.
  split; [exact keys_ok_shop|]. split; [exact stock_ok_shop|].
  exact (stock_never_negative price_mul py_int day clock [("1", 20); ("2", 1)]
           shop keys_ok_shop stock_ok_shop).
Defined.

Lemma primary_keys_kept_shop :
  keys_ok shop /\
  keys_ok (fst (serve_all price_mul py_float py_int isnan visit (shop, []))) /\
  keys_ok (fst (pos_system.delete_item 1 shop)).
Proof.
  split; [exact keys_ok_shop|].
  pose proof (primary_keys_kept price_mul py_float py_int isnan visit shop []
                1 3 "Jam" t1 (5 # 2)%Q None None None keys_ok_shop) as H.
  split; [exact (proj1 H) | exact (proj2 (proj2 (proj2 (proj2 H))))].
Defined.

(** The sale of the tea, once deleted, is not found after the visit, in
    which two sales are made. *)
Lemma deleted_sale_never_returns_shop :
  keys_ok after_sale /\
  select_sale 1 after_sale = Some (Sales.Row 1 1 3 t1 (6 # 1)%Q 0) /\
  select_sale 1
    (fst (serve_all price_mul py_float py_int isnan visit
            (fst (delete_sale_db 1 after_sale), []))) = None.
Proof.
  split; [exact keys_ok_after_sale|]. split; [reflexivity|].
  exact (deleted_sale_never_returns price_mul py_float py_int isnan visit after_sale []
           1 (Sales.Row 1 1 3 t1 (6 # 1)%Q 0) keys_ok_after_sale eq_refl).
Defined.

(** The sale of the tea keeps its total of 6 through the visit, in which
    it is cancelled and the price of the tea goes from 2 to 5/2. *)
Lemma sale_columns_written_once_shop :
  keys_ok after_sale /\
  select_sale 1 after_sale = Some (Sales.Row 1 1 3 t1 (6 # 1)%Q 0) /\
  select_sale 1 (fst (serve_all price_mul py_float py_int isnan visit_without_code
                        (after_sale, []))) =
    Some (Sales.Row 1 1 3 t1 (6 # 1)%Q 1) /\
  same_sale (Sales.Row 1 1 3 t1 (6 # 1)%Q 0) (Sales.Row 1 1 3 t1 (6 # 1)%Q 1).
Proof.
  split; [exact keys_ok_after_sale|]. split; [reflexivity|].
  split; [reflexivity|].
  exact (sale_columns_written_once price_mul py_float py_int isnan visit_without_code
           after_sale [] 1 _ _ keys_ok_after_sale eq_refl eq_refl).
Defined.

(** The tea, once deleted, is not found after the visit, in which an item
    is added: the new item has the id 3, not the id 1. *)
Lemma deleted_item_never_returns_shop :
  keys_ok after_cancel /\
  select_item 1 after_cancel = Some (Inventory.Row 1 "Tea" (2 # 1)%Q 10 None 0) /\
  select_item 1
    (fst (serve_all price_mul py_float py_int isnan visit
            (fst (pos_system.delete_item 1 after_cancel), []))) = None /\
  uncancel_sale_db 1
    (fst (serve_all price_mul py_float py_int isnan visit
            (fst (pos_system.delete_item 1 after_cancel), []))) =
  (fst (serve_all price_mul py_float py_int isnan visit
          (fst (pos_system.delete_item 1 after_cancel), [])),
   Associated_item_not_found).
Proof.
  split; [exact keys_ok_after_cancel|]. split; [reflexivity|].
  pose proof (deleted_item_never_returns price_mul py_float py_int isnan visit
                after_cancel [] 1 1 t3 _ keys_ok_after_cancel eq_refl) as H.
  cbv zeta in H. destruct H as (H1 & _ & H3).
  split; [exact H1|].
  apply (H3 1 (Sales.Row 1 1 3 t1 (6 # 1)%Q 1)); [reflexivity | reflexivity | discriminate].
Defined.

(** A sale that is not granted writes nothing: cancelling the cancelled
    sale of the tea, restoring a sale that is not there. *)
Lemma refused_ledger_requests_write_nothing_shop :
  fst (cancel_sale_db 1 after_cancel) = after_cancel /\
  fst (uncancel_sale_db 9 after_cancel) = after_cancel /\
  fst (delete_sale_db 9 after_cancel) = after_cancel.
Proof.
  pose proof (refused_ledger_requests_write_nothing 1 after_cancel) as H1.
  pose proof (refused_ledger_requests_write_nothing 9 after_cancel) as H9.
  split; [apply (proj1 H1); discriminate|].
  split; [apply (proj1 (proj2 H9)); discriminate|].
  apply (proj2 (proj2 H9)). reflexivity.
Defined.

(** Restoring and cancelling again the cancelled sale of the tea. *)
Lemma uncancel_cancel_round_trip_shop :
  select_sale 1 after_cancel = Some (Sales.Row 1 1 3 t1 (6 # 1)%Q 1) /\
  snd (uncancel_sale_db 1 after_cancel) = Sale_uncancelled_and_inventory_updated /\
  inventory (fst (cancel_sale_db 1 (fst (uncancel_sale_db 1 after_cancel)))) =
    inventory after_cancel.
Proof.
  split; [reflexivity|]. split; [reflexivity|].
  pose proof (uncancel_cancel_round_trip 1 after_cancel
                (Sales.Row 1 1 3 t1 (6 # 1)%Q 1) eq_refl
                ltac:(discriminate) eq_refl) as H.
  exact (proj1 (proj2 H)).
Defined.

(** Jam is added to the shop under the id 3, and the tea is found as
    before; four units beyond what an [INTEGER] holds are not added. *)
Lemma added_item_is_found_shop :
  binds 4 = true /\ isnan (5 # 2)%Q = false /\
  select_item 3 (add_item_with_image isnan " Jam " (5 # 2)%Q 4 None shop) =
    Some (Inventory.Row 3 "Jam" (5 # 2)%Q 4 None 0) /\
  select_item 1 (add_item_with_image isnan " Jam " (5 # 2)%Q 4 None shop) =
    select_item 1 shop /\
  add_item_with_image isnan " Jam " (5 # 2)%Q (2 ^ 63 + 4) None shop = shop.
Proof.
  split; [reflexivity|]. split; [reflexivity|].
  pose proof (added_item_is_found isnan " Jam " (5 # 2)%Q 4 None shop) as H.
  cbv zeta in H. destruct H as (H & _). specialize (H eq_refl eq_refl).
  destruct H as (H1 & _ & H3 & _).
  split; [exact H1|]. split; [apply H3; discriminate|].
  pose proof (added_item_is_found isnan " Jam " (5 # 2)%Q (2 ^ 63 + 4) None shop)
    as H'.
  cbv zeta in H'. destruct H' as (_ & H' & _).
  exact (proj1 (H' (or_introl eq_refl))).
Defined.

(** The mug is made a favourite, and then not one. *)
Lemma toggle_favorite_twice_shop :
  select_item 2 shop = Some (Inventory.Row 2 "Mug" (7 # 2)%Q 5 None 0) /\
  select_item 2 (fst (toggle_favorite 2 shop)) =
    Some (Inventory.Row 2 "Mug" (7 # 2)%Q 5 None 1) /\
  fst (toggle_favorite 2 (fst (toggle_favorite 2 shop))) = shop.
Proof.
  split; [reflexivity|].
  pose proof (toggle_favorite_twice 2 shop _ eq_refl) as H.
  cbv zeta in H. destruct H as (H1 & _ & _ & H4).
  split; [exact H1|].
  apply H4; [exact (proj1 keys_ok_shop) | now left].
Defined.

Lemma names_stay_given_shop :
  names_ok shop /\
  names_ok (fst (serve_all price_mul py_float py_int isnan visit (shop, []))).
Proof.
  split; [exact names_ok_shop|].
  exact (names_stay_given price_mul py_float py_int isnan visit shop [] names_ok_shop).
Defined.

Lemma favorites_stay_flags_shop :
  favorites_ok shop /\
  favorites_ok (fst (serve_all price_mul py_float py_int isnan visit (shop, []))).
Proof.
  split; [exact favorites_ok_shop|].
  exact (favorites_stay_flags price_mul py_float py_int isnan visit shop []
           favorites_ok_shop).
Defined.

Lemma keys_ok_after_visit : keys_ok after_visit.
Proof. unfold keys_ok. vm_compute. by_listing. Qed.

(** A search for [EA] finds the green tea, whose name has [ea] in it, and
    not the mug. *)
Lemma list_inventory_searches_names_shop :
  plain "EA" = true /\
  In (Inventory.Row 1 "Green tea" (5 # 2)%Q 6 None 0)
     (pos_frontend.list_inventory (Some "EA") after_visit) /\
  ~ In (Inventory.Row 2 "Mug" (7 # 2)%Q 2 None 1)
       (pos_frontend.list_inventory (Some "EA") after_visit).
Proof.
  split; [reflexivity|].
  pose proof (fun r => list_inventory_searches_names "E"%char "A" after_visit r
                         eq_refl) as H.
  split.
  - apply H. split; [vm_compute; auto|].
    exists (characters "Green t"), (characters "ea"), [].
    split; [reflexivity|]. repeat constructor.
  - intros Hin. apply H in Hin. destruct Hin as [_ [before [found [after [E Hl]]]]].
    inversion Hl as [|e x ? found1 He Hl1]. subst.
    inversion Hl1 as [|a y ? found2 Ha Hl2]. subst.
    inversion Hl2. subst.
    change (characters (Inventory.name (Inventory.Row 2 "Mug" (7 # 2)%Q 2 None 1)))
      with [77%N; 117%N; 103%N] in E.
    destruct before as [|b1 [|b2 [|b3 [|b4 before]]]]; cbn in E;
      try discriminate E;
      injection E as; subst; try discriminate He; try discriminate Ha.
Defined.

(** The home page of the shop after the visit: the mug, a favourite,
    before the green tea and the jam. *)
Lemma index_shows_favorites_first_shop :
  Forall (fun r : Inventory.row price => 0 <= Inventory.favorite r)
         (inventory after_visit) /\
  ([Inventory.Row 2 "Mug" (7 # 2)%Q 2 None 1] ++
   [Inventory.Row 1 "Green tea" (5 # 2)%Q 6 None 0;
    Inventory.Row 3 "Jam" (5 # 2)%Q 4 None 0])%list =
  pos_frontend.list_inventory (Some "") after_visit.
Proof.
  assert (Hpos : Forall (fun r : Inventory.row price => 0 <= Inventory.favorite r)
                        (inventory after_visit)).
  { vm_compute. repeat constructor; discriminate. }
  split; [exact Hpos|].
  exact (proj1 (proj2 (index_shows_favorites_first price_mul price_add price_zero
                         py_int " " basket after_visit _ _ _ _ _ Hpos eq_refl))).
Defined.

(** The cart on that page: the line for the item 7, which is not in the
    shop, is left out, and the total is 5 + 21/2. *)
Lemma index_cart_summary_shop :
  NoDup (map Inventory.id (inventory after_visit)) /\
  cart_item_ids py_int basket = Some [1; 2; 7] /\
  Forall (fun i => binds i = true) [1; 2; 7] /\
  Forall (fun line : string * Z => converts (snd line) = true) basket /\
  exists favorites items,
    index price_mul py_int price_add price_zero " " basket after_visit =
    Index_page favorites items
      [Cart_item 1 "Green tea" (5 # 2)%Q 2 (5 # 1)%Q;
       Cart_item 2 "Mug" (7 # 2)%Q 3 (21 # 2)%Q]
      (31 # 2)%Q "".
Proof.
  assert (Hb : Forall (fun i => binds i = true) [1; 2; 7])
    by (repeat constructor).
  assert (Hc : Forall (fun line : string * Z => converts (snd line) = true) basket)
    by (repeat constructor).
  split; [exact (proj1 keys_ok_after_visit)|]. split; [reflexivity|].
  split; [exact Hb|]. split; [exact Hc|].
  exact (proj1 (index_cart_summary price_mul price_add price_zero py_int " "
                  basket [1; 2; 7] after_visit (proj1 keys_ok_after_visit)
                  eq_refl Hb) Hc).
Defined.

(** Two more mugs for a cart that has three. *)
Lemma add_to_cart_accumulates_shop :
  py_int "2" = Some 2 /\
  field_given (Some "2") = Some "2" /\
  select_item 2 shop = Some (Inventory.Row 2 "Mug" (7 # 2)%Q 5 None 0) /\
  cart_get "2" (fst (add_to_cart py_int (Some "2") (Some "2") basket shop)) =
    Some 5 /\
  cart_get "1" (fst (add_to_cart py_int (Some "2") (Some "2") basket shop)) =
    Some 2.
Proof.
  split; [reflexivity|]. split; [reflexivity|]. split; [reflexivity|].
  pose proof (add_to_cart_accumulates py_int (Some "2") (Some "2") "2" 2 2 _
                basket shop eq_refl eq_refl eq_refl eq_refl) as H.
  cbv zeta in H. destruct H as (_ & H2 & H3 & _).
  split; [exact H2 | apply H3; discriminate].
Defined.

(** The mugs of the cart set to one, and then to none. *)
Lemma update_cart_sets_or_removes_shop :
  NoDup (map fst basket) /\
  cart_get "2" basket = Some 3 /\
  cart_get "2" (fst (update_cart py_int (Some "2") None (Some "1") basket)) =
    Some 1 /\
  cart_get "2" (fst (update_cart py_int (Some "2") None (Some "0") basket)) =
    None.
Proof.
  assert (Hnd : NoDup (map fst basket)).
  { cbn. repeat constructor; cbn; intuition discriminate. }
  split; [exact Hnd|]. split; [reflexivity|].
  split.
  - exact (proj1 (update_cart_sets_or_removes py_int (Some "2") None (Some "1")
                    "2" 3 basket Hnd eq_refl eq_refl)).
  - exact (proj1 (update_cart_sets_or_removes py_int (Some "2") None (Some "0")
                    "2" 3 basket Hnd eq_refl eq_refl)).
Defined.

(** The cart that the first three requests of the visit build checks out
    with a message for each of its two lines. *)
Lemma carts_check_out_shop :
  cart_ok py_int [] /\
  snd (serve_all price_mul py_float py_int isnan (firstn 3 visit) (shop, [])) =
    [("1", 2); ("2", 3)] /\
  snd (checkout price_mul py_int clock
         (snd (serve_all price_mul py_float py_int isnan (firstn 3 visit) (shop, [])))
         (fst (serve_all price_mul py_float py_int isnan (firstn 3 visit) (shop, []))))
    <> ValueError.
Proof.
  assert (H0 : cart_ok py_int []) by (split; constructor).
  split; [exact H0|]. split; [reflexivity|].
  exact (proj1 (proj2 (carts_check_out price_mul py_float py_int isnan (firstn 3 visit)
                         clock [] shop H0))).
Defined.

(** The sale of the tea, cancelled, stays cancelled through the visit
    without its last request, the deletion asked with the code [0000]
    notwithstanding. *)
Lemma without_admin_code_sales_stay_shop :
  Forall without_admin_code visit_without_code /\
  select_sale 1 after_cancel = Some (Sales.Row 1 1 3 t1 (6 # 1)%Q 1) /\
  exists s',
    select_sale 1 (fst (serve_all price_mul py_float py_int isnan visit_without_code
                          (after_cancel, []))) = Some s' /\
    same_sale (Sales.Row 1 1 3 t1 (6 # 1)%Q 1) s' /\
    (Sales.cancelled (Sales.Row 1 1 3 t1 (6 # 1)%Q 1) <> 0 ->
     Sales.cancelled s' <> 0).
Proof.
  assert (Hreq : Forall without_admin_code visit_without_code).
  { cbn. repeat constructor. cbn. discriminate. }
  split; [exact Hreq|]. split; [reflexivity|].
  exact (without_admin_code_sales_stay price_mul py_float py_int isnan
           visit_without_code after_cancel [] 1 _ Hreq eq_refl).
Defined.

(** The administrative code typed after a no-break space and before an em
    space is the code once stripped, and the deletion is done. *)
Lemma delete_sale_strips_white_space :
  let typed :=
    String (ascii_of_nat 194) (String (ascii_of_nat 160)
      ("0516" ++ String (ascii_of_nat 226) (String (ascii_of_nat 128)
                   (String (ascii_of_nat 131) "")))) in
  strip typed = ADMIN_CODE /\
  delete_sale typed 1 after_sale =
    (fst (delete_sale_db 1 after_sale),
     Admin_flash Sale_deleted_and_inventory_adjusted true).
Proof. split; reflexivity. Qed.

(** A pattern and a name end at their first NUL for [LIKE], and names that
    are the same up to a NUL are ordered by their lengths. *)
Lemma text_ends_at_nul :
  let nul := String (ascii_of_nat 0) "" in
  like ("%a" ++ nul ++ "b%") "xa" = true /\
  like "%pot%" ("tea" ++ nul ++ "pot") = false /\
  nocase_leb ("a" ++ nul ++ "c") ("A" ++ nul ++ "b") = true /\
  nocase_leb ("a" ++ nul ++ "b") ("a" ++ nul) = false.
Proof. repeat split; reflexivity. Qed.

(** The edit form on the tea: a price that [float] rejects writes nothing;
    a form that is in order renames the tea and keeps its id; a quantity of
    one more than an [INTEGER] holds makes the update raise. *)
Lemma edit_item_validates_shop :
  fst (edit_item py_float py_int isnan POST 1 (Add_item_form "Green tea" "two" "6" None)
         "1a" shop) = shop /\
  select_item 1
    (fst (edit_item py_float py_int isnan POST 1
            (Add_item_form " Green tea " "2.50" "6" None) "1a" shop)) =
    Some (Inventory.Row 1 "Green tea" (5 # 2)%Q 6 None 0) /\
  fst (edit_item py_float py_int isnan POST 1
         (Add_item_form "Green tea" "2.50" "9223372036854775808" None) "1a" shop)
    = shop /\
  edit_item py_float py_int isnan POST 9 (Add_item_form "Green tea" "2.50" "6" None)
    "1a" shop = (shop, Edit_item_not_found).
Proof.
  pose proof (edit_item_validates py_float py_int isnan POST 1
                (Add_item_form "Green tea" "two" "6" None) "1a" shop) as H1.
  pose proof (edit_item_validates py_float py_int isnan POST 1
                (Add_item_form " Green tea " "2.50" "6" None) "1a" shop) as H2.
  pose proof (edit_item_validates py_float py_int isnan POST 1
                (Add_item_form "Green tea" "2.50" "9223372036854775808" None)
                "1a" shop) as H4.
  pose proof (edit_item_validates py_float py_int isnan POST 9
                (Add_item_form "Green tea" "2.50" "6" None) "1a" shop) as H3.
  cbn [select_item] in H1, H2, H3, H4.
  split; [|split; [|split]].
  - apply (proj1 (proj2 H1)). right. left. reflexivity.
  - exact (proj1 (proj2 (proj1 (proj2 (proj2 H2) (5 # 2)%Q 6
                                  ltac:(discriminate) eq_refl eq_refl eq_refl)
                           eq_refl eq_refl))).
  - exact (proj1 (proj2 (proj2 (proj2 H4) (5 # 2)%Q (2 ^ 63)
                           ltac:(discriminate) eq_refl eq_refl eq_refl)
                    (or_introl eq_refl))).
  - exact H3.
Defined.

(** The inventory that the text menu shows for the shop. *)
Lemma menu_inventory_in_id_order_shop :
  inventory shop <> [] /\
  pos_system.view_inventory shop = pos_system.Table (inventory shop).
Proof.
  split; [discriminate|].
  exact (proj2 (proj2 (proj2 (menu_inventory_in_id_order shop)))
           ltac:(discriminate)).
Defined.

(** Two lines that are not numbers, then 12. *)
Lemma prompt_yields_first_readable_line_shop :
  Forall (fun line => py_int (strip line) = None) ["twelve"; ""] /\
  py_int (strip " 12 ") = Some 12 /\
  pos_system.prompt_for_int py_int ["twelve"; ""; " 12 "; "7"] =
    pos_system.Prompt_value 12 2 ["7"] /\
  pos_system.prompt_for_int py_int ["twelve"; ""] = pos_system.Prompt_EOFError 2.
Proof.
  assert (Hbad : Forall (fun line => py_int (strip line) = None) ["twelve"; ""]).
  { repeat constructor. }
  split; [exact Hbad|]. split; [reflexivity|].
  pose proof (proj1 (prompt_yields_first_readable_line py_float py_int
                       ["twelve"; ""] ["7"] " 12 ") Hbad) as H.
  split; [exact (proj1 H 12 eq_refl) | exact (proj2 H)].
Defined.

(** A query without placeholder is left as it is. *)
Lemma adapt_sql_replaces_every_placeholder_query :
  placeholders "SELECT id, name FROM inventory" = O /\
  pos_system.adapt_sql "SELECT id, name FROM inventory" true true =
    "SELECT id, name FROM inventory" /\
  pos_system.adapt_sql "SELECT name FROM inventory WHERE id = ?" true true =
    "SELECT name FROM inventory WHERE id = %s".
Proof.
  split; [reflexivity|]. split; [|reflexivity].
  apply (proj1 (proj2 (proj2 (proj2 (proj2
           (adapt_sql_replaces_every_placeholder
              "SELECT id, name FROM inventory" true true)))))).
  reflexivity.
Defined.

(** The text menu renames the tea as the web page does. *)
Lemma menu_and_web_write_the_same_shop :
  NoDup (map Inventory.id (inventory shop)) /\
  fst (pos_system.update_item isnan 1 (Some " Green tea ") None (Some 6) shop) =
    update_item_db isnan 1 (Some " Green tea ") None (Some 6) None shop.
Proof.
  split; [exact (proj1 keys_ok_shop)|].
  exact (proj2 (menu_and_web_write_the_same price_mul isnan 1 3 t1
                  (Some " Green tea ") None (Some 6) shop)
           (proj1 keys_ok_shop)).
Defined.

(** A file named as an extension, without a dot, is accepted as an upload
    and refused by [allowed_file]. *)
Lemma allowed_file_is_stricter_png :
  contains_dot "PNG" = false /\
  allowed_file "PNG" = false /\
  image_rejected (Some "PNG") = false /\
  allowed_file "tea.PNG" = true.
Proof.
  split; [reflexivity|].
  pose proof (proj2 (proj2 (allowed_file_is_stricter "P"%char "NG")) eq_refl) as H.
  split; [exact (proj1 H)|]. split; [exact (proj2 H) | reflexivity].
Defined.
